(** * Tile-grid physics and collision core of the okthon1 platformer

    A shallow embedding of [player.py], [npc.py], [map_utils.py] and
    [Game.create_collision_grid] of [fornewmap.py], with the properties of
    the collision resolver stated over it; then of the tileset lookup, the
    camera, the quest, the health and inventory code and the animation
    of the same files and of [dialogue.py], [medicine.py] and
    [item_system.py].

    Numbers.  Positions, velocities and time steps are Python floats in
    the source.  They are embedded as exact rationals ([Q]): every
    property below is about control flow and about values the code assigns
    (integers such as [tile.top - height]), not about rounding.  Integer
    quantities (sizes, tile indices, tile identifiers) are [Z].

    Errors.  A Python exception ([IndexError], and in the animation code
    [KeyError] and [ZeroDivisionError]) is the [None] of the option
    monad. *)

From Stdlib Require Import ZArith QArith Qround Qabs Lia Lqa.
From stdpp Require Import base option list gmap strings pretty.

Local Open Scope Z_scope.

(** ** Python built-ins used by the source *)

Module Py.

(** [int(q)] on a float, and the coordinate conversion of [pygame.Rect]:
    truncation toward zero. *)
Definition int (q : Q) : Z := Z.quot (Qnum q) (Zpos (Qden q)).

(** [a // b] followed by [int(...)]: the floor of the quotient. *)
Definition floordiv (a : Q) (b : Z) : Z := Qfloor (a / inject_Z b).

Definition ltb (a b : Q) : bool :=
  match (a ?= b)%Q with Lt => true | _ => false end.
Definition leb (a b : Q) : bool :=
  match (a ?= b)%Q with Gt => false | _ => true end.

(** [max(a, b)] and [min(a, b)] return the first argument on a tie. *)
Definition max (a b : Q) : Q := if ltb a b then b else a.
Definition min (a b : Q) : Q := if ltb b a then b else a.

Definition len {A} (l : list A) : Z := Z.of_nat (length l).

(** [range(a, b)]: empty when [b <= a]. *)
Definition range (a b : Z) : list Z := seqZ a (b - a).

(** [l[i]] for a possibly negative index. *)
Definition index {A} (l : list A) (i : Z) : option A :=
  if 0 <=? i then l !! Z.to_nat i
  else if 0 <=? len l + i then l !! Z.to_nat (len l + i)
  else None.

(** [for i in l: body], threading the mutated state; an exception raised
    by the body leaves the loop. *)
Fixpoint for_in {I S} (l : list I) (body : I -> S -> option S) (s : S)
  : option S :=
  match l with
  | [] => Some s
  | i :: l' =>
      match body i s with
      | Some s' => for_in l' body s'
      | None => None
      end
  end.

End Py.

(** ** The part of pygame the collision code relies on

    [pygame.Rect(x, y, w, h)] stores integers; [colliderect] is strict
    overlap of the normalised rectangles, and a rectangle of zero width
    or height collides with nothing. *)

Module Pygame.

Record Rect := mkRect { rx : Z; ry : Z; rw : Z; rh : Z }.

Definition Rect_of (x y : Q) (w h : Z) : Rect :=
  mkRect (Py.int x) (Py.int y) w h.

Definition left (r : Rect) : Z := rx r.
Definition top (r : Rect) : Z := ry r.
Definition right (r : Rect) : Z := rx r + rw r.
Definition bottom (r : Rect) : Z := ry r + rh r.

Definition colliderect (a b : Rect) : bool :=
  if (rw a =? 0) || (rh a =? 0) || (rw b =? 0) || (rh b =? 0) then false
  else
    (Z.min (rx a) (rx a + rw a) <? Z.max (rx b) (rx b + rw b))
    && (Z.min (ry a) (ry a + rh a) <? Z.max (ry b) (ry b + rh b))
    && (Z.min (rx b) (rx b + rw b) <? Z.max (rx a) (rx a + rw a))
    && (Z.min (ry b) (ry b + rh b) <? Z.max (ry a) (ry a + rh a)).

End Pygame.

(** ** The collision grid *)

Definition tile_size : Z := 32.

(** [tiles[r][c]] for non-negative [r] and [c]. *)
Definition tile_at (tiles : list (list Z)) (r c : Z) : option Z :=
  row ← tiles !! Z.to_nat r; row !! Z.to_nat c.

Definition tile_rect (c r : Z) : Pygame.Rect :=
  Pygame.mkRect (c * tile_size) (r * tile_size) tile_size tile_size.

(** Keys sampled by [pygame.key.get_pressed()]. *)
Record Keys := mkKeys {
  K_LEFT : bool; K_RIGHT : bool; K_SPACE : bool; K_a : bool; K_d : bool;
  K_f : bool }.

Definition no_keys : Keys := mkKeys false false false false false false.

(** ** [player.py]: class [Player]

    The fields kept are the ones the physics reads or writes.  Sprites,
    sounds, the health system and the thrown knives are left out: no
    statement of [update] that touches them reads or writes a field kept
    here. *)

Module Player.

Record t := mk {
  x : Q; y : Q; width : Z; height : Z;
  vel_x : Q; vel_y : Q;
  speed : Q; jump_speed : Q; gravity : Q; max_fall_speed : Q;
  on_ground : bool; jump_count : Z;
  is_dashing : bool; dash_duration : Q; dash_timer : Q;
  dash_cooldown_timer : Q; dash_cooldown : Q;
  facing_right : bool }.

Definition set_x (self : t) (v : Q) : t :=
  let 'mk _ a b c d e f g h i j k l m n o p q := self in
  mk v a b c d e f g h i j k l m n o p q.
Definition set_y (self : t) (v : Q) : t :=
  let 'mk a _ b c d e f g h i j k l m n o p q := self in
  mk a v b c d e f g h i j k l m n o p q.
Definition set_vel_x (self : t) (v : Q) : t :=
  let 'mk a b c d _ e f g h i j k l m n o p q := self in
  mk a b c d v e f g h i j k l m n o p q.
Definition set_vel_y (self : t) (v : Q) : t :=
  let 'mk a b c d e _ f g h i j k l m n o p q := self in
  mk a b c d e v f g h i j k l m n o p q.
Definition set_on_ground (self : t) (v : bool) : t :=
  let 'mk a b c d e f g h i j _ k l m n o p q := self in
  mk a b c d e f g h i j v k l m n o p q.
Definition set_jump_count (self : t) (v : Z) : t :=
  let 'mk a b c d e f g h i j k _ l m n o p q := self in
  mk a b c d e f g h i j k v l m n o p q.
Definition set_is_dashing (self : t) (v : bool) : t :=
  let 'mk a b c d e f g h i j k l _ m n o p q := self in
  mk a b c d e f g h i j k l v m n o p q.
Definition set_dash_timer (self : t) (v : Q) : t :=
  let 'mk a b c d e f g h i j k l m n _ o p q := self in
  mk a b c d e f g h i j k l m n v o p q.
Definition set_dash_cooldown_timer (self : t) (v : Q) : t :=
  let 'mk a b c d e f g h i j k l m n o _ p q := self in
  mk a b c d e f g h i j k l m n o v p q.
Definition set_facing_right (self : t) (v : bool) : t :=
  let 'mk a b c d e f g h i j k l m n o p q _ := self in
  mk a b c d e f g h i j k l m n o p q v.

(** [Player.__init__(x, y, scale_factor)]. *)
Definition init (x0 y0 scale_factor : Q) : t :=
  {| x := x0; y := y0;
     width := Py.int (32 * scale_factor);
     height := Py.int (32 * scale_factor);
     vel_x := 0; vel_y := 0;
     speed := 150; jump_speed := -450; gravity := 1000;
     max_fall_speed := 500;
     on_ground := false; jump_count := 0;
     is_dashing := false; dash_duration := 2 # 10; dash_timer := 0;
     dash_cooldown_timer := 0; dash_cooldown := 1;
     facing_right := true |}.

Definition rect (self : t) : Pygame.Rect :=
  Pygame.Rect_of (x self) (y self) (width self) (height self).

Definition handle_normal_movement (keys : Keys) (dt : Q) (self : t) : t :=
  let self :=
    if K_LEFT keys then
      set_facing_right (set_vel_x self (- speed self)) false
    else if K_RIGHT keys then
      set_facing_right (set_vel_x self (speed self)) true
    else set_vel_x self 0 in
  let self :=
    if K_SPACE keys && on_ground self then
      set_jump_count
        (set_on_ground (set_vel_y self (jump_speed self)) false)
        (jump_count self + 1)
    else self in
  if K_d keys && negb (is_dashing self)
     && Py.leb (dash_cooldown_timer self) 0 then
    set_dash_cooldown_timer
      (set_dash_timer (set_is_dashing self true) (dash_duration self))
      (dash_cooldown self)
  else self.

Definition check_horizontal_collisions (tiles : list (list Z)) (self : t)
  : option t :=
  let player_rect := rect self in
  let player_tile_x := Py.floordiv (x self) tile_size in
  let player_tile_y := Py.floordiv (y self) tile_size in
  tiles0 ← tiles !! 0%nat;
  let start_x := Z.max 0 (player_tile_x - 2) in
  let end_x := Z.min (Py.len tiles0) (player_tile_x + 4) in
  let start_y := Z.max 0 (player_tile_y - 2) in
  let end_y := Z.min (Py.len tiles) (player_tile_y + 4) in
  Py.for_in (Py.range start_y end_y) (fun ty self =>
    Py.for_in (Py.range start_x end_x) (fun tx self =>
      if (ty <? Py.len tiles) && (tx <? Py.len tiles0) then
        tile_gid ← tile_at tiles ty tx;
        if negb (tile_gid =? 0) then
          let tile_rect := tile_rect tx ty in
          if Pygame.colliderect player_rect tile_rect then
            if Py.ltb 0 (vel_x self) || is_dashing self then
              Some (set_x self
                      (inject_Z (Pygame.left tile_rect - width self)))
            else if Py.ltb (vel_x self) 0 || is_dashing self then
              Some (set_x self (inject_Z (Pygame.right tile_rect)))
            else Some self
          else Some self
        else Some self
      else Some self) self) self.

Definition ground_y : Z := 928.

(** The loop of [check_vertical_collisions], after [on_ground] was
    reset. *)
Definition vertical_sweep (tiles : list (list Z)) (self : t) : option t :=
  let player_rect := rect self in
  let player_tile_x := Py.floordiv (x self) tile_size in
  let player_tile_y := Py.floordiv (y self) tile_size in
  tiles0 ← tiles !! 0%nat;
  let start_x := Z.max 0 (player_tile_x - 3) in
  let end_x := Z.min (Py.len tiles0) (player_tile_x + 5) in
  let start_y := Z.max 0 (player_tile_y - 3) in
  let end_y := Z.min (Py.len tiles) (player_tile_y + 5) in
  Py.for_in (Py.range start_y end_y) (fun ty self =>
    Py.for_in (Py.range start_x end_x) (fun tx self =>
      if (ty <? Py.len tiles) && (tx <? Py.len tiles0) then
        tile_gid ← tile_at tiles ty tx;
        if negb (tile_gid =? 0) then
          let tile_rect := tile_rect tx ty in
          if Pygame.colliderect player_rect tile_rect then
            if Py.ltb 0 (vel_y self) then
              Some (set_jump_count
                      (set_on_ground
                         (set_vel_y
                            (set_y self
                               (inject_Z (Pygame.top tile_rect
                                          - height self)))
                            0)
                         true)
                      0)
            else if Py.ltb (vel_y self) 0 then
              Some (set_vel_y
                      (set_y self (inject_Z (Pygame.bottom tile_rect)))
                      0)
            else Some self
          else Some self
        else Some self
      else Some self) self) self.

(** The "very close to ground" check that ends
    [check_vertical_collisions]. *)
Definition ground_snap (self : t) : t :=
  if negb (on_ground self) && Py.leb 0 (vel_y self) then
    if Py.leb (Qabs (y self + inject_Z (height self) - inject_Z ground_y))
              2 then
      set_jump_count
        (set_on_ground
           (set_vel_y (set_y self (inject_Z (ground_y - height self))) 0)
           true)
        0
    else self
  else self.

Definition check_vertical_collisions (tiles : list (list Z)) (self : t)
  : option t :=
  let self := set_on_ground self false in
  self ← vertical_sweep tiles self;
  Some (ground_snap self).

(** [if ground_tiles:] is false for [None] and for the empty list. *)
Definition truthy (ground_tiles : option (list (list Z))) : bool :=
  match ground_tiles with
  | Some (_ :: _) => true
  | _ => false
  end.

(** The statements of [update] under "Apply gravity" and "Limit fall
    speed". *)
Definition apply_gravity (dt : Q) (self : t) : t :=
  let self := set_vel_y self (vel_y self + gravity self * dt) in
  if Py.ltb (max_fall_speed self) (vel_y self) then
    set_vel_y self (max_fall_speed self)
  else self.

(** The statements of [update] under "Update dash". *)
Definition update_dash (dt : Q) (self : t) : t :=
  let self :=
    if is_dashing self then
      let self := set_dash_timer self (dash_timer self - dt) in
      if Py.leb (dash_timer self) 0 then set_is_dashing self false
      else self
    else self in
  if Py.ltb 0 (dash_cooldown_timer self) then
    set_dash_cooldown_timer self (dash_cooldown_timer self - dt)
  else self.

(** [Player.update], up to and including the dash timers. *)
Definition update (dt : Q) (keys : Keys)
    (ground_tiles : option (list (list Z))) (self : t) : option t :=
  let self := handle_normal_movement keys dt self in
  let self := apply_gravity dt self in
  let self := set_x self (x self + vel_x self * dt) in
  let self := set_y self (y self + vel_y self * dt) in
  let map_width := 1920 in
  let map_height := 960 in
  let self :=
    set_x self
      (Py.max 0 (Py.min (x self) (inject_Z (map_width - width self)))) in
  let self :=
    set_y self
      (Py.max 0 (Py.min (y self) (inject_Z (map_height - height self)))) in
  let ground_level := 928 in
  let self :=
    if Py.ltb (inject_Z ground_level) (y self) then
      set_on_ground
        (set_vel_y (set_y self (inject_Z (ground_level - height self))) 0)
        true
    else self in
  self ←
    (if truthy ground_tiles then
       self ← check_horizontal_collisions (default [] ground_tiles) self;
       check_vertical_collisions (default [] ground_tiles) self
     else Some self);
  Some (update_dash dt self).

End Player.

(** ** Sprites and animation states, shared by [Player] and [NPC] *)

(** A sprite: an image loaded from a path, or the coloured surface made
    when the file is missing. *)
Inductive Sprite :=
| Image (path : string)
| Fallback.

(** The state that both classes derive from the physics: ['jump'] off
    the ground, ['run'] above five pixels per second, ['idle']
    otherwise. *)
Definition animation_state (on_ground : bool) (vel_x : Q) : string :=
  if negb on_ground then "jump"
  else if Py.ltb 5 (Qabs vel_x) then "run"
  else "idle".

(** ** [npc.py]: class [NPC]

    The NPC carries a copy of the player's physics with its own
    constants; it has no [max_fall_speed], no map clamp and no ground
    snap.  The fields of the object are kept in two records: the
    physics ([t]) and the animation ([anim]), which [update] threads
    together.  Quest and dialogue fields are modelled further down;
    sound fields are left out. *)

Module NPC.

Record t := mk {
  x : Q; y : Q; width : Z; height : Z;
  vel_x : Q; vel_y : Q;
  speed : Q; jump_speed : Q; gravity : Q;
  on_ground : bool; jump_count : Z;
  is_dashing : bool; dash_duration : Q; dash_timer : Q;
  dash_cooldown_timer : Q; dash_cooldown : Q;
  facing_right : bool }.

Definition set_x (self : t) (v : Q) : t :=
  let 'mk _ a b c d e f g h i j k l m n o p := self in
  mk v a b c d e f g h i j k l m n o p.
Definition set_y (self : t) (v : Q) : t :=
  let 'mk a _ b c d e f g h i j k l m n o p := self in
  mk a v b c d e f g h i j k l m n o p.
Definition set_vel_x (self : t) (v : Q) : t :=
  let 'mk a b c d _ e f g h i j k l m n o p := self in
  mk a b c d v e f g h i j k l m n o p.
Definition set_vel_y (self : t) (v : Q) : t :=
  let 'mk a b c d e _ f g h i j k l m n o p := self in
  mk a b c d e v f g h i j k l m n o p.
Definition set_on_ground (self : t) (v : bool) : t :=
  let 'mk a b c d e f g h i _ j k l m n o p := self in
  mk a b c d e f g h i v j k l m n o p.
Definition set_jump_count (self : t) (v : Z) : t :=
  let 'mk a b c d e f g h i j _ k l m n o p := self in
  mk a b c d e f g h i j v k l m n o p.
Definition set_is_dashing (self : t) (v : bool) : t :=
  let 'mk a b c d e f g h i j k _ l m n o p := self in
  mk a b c d e f g h i j k v l m n o p.
Definition set_dash_timer (self : t) (v : Q) : t :=
  let 'mk a b c d e f g h i j k l m _ n o p := self in
  mk a b c d e f g h i j k l m v n o p.
Definition set_dash_cooldown_timer (self : t) (v : Q) : t :=
  let 'mk a b c d e f g h i j k l m n _ o p := self in
  mk a b c d e f g h i j k l m n v o p.
Definition set_facing_right (self : t) (v : bool) : t :=
  let 'mk a b c d e f g h i j k l m n o p _ := self in
  mk a b c d e f g h i j k l m n o p v.

(** [NPC.__init__(x, y, scale_factor)]. *)
Definition init (x0 y0 scale_factor : Q) : t :=
  {| x := x0; y := y0;
     width := Py.int (60 * scale_factor);
     height := Py.int (60 * scale_factor);
     vel_x := 0; vel_y := 0;
     speed := 100 * scale_factor; jump_speed := -300 * scale_factor;
     gravity := 600 * scale_factor;
     on_ground := false; jump_count := 0;
     is_dashing := false; dash_duration := 2 # 10; dash_timer := 0;
     dash_cooldown_timer := 0; dash_cooldown := 1;
     facing_right := true |}.

Definition rect (self : t) : Pygame.Rect :=
  Pygame.Rect_of (x self) (y self) (width self) (height self).

Definition handle_normal_movement (keys : Keys) (dt : Q) (self : t) : t :=
  let self :=
    if K_a keys || K_LEFT keys then
      set_facing_right (set_vel_x self (- speed self)) false
    else if K_d keys || K_RIGHT keys then
      set_facing_right (set_vel_x self (speed self)) true
    else set_vel_x self 0 in
  let self :=
    if K_SPACE keys && on_ground self then
      set_jump_count
        (set_on_ground (set_vel_y self (jump_speed self)) false)
        (jump_count self + 1)
    else self in
  if K_d keys && negb (is_dashing self)
     && Py.leb (dash_cooldown_timer self) 0 then
    set_dash_cooldown_timer
      (set_dash_timer (set_is_dashing self true) (dash_duration self))
      (dash_cooldown self)
  else self.

Definition check_horizontal_collisions (tiles : list (list Z)) (self : t)
  : option t :=
  let player_rect := rect self in
  let player_tile_x := Py.floordiv (x self) tile_size in
  let player_tile_y := Py.floordiv (y self) tile_size in
  tiles0 ← tiles !! 0%nat;
  let start_x := Z.max 0 (player_tile_x - 2) in
  let end_x := Z.min (Py.len tiles0) (player_tile_x + 4) in
  let start_y := Z.max 0 (player_tile_y - 2) in
  let end_y := Z.min (Py.len tiles) (player_tile_y + 4) in
  Py.for_in (Py.range start_y end_y) (fun ty self =>
    Py.for_in (Py.range start_x end_x) (fun tx self =>
      if (ty <? Py.len tiles) && (tx <? Py.len tiles0) then
        tile_gid ← tile_at tiles ty tx;
        if negb (tile_gid =? 0) then
          let tile_rect := tile_rect tx ty in
          if Pygame.colliderect player_rect tile_rect then
            if Py.ltb 0 (vel_x self) then
              Some (set_x self
                      (inject_Z (Pygame.left tile_rect - width self)))
            else if Py.ltb (vel_x self) 0 then
              Some (set_x self (inject_Z (Pygame.right tile_rect)))
            else Some self
          else Some self
        else Some self
      else Some self) self) self.

(** The loop of [check_vertical_collisions], after [on_ground] was
    reset. *)
Definition vertical_sweep (tiles : list (list Z)) (self : t) : option t :=
  let player_rect := rect self in
  let player_tile_x := Py.floordiv (x self) tile_size in
  let player_tile_y := Py.floordiv (y self) tile_size in
  tiles0 ← tiles !! 0%nat;
  let start_x := Z.max 0 (player_tile_x - 2) in
  let end_x := Z.min (Py.len tiles0) (player_tile_x + 4) in
  let start_y := Z.max 0 (player_tile_y - 2) in
  let end_y := Z.min (Py.len tiles) (player_tile_y + 4) in
  Py.for_in (Py.range start_y end_y) (fun ty self =>
    Py.for_in (Py.range start_x end_x) (fun tx self =>
      if (ty <? Py.len tiles) && (tx <? Py.len tiles0) then
        tile_gid ← tile_at tiles ty tx;
        if negb (tile_gid =? 0) then
          let tile_rect := tile_rect tx ty in
          if Pygame.colliderect player_rect tile_rect then
            if Py.ltb 0 (vel_y self) then
              Some (set_jump_count
                      (set_on_ground
                         (set_vel_y
                            (set_y self
                               (inject_Z (Pygame.top tile_rect
                                          - height self)))
                            0)
                         true)
                      0)
            else if Py.ltb (vel_y self) 0 then
              Some (set_vel_y
                      (set_y self (inject_Z (Pygame.bottom tile_rect)))
                      0)
            else Some self
          else Some self
        else Some self
      else Some self) self) self.

Definition check_vertical_collisions (tiles : list (list Z)) (self : t)
  : option t :=
  let self := set_on_ground self false in
  vertical_sweep tiles self.

Definition truthy (collision_grid : option (list (list Z))) : bool :=
  match collision_grid with
  | Some (_ :: _) => true
  | _ => false
  end.

(** The statement of [update] under "Apply gravity"; nothing limits
    the fall speed. *)
Definition apply_gravity (dt : Q) (self : t) : t :=
  set_vel_y self (vel_y self + gravity self * dt).

(** The statements of [update] under "Update dash". *)
Definition update_dash (dt : Q) (self : t) : t :=
  let self :=
    if is_dashing self then
      let self := set_dash_timer self (dash_timer self - dt) in
      if Py.leb (dash_timer self) 0 then set_is_dashing self false
      else self
    else self in
  if Py.ltb 0 (dash_cooldown_timer self) then
    set_dash_cooldown_timer self (dash_cooldown_timer self - dt)
  else self.

(** The animation fields of [NPC]. *)
Record anim := mk_anim {
  animation_index : Z; animation_timer : Q; animation_speed : Q;
  state : string; sprite_frames : gmap string (list Sprite);
  current_sprite : Sprite }.

(** [load_sprites]: every path gives a frame, the image when the file
    exists and a fallback surface otherwise. *)
Definition load_frame (file_exists : string -> bool) (path : string)
  : Sprite :=
  if file_exists path then Image path else Fallback.

Definition load_sprites (file_exists : string -> bool)
  : gmap string (list Sprite) :=
  <["idle" := [ load_frame file_exists "game images/front facing.png" ]]>
  (<["walk" :=
       map (load_frame file_exists)
         [ "game images/front facing.png"; "game images/left.png";
           "game images/front facing.png"; "game images/left.png" ]]>
  (<["run" :=
       map (load_frame file_exists)
         [ "game images/front facing.png"; "game images/left.png";
           "game images/front facing.png"; "game images/left.png" ]]>
  (<["jump" :=
       map (load_frame file_exists)
         [ "game images/jump.png"; "game images/jump.png";
           "game images/jump.png" ]]> ∅)))%string.


(** [update_animation]; [self] holds the physics fields that the method
    reads, [anim] the animation fields that it writes.  [None] stands
    for the exception of a missing key, an index out of range or a
    division by zero. *)
Definition update_animation (dt : Q) (self : t) (anim : anim)
  : option NPC.anim :=
  let animation_timer := (animation_timer anim + dt)%Q in
  let state := animation_state (on_ground self) (vel_x self) in
  let sprite_frames := sprite_frames anim in
  '(animation_timer, animation_index) ←
    (if Py.leb (animation_speed anim) animation_timer then
       match sprite_frames !! state with
       | Some frames =>
           if Py.len frames =? 0 then None
           else Some (0%Q, (animation_index anim + 1) `mod` Py.len frames)
       | None => Some (0%Q, 0)
       end
     else Some (animation_timer, animation_index anim));
  current_sprite ←
    match sprite_frames !! state with
    | Some frames => Py.index frames animation_index
    | None => frames ← sprite_frames !! "idle"%string; Py.index frames 0
    end;
  Some (mk_anim animation_index animation_timer (animation_speed anim)
          state sprite_frames current_sprite).


(** [NPC.update]; [handle_knife_throwing] does nothing.  The call of
    [update_animation] comes after the collision passes and before the
    dash timers, and an exception it raises ends the update. *)
Definition update (dt : Q) (keys : Keys)
    (collision_grid : option (list (list Z))) (self : t) (anim : anim)
  : option (t * NPC.anim) :=
  let self := handle_normal_movement keys dt self in
  let self := apply_gravity dt self in
  let self := set_x self (x self + vel_x self * dt) in
  let self := set_y self (y self + vel_y self * dt) in
  self ←
    (if truthy collision_grid then
       self ← check_horizontal_collisions (default [] collision_grid) self;
       check_vertical_collisions (default [] collision_grid) self
     else Some self);
  anim ← update_animation dt self anim;
  Some (update_dash dt self, anim).

End NPC.

(** ** Building the solid grid: [map_utils.py] and [Game] *)

(** One entry of the [layers] list built by [load_tmx_map] and by
    [Game.load_tmx_map_with_tilesets]: the dictionary with keys ['name'],
    ['width'], ['height'] and ['data'] (the flat, row-major tile list). *)
Record Layer := mkLayer {
  layer_name : string; layer_width : Z; layer_height : Z;
  layer_data : list Z }.

(** [grid[y][x] = v]. *)
Definition set_cell (grid : list (list Z)) (y x v : Z)
  : option (list (list Z)) :=
  row ← Py.index grid y;
  _ ← Py.index row x;
  Some (<[Z.to_nat y := <[Z.to_nat x := v]> row]> grid).

(** [[[0 for _ in range(width)] for _ in range(height)]]. *)
Definition zero_grid (width height : Z) : list (list Z) :=
  replicate (Z.to_nat height) (replicate (Z.to_nat width) 0).

Module MapUtils.

(** [extract_ground_layer] tests [name in layers] and reads
    [layers[name][y][x]]: it is written for a table from layer names to
    two-dimensional arrays.  [load_tmx_map] of the same file returns a
    list of layer dictionaries, for which [name in layers] compares a
    string with dictionaries and is false. *)
Inductive layers_t :=
| ByName (m : gmap string (list (list Z)))
| LayerList (l : list Layer).

Record map_data_t := mk {
  width : Z; height : Z; tilewidth : Z; tileheight : Z;
  layers : layers_t }.

(** [name in layers]. *)
Definition contains (name : string) (layers : layers_t) : bool :=
  match layers with
  | ByName m => bool_decide (is_Some (m !! name))
  | LayerList _ => false
  end.

(** [layers[name][y][x]]. *)
Definition layer_cell (layers : layers_t) (name : string) (y x : Z)
  : option Z :=
  match layers with
  | ByName m => g ← m !! name; row ← Py.index g y; Py.index row x
  | LayerList _ => None
  end.

Definition solid_layer_names : list string := ["ground"; "ground1"]%string.

Definition extract_ground_layer (map_data : map_data_t)
  : option (list (list Z)) :=
  let width := width map_data in
  let height := height map_data in
  let layers := layers map_data in
  let solid_grid := zero_grid width height in
  Py.for_in solid_layer_names (fun name solid_grid =>
    if contains name layers then
      Py.for_in (Py.range 0 height) (fun y solid_grid =>
        Py.for_in (Py.range 0 width) (fun x solid_grid =>
          v ← layer_cell layers name y x;
          if negb (v =? 0) then set_cell solid_grid y x 1
          else Some solid_grid) solid_grid) solid_grid
    else Some solid_grid) solid_grid.

End MapUtils.

Module Game.

(** [self.map_data] as [load_tmx_map_with_tilesets] builds it; the
    object groups are not read by [create_collision_grid]. *)
Record map_data_t := mk {
  width : Z; height : Z; tilewidth : Z; tileheight : Z;
  layers : list Layer }.

(** The diagnostic loops [for x in range(0, min(10, len(grid[0])))]
    that print [grid[row][x]]: they change nothing but raise when the
    grid has no such row. *)
Definition print_row (grid : list (list Z)) (row : Z) : option unit :=
  grid0 ← Py.index grid 0;
  Py.for_in (Py.range 0 (Z.min 10 (Py.len grid0))) (fun x u =>
    r ← Py.index grid row; _ ← Py.index r x; Some u) tt.

Definition create_collision_grid (map_data : map_data_t)
  : option (list (list Z)) :=
  let grid := zero_grid (width map_data) (height map_data) in
  let ground_layer :=
    List.find (fun l => String.eqb (layer_name l) "ground")
              (layers map_data) in
  match ground_layer with
  | Some ground_layer =>
      grid ←
        Py.for_in (Py.range 0 (height map_data)) (fun y grid =>
          Py.for_in (Py.range 0 (width map_data)) (fun x grid =>
            let index := y * layer_width ground_layer + x in
            if index <? Py.len (layer_data ground_layer) then
              gid ← Py.index (layer_data ground_layer) index;
              if negb (gid =? 0) then set_cell grid y x 1
              else Some grid
            else Some grid) grid) grid;
      _ ← Py.index grid 0;
      _ ← print_row grid 25;
      _ ← print_row grid 29;
      Some grid
  | None => Some grid
  end.

End Game.

(** ** The resolver as the specification words it

    "For every solid tile in the window overlapping the body": the cells
    of the search window in row-major order, the solid ones among them
    whose rectangle overlaps the body's rectangle, and one resolution
    step per such tile. *)

Section Window.

Variable tiles : list (list Z).

(** Tile columns and rows searched around the tile [(ptx, pty)] that
    holds the body's position, [lo] tiles before it and up to [hi]
    (excluded) after it, cut to the grid. *)
Definition window (ptx pty lo hi : Z) : list (Z * Z) :=
  r ← Py.range (Z.max 0 (pty - lo))
               (Z.min (Py.len tiles) (pty + hi));
  c ← Py.range (Z.max 0 (ptx - lo))
               (Z.min (Py.len (default [] (tiles !! 0%nat))) (ptx + hi));
  [(r, c)].

Definition solid (rc : Z * Z) : bool :=
  match tile_at tiles rc.1 rc.2 with
  | Some gid => negb (gid =? 0)
  | None => false
  end.

Definition overlapping (body : Pygame.Rect) (rc : Z * Z) : bool :=
  solid rc && Pygame.colliderect body (tile_rect rc.2 rc.1).

(** The solid tiles of the window that overlap the body, in iteration
    order. *)
Definition hits (body : Pygame.Rect) (ptx pty lo hi : Z) : list (Z * Z) :=
  filter (fun rc => overlapping body rc = true) (window ptx pty lo hi).

End Window.

(** Every row is at least as long as the first one, so that no cell of a
    search window is missing. *)
Definition grid_ok (tiles : list (list Z)) : bool :=
  match tiles with
  | [] => false
  | tiles0 :: _ =>
      forallb (fun row => (length tiles0 <=? length row)%nat) tiles
  end.


Module PlayerSpec.
Import Player.

(** One vertical resolution step against the tile at [rc]. *)
Definition vertical_step (self : t) (rc : Z * Z) : t :=
  let tile := tile_rect rc.2 rc.1 in
  if Py.ltb 0 (vel_y self) then
    set_jump_count
      (set_on_ground
         (set_vel_y
            (set_y self (inject_Z (Pygame.top tile - height self))) 0)
         true) 0
  else if Py.ltb (vel_y self) 0 then
    set_vel_y (set_y self (inject_Z (Pygame.bottom tile))) 0
  else self.

Definition vertical_hits (tiles : list (list Z)) (self : t)
  : list (Z * Z) :=
  hits tiles (rect self) (Py.floordiv (x self) tile_size)
       (Py.floordiv (y self) tile_size) 3 5.

(** "Resets grounded to false at the start of the pass.  For every
    solid tile in the window overlapping the body: ..." *)
Definition resolve_vertical (tiles : list (list Z)) (self : t) : t :=
  foldl vertical_step (set_on_ground self false)
        (vertical_hits tiles self).

Definition horizontal_step (self : t) (rc : Z * Z) : t :=
  let tile := tile_rect rc.2 rc.1 in
  if Py.ltb 0 (vel_x self) || is_dashing self then
    set_x self (inject_Z (Pygame.left tile - width self))
  else if Py.ltb (vel_x self) 0 || is_dashing self then
    set_x self (inject_Z (Pygame.right tile))
  else self.

Definition horizontal_hits (tiles : list (list Z)) (self : t)
  : list (Z * Z) :=
  hits tiles (rect self) (Py.floordiv (x self) tile_size)
       (Py.floordiv (y self) tile_size) 2 4.

End PlayerSpec.

Module NPCSpec.
Import NPC.

Definition vertical_step (self : t) (rc : Z * Z) : t :=
  let tile := tile_rect rc.2 rc.1 in
  if Py.ltb 0 (vel_y self) then
    set_jump_count
      (set_on_ground
         (set_vel_y
            (set_y self (inject_Z (Pygame.top tile - height self))) 0)
         true) 0
  else if Py.ltb (vel_y self) 0 then
    set_vel_y (set_y self (inject_Z (Pygame.bottom tile))) 0
  else self.

Definition vertical_hits (tiles : list (list Z)) (self : t)
  : list (Z * Z) :=
  hits tiles (rect self) (Py.floordiv (x self) tile_size)
       (Py.floordiv (y self) tile_size) 2 4.

Definition resolve_vertical (tiles : list (list Z)) (self : t) : t :=
  foldl vertical_step (set_on_ground self false)
        (vertical_hits tiles self).

Definition horizontal_step (self : t) (rc : Z * Z) : t :=
  let tile := tile_rect rc.2 rc.1 in
  if Py.ltb 0 (vel_x self) then
    set_x self (inject_Z (Pygame.left tile - width self))
  else if Py.ltb (vel_x self) 0 then
    set_x self (inject_Z (Pygame.right tile))
  else self.

Definition horizontal_hits (tiles : list (list Z)) (self : t)
  : list (Z * Z) :=
  hits tiles (rect self) (Py.floordiv (x self) tile_size)
       (Py.floordiv (y self) tile_size) 2 4.

End NPCSpec.

(** ** Painting cells

    What the two grid builders do to one cell, as a total function, and
    the shape of the grid they work on. *)

Definition paint (grid : list (list Z)) (rc : Z * Z) : list (list Z) :=
  match grid !! Z.to_nat rc.1 with
  | Some row =>
      <[Z.to_nat rc.1 := <[Z.to_nat rc.2 := 1]> row]> grid
  | None => grid
  end.

Definition dims (grid : list (list Z)) (height width : Z) : Prop :=
  Py.len grid = Z.max 0 height
  /\ Forall (fun row => Py.len row = Z.max 0 width) grid.

(** The cells of a [height] by [width] map in row-major order. *)
Definition cells (height width : Z) : list (Z * Z) :=
  r ← Py.range 0 height; c ← Py.range 0 width; [(r, c)].

(** A layer given as a two-dimensional array has at least [height] rows
    of at least [width] entries. *)
Definition layer_covers (layer : list (list Z)) (height width : Z) : bool :=
  (height <=? Py.len layer)
  && forallb (fun row => width <=? Py.len row) layer.

Definition nonzero (v : option Z) : bool :=
  match v with Some gid => negb (gid =? 0) | None => false end.

(** ** Frames

    The game loop calls [update] once per frame with the frame's time
    step and keys.  [trace] lists the states after each call. *)

Module Frames.








End Frames.

(** ** Sample inputs *)

(** A grid of eleven rows and eight columns whose only solid tile is at
    row 10, column 5. *)
Definition one_tile_grid : list (list Z) :=
  replicate 10 (replicate 8 0) ++ [ [0; 0; 0; 0; 0; 1; 0; 0] ].

(** A grid of thirty rows and eight columns without a solid tile. *)
Definition open_grid : list (list Z) := replicate 30 (replicate 8 0).

(** An NPC of scale 3 (180 pixels wide) walking right from the origin,
    and a one-row grid whose only solid tile is at column 5. *)
Definition wide_npc : NPC.t := NPC.set_vel_x (NPC.init 0 0 3) 300.
Definition far_tile_grid : list (list Z) := [ [0; 0; 0; 0; 0; 1] ].

(** The player of the game (scale 2, 64 pixels) and the default one
    (scale 3/4, 24 pixels). *)
Definition game_player (x0 y0 : Q) : Player.t := Player.init x0 y0 2.


(** A 2 by 2 map with its layers indexed by name: [ground] is solid at
    (0, 0) and [ground1] at (1, 1). *)
Definition two_layer_map : MapUtils.map_data_t :=
  MapUtils.mk 2 2 32 32
    (MapUtils.ByName
       (<["ground" := [ [1; 0]; [0; 0] ]]>
          (<["ground1" := [ [0; 0]; [0; 7] ]]> ∅))).

(** A map one tile wide and thirty tiles high as the TMX loaders build
    it: [ground] is empty, [ground1] has a tile at (0, 0). *)
Definition ground1_only_layers : list Layer :=
  [ mkLayer "ground" 1 30 (replicate 30 0);
    mkLayer "ground1" 1 30 (5 :: replicate 29 0) ].
Definition ground1_only_map : Game.map_data_t :=
  Game.mk 1 30 32 32 ground1_only_layers.

(** ** The phases of [update]

    [update] first applies input, gravity, the position step and (for the
    player) the map clamps, then runs the collision passes, then the dash
    timers.  The first phase is named here so that properties of the whole
    function can be stated phase by phase. *)

Module Phases.

(** [Player.update] from its first statement to the ground-level clamp. *)
Definition player_moved (dt : Q) (keys : Keys) (self : Player.t)
  : Player.t :=
  let self := Player.handle_normal_movement keys dt self in
  let self := Player.apply_gravity dt self in
  let self :=
    Player.set_x self (Player.x self + Player.vel_x self * dt) in
  let self :=
    Player.set_y self (Player.y self + Player.vel_y self * dt) in
  let self :=
    Player.set_x self
      (Py.max 0 (Py.min (Player.x self)
                        (inject_Z (1920 - Player.width self)))) in
  let self :=
    Player.set_y self
      (Py.max 0 (Py.min (Player.y self)
                        (inject_Z (960 - Player.height self)))) in
  if Py.ltb (inject_Z 928) (Player.y self) then
    Player.set_on_ground
      (Player.set_vel_y
         (Player.set_y self (inject_Z (928 - Player.height self))) 0)
      true
  else self.

(** [NPC.update] from its first statement to the position step. *)
Definition npc_moved (dt : Q) (keys : Keys) (self : NPC.t) : NPC.t :=
  let self := NPC.handle_normal_movement keys dt self in
  let self := NPC.apply_gravity dt self in
  let self := NPC.set_x self (NPC.x self + NPC.vel_x self * dt) in
  NPC.set_y self (NPC.y self + NPC.vel_y self * dt).

(** The keys with the jump key released. *)
Definition release_space (keys : Keys) : Keys :=
  mkKeys (K_LEFT keys) (K_RIGHT keys) false (K_a keys) (K_d keys)
         (K_f keys).

End Phases.

(** The dash state of the player: [is_dashing], [dash_timer] and
    [dash_cooldown_timer]. *)
Definition player_dash_state (s : Player.t) : bool * Q * Q :=
  (Player.is_dashing s, Player.dash_timer s, Player.dash_cooldown_timer s).

(** Every cell of the grid is 0 or 1. *)
Definition binary_grid (grid : list (list Z)) : Prop :=
  Forall (Forall (fun v => v = 0 \/ v = 1)) grid.

(** [map_utils.extract_background_layer]: the same merge for the layers
    named [background] and [background1]. *)
Definition background_names : list string :=
  ["background"; "background1"]%string.

Definition extract_background_layer (map_data : MapUtils.map_data_t)
  : option (list (list Z)) :=
  let width := MapUtils.width map_data in
  let height := MapUtils.height map_data in
  let layers := MapUtils.layers map_data in
  let bg_grid := zero_grid width height in
  Py.for_in background_names (fun name bg_grid =>
    if MapUtils.contains name layers then
      Py.for_in (Py.range 0 height) (fun y bg_grid =>
        Py.for_in (Py.range 0 width) (fun x bg_grid =>
          v ← MapUtils.layer_cell layers name y x;
          if negb (v =? 0) then set_cell bg_grid y x 1
          else Some bg_grid) bg_grid) bg_grid
    else Some bg_grid) bg_grid.

(** The loop over layer names shared by [extract_ground_layer] and
    [extract_background_layer]. *)
Definition merge_layers (names : list string) (layers : MapUtils.layers_t)
    (width height : Z) (grid : list (list Z)) : option (list (list Z)) :=
  Py.for_in names (fun name grid =>
    if MapUtils.contains name layers then
      Py.for_in (Py.range 0 height) (fun y grid =>
        Py.for_in (Py.range 0 width) (fun x grid =>
          v ← MapUtils.layer_cell layers name y x;
          if negb (v =? 0) then set_cell grid y x 1
          else Some grid) grid) grid
    else Some grid) grid.

(** Whether one of the named layers of a name-indexed table has a
    non-zero identifier at cell [(r, c)]; a name that is not in the table
    contributes nothing. *)
Definition any_layer_solid (names : list string)
    (m : gmap string (list (list Z))) (r c : Z) : bool :=
  existsb (fun name => nonzero (g ← m !! name; tile_at g r c)) names.

(** Every named layer that is in the table has an entry at every cell of
    the map. *)
Definition cells_present (names : list string)
    (m : gmap string (list (list Z))) (height width : Z) : bool :=
  forallb (fun name =>
             match m !! name with
             | Some g =>
                 forallb (fun rc : Z * Z =>
                            bool_decide (is_Some (tile_at g rc.1 rc.2)))
                         (cells height width)
             | None => true
             end) names.

(** A map with a [background] layer only. *)
Definition background_only_map : MapUtils.map_data_t :=
  MapUtils.mk 2 2 32 32
    (MapUtils.ByName (<["background" := [ [0; 3]; [0; 0] ]]> ∅)).

(** A map two tiles high whose [ground] layer has one row. *)
Definition short_layer_map : MapUtils.map_data_t :=
  MapUtils.mk 2 2 32 32
    (MapUtils.ByName (<["ground" := [ [1; 0] ]]> ∅)).

(** A map like [ground1_only_map] but twenty tiles high. *)
Definition low_map : Game.map_data_t :=
  Game.mk 1 20 32 32
    [ mkLayer "ground" 1 20 (replicate 20 1) ].

(** A map whose table has a [ground] layer and no [ground1] layer. *)
Definition ground_only_map : MapUtils.map_data_t :=
  MapUtils.mk 2 2 32 32
    (MapUtils.ByName (<["ground" := [ [0; 4]; [0; 0] ]]> ∅)).

(** ** Other methods of [Game] in [fornewmap.py] *)

(** An entry of [self.tilesets]; the loaded image is left out. *)
Record Tileset := mkTileset {
  ts_tilewidth : Z; ts_tileheight : Z; ts_columns : Z; ts_name : string;
  ts_firstgid : Z }.

(** The view: the camera position and [_camera_debug_counter], which is
    absent until the first call. *)
Record Camera := mkCamera {
  camera_x : Q; camera_y : Q; camera_debug_counter : option Z }.

Module GameLoop.

(** One round of the loop over [self.tilesets.items()], on the pair
    [(best_tileset, best_firstgid)]. *)
Definition tileset_step (gid : Z) (best : option Tileset * Z)
    (item : Z * Tileset) : option Tileset * Z :=
  if (item.1 <=? gid) && (best.2 <? item.1) then (Some item.2, item.1)
  else best.

(** [get_tileset_for_gid]; [tilesets] lists the items of the dictionary
    in insertion order. *)
Definition get_tileset_for_gid (tilesets : list (Z * Tileset)) (gid : Z)
  : option Tileset :=
  if gid =? 0 then None
  else (foldl (tileset_step gid) (None, 0) tilesets).1.

(** [update_camera]; the debug prints are left out, the counter they
    depend on is kept. *)
Definition update_camera (map_data : Game.map_data_t)
    (screen_width screen_height : Z) (player : Player.t) (cam : Camera)
  : Camera :=
  let map_width := Game.width map_data * Game.tilewidth map_data in
  let map_height := Game.height map_data * Game.tileheight map_data in
  let target_camera_x := (Player.x player - inject_Z (screen_width / 2))%Q in
  let target_camera_y := (Player.y player - inject_Z (screen_height / 2))%Q in
  let max_camera_x := Z.max 0 (map_width - screen_width) in
  let max_camera_y := Z.max 0 (map_height - screen_height) in
  mkCamera
    (Py.max 0 (Py.min target_camera_x (inject_Z max_camera_x)))
    (Py.max 0 (Py.min target_camera_y (inject_Z max_camera_y)))
    (match camera_debug_counter cam with
     | Some n => Some (n + 1)
     | None => Some 0
     end).

End GameLoop.

(** Two tilesets as the loader enters them, the later one first. *)
Definition two_tilesets : list (Z * Tileset) :=
  [ (257, mkTileset 32 32 8 "4.tsx" 257);
    (1, mkTileset 32 32 16 "2.tsx" 1) ].

(** The map of the game: sixty by thirty tiles of 32 pixels. *)
Definition game_map : Game.map_data_t := Game.mk 60 30 32 32 [].

(** ** The quest: [dialogue.py], [medicine.py], the quest part of [NPC]
    and of [Game] *)

Module DialogueBox.

(** [DialogueBox]; the screen size, read by [draw] only, is left out. *)
Record t := mk {
  lines : list (string * string); display_time : Q; index : Z; timer : Q;
  active : bool }.

Definition set_index (self : t) (v : Z) : t :=
  mk (lines self) (display_time self) v (timer self) (active self).
Definition set_timer (self : t) (v : Q) : t :=
  mk (lines self) (display_time self) (index self) v (active self).
Definition set_active (self : t) (v : bool) : t :=
  mk (lines self) (display_time self) (index self) (timer self) v.

Definition init (lines : list (string * string)) : t :=
  mk lines (5 # 2) 0 0 true.

Definition update (dt : Q) (self : t) : t :=
  if negb (active self) then self
  else
    let self := set_timer self (timer self + dt) in
    if Py.ltb (display_time self) (timer self) then
      let self := set_timer self 0 in
      let self := set_index self (index self + 1) in
      if Py.len (lines self) <=? index self then set_active self false
      else self
    else self.

Definition next_line (self : t) : t :=
  let self := set_timer self 0 in
  let self := set_index self (index self + 1) in
  if Py.len (lines self) <=? index self then set_active self false
  else self.

Definition is_active (self : t) : bool := active self.

End DialogueBox.

Module NPCQuest.

(** [self.dialogue_lines]. *)
Record lines_t := mkLines {
  greeting : string; quest_offer : string; quest_accepted_line : string;
  quest_in_progress : string; quest_complete : string;
  quest_finished : string }.

(** The quest fields of [NPC]. *)
Record t := mk {
  quest_accepted : bool; quest_completed : bool; required_items : Z;
  collected_items : Z; dialogue_lines : lines_t }.

Definition set_quest_accepted (self : t) (v : bool) : t :=
  mk v (quest_completed self) (required_items self) (collected_items self)
     (dialogue_lines self).
Definition set_quest_completed (self : t) (v : bool) : t :=
  mk (quest_accepted self) v (required_items self) (collected_items self)
     (dialogue_lines self).
Definition set_collected_items (self : t) (v : Z) : t :=
  mk (quest_accepted self) (quest_completed self) (required_items self) v
     (dialogue_lines self).

(** [__init__]: the progress line is an f-string, formatted here from
    the two counters as they are at that point. *)
Definition init : t :=
  let required_items := 3 in
  let collected_items := 0 in
  mk false false required_items collected_items
     (mkLines
        "Hello traveler! I am in need of your help."
        "The villagers are sick and need medicine. Can you collect 3 medicine items for me?"
        "Thank you! Please find the medicine items scattered around the map."
        ("You have collected " +:+ pretty collected_items +:+ "/"
           +:+ pretty required_items +:+ " medicine items.")
        "Excellent! You've collected all the medicine. The villagers will be grateful!"
        "Thank you again for your help. The village is in your debt.").

Definition get_dialogue (self : t) : list (string * string) :=
  if negb (quest_accepted self) then
    [ ("NPC", greeting (dialogue_lines self));
      ("NPC", quest_offer (dialogue_lines self)) ]%string
  else if quest_accepted self && negb (quest_completed self) then
    [ ("NPC", quest_in_progress (dialogue_lines self)) ]%string
  else [ ("NPC", quest_finished (dialogue_lines self)) ]%string.

Definition accept_quest (self : t) : t * list (string * string) :=
  let self := set_quest_accepted self true in
  (self, [ ("NPC", quest_accepted_line (dialogue_lines self)) ]%string).

Definition complete_quest (self : t) : t * list (string * string) :=
  let self := set_quest_completed self true in
  (self, [ ("NPC", quest_complete (dialogue_lines self)) ]%string).

End NPCQuest.

Module Medicine.

Record t := mk { x : Q; y : Q; width : Z; height : Z; collected : bool }.

Definition init (x0 y0 scale_factor : Q) : t :=
  mk x0 y0 (Py.int (48 * scale_factor)) (Py.int (48 * scale_factor)) false.

(** [check_collision]: the answer and the item after the call. *)
Definition check_collision (player : Player.t) (self : t) : bool * t :=
  if negb (collected self) then
    let player_rect := Player.rect player in
    let medicine_rect :=
      Pygame.Rect_of (x self) (y self) (width self) (height self) in
    if Pygame.colliderect player_rect medicine_rect then
      (true, mk (x self) (y self) (width self) (height self) true)
    else (false, self)
  else (false, self).

End Medicine.

Module QuestGame.

(** The fields of [Game] that the quest reads or writes. *)
Record t := mk {
  npc : NPCQuest.t; medicine_items : list Medicine.t;
  medicine_collected : Z; medicine_required : Z; quest_active : bool;
  medicine_check_counter : option Z;
  dialogue_box : DialogueBox.t; dialogue_timer : Q }.

Definition set_npc (self : t) (v : NPCQuest.t) : t :=
  mk v (medicine_items self) (medicine_collected self)
     (medicine_required self) (quest_active self)
     (medicine_check_counter self) (dialogue_box self)
     (dialogue_timer self).
Definition set_medicine_items (self : t) (v : list Medicine.t) : t :=
  mk (npc self) v (medicine_collected self) (medicine_required self)
     (quest_active self) (medicine_check_counter self) (dialogue_box self)
     (dialogue_timer self).
Definition set_medicine_collected (self : t) (v : Z) : t :=
  mk (npc self) (medicine_items self) v (medicine_required self)
     (quest_active self) (medicine_check_counter self) (dialogue_box self)
     (dialogue_timer self).
Definition set_quest_active (self : t) (v : bool) : t :=
  mk (npc self) (medicine_items self) (medicine_collected self)
     (medicine_required self) v (medicine_check_counter self)
     (dialogue_box self) (dialogue_timer self).
Definition set_medicine_check_counter (self : t) (v : option Z) : t :=
  mk (npc self) (medicine_items self) (medicine_collected self)
     (medicine_required self) (quest_active self) v (dialogue_box self)
     (dialogue_timer self).
Definition set_dialogue_box (self : t) (v : DialogueBox.t) : t :=
  mk (npc self) (medicine_items self) (medicine_collected self)
     (medicine_required self) (quest_active self)
     (medicine_check_counter self) v (dialogue_timer self).
Definition set_dialogue_timer (self : t) (v : Q) : t :=
  mk (npc self) (medicine_items self) (medicine_collected self)
     (medicine_required self) (quest_active self)
     (medicine_check_counter self) (dialogue_box self) v.

(** The quest part of [reset_game]; [_medicine_check_counter] is not
    reset and is absent before the first frame. *)
Definition reset_game (scale_x scale_y scale_factor : Q)
    (counter : option Z) : t :=
  mk NPCQuest.init
     (map (fun xy : Q * Q =>
             Medicine.init (xy.1 * scale_x) (xy.2 * scale_y) scale_factor)
          [ (400, 400); (800, 300); (1200, 500) ]%Q)
     0 3 false counter
     (DialogueBox.init
        [ ("Narrator",
           "Welcome! Collect trash and throw it in dustbins!") ]%string)
     3.

(** The loop [for medicine in self.medicine_items] of
    [check_medicine_collection]: the items after the loop, and the game. *)
Fixpoint medicine_loop (player : Player.t) (items : list Medicine.t)
    (self : t) : list Medicine.t * t :=
  match items with
  | [] => ([], self)
  | medicine :: items =>
      let '(hit, medicine) := Medicine.check_collision player medicine in
      let self :=
        if hit then
          let self :=
            set_medicine_collected self (medicine_collected self + 1) in
          let self := set_quest_active self true in
          set_npc self
            (NPCQuest.set_collected_items (npc self)
               (medicine_collected self))
        else self in
      let '(items, self) := medicine_loop player items self in
      (medicine :: items, self)
  end.

Definition check_medicine_collection (player : Player.t) (self : t) : t :=
  let counter :=
    match medicine_check_counter self with
    | Some n => n + 1
    | None => 0
    end in
  let self := set_medicine_check_counter self (Some counter) in
  if counter `mod` 10 =? 0 then
    let '(items, self) := medicine_loop player (medicine_items self) self in
    set_medicine_items self items
  else self.

Definition interact_with_npc (self : t) : t :=
  if negb (NPCQuest.quest_accepted (npc self)) then
    let dialogue_lines := NPCQuest.get_dialogue (npc self) in
    let self := set_dialogue_box self (DialogueBox.init dialogue_lines) in
    set_dialogue_timer self 0
  else if NPCQuest.quest_accepted (npc self)
          && negb (NPCQuest.quest_completed (npc self)) then
    if medicine_required self <=? medicine_collected self then
      let self :=
        set_npc self
          (NPCQuest.set_collected_items (npc self)
             (medicine_collected self)) in
      let '(npc', dialogue_lines) := NPCQuest.complete_quest (npc self) in
      let self := set_npc self npc' in
      match dialogue_lines with
      | _ :: _ =>
          let self :=
            set_dialogue_box self (DialogueBox.init dialogue_lines) in
          let self := set_dialogue_timer self 0 in
          set_quest_active self false
      | [] => self
      end
    else
      let dialogue_lines := NPCQuest.get_dialogue (npc self) in
      let self := set_dialogue_box self (DialogueBox.init dialogue_lines) in
      set_dialogue_timer self 0
  else self.

(** The statements of [update_game] under "Update dialogue timer". *)
Definition update_dialogue (dt : Q) (self : t) : t :=
  if DialogueBox.is_active (dialogue_box self) then
    let self :=
      set_dialogue_box self (DialogueBox.update dt (dialogue_box self)) in
    if Py.ltb 0 (dialogue_timer self) then
      let self := set_dialogue_timer self (dialogue_timer self - dt) in
      if Py.leb (dialogue_timer self) 0 then
        set_dialogue_box self
          (DialogueBox.set_active (dialogue_box self) false)
      else self
    else self
  else self.

(** What reaches the quest state while the game runs: a frame of
    [update_game] with the player as [Player.update] left it, the keys E
    and R of [handle_keydown], and a call of [NPC.accept_quest], which
    the game itself never makes. *)
Inductive event :=
| Frame (dt : Q) (player : Player.t)
| PressE
| PressR (scale_x scale_y scale_factor : Q)
| AcceptQuest.

Definition step (self : t) (ev : event) : t :=
  match ev with
  | Frame dt player =>
      check_medicine_collection player (update_dialogue dt self)
  | PressE => interact_with_npc self
  | PressR scale_x scale_y scale_factor =>
      reset_game scale_x scale_y scale_factor (medicine_check_counter self)
  | AcceptQuest => set_npc self (NPCQuest.accept_quest (npc self)).1
  end.

Definition run (self : t) (events : list event) : t :=
  foldl step self events.

(** The events that the game itself produces. *)
Definition game_event (ev : event) : bool :=
  match ev with AcceptQuest => false | _ => true end.

Definition count_collected (items : list Medicine.t) : Z :=
  Py.len (filter (fun m => Medicine.collected m = true) items).

End QuestGame.

(** The player standing on the first medicine item for eleven frames,
    with the key E pressed after each frame. *)
Definition medicine_run : list QuestGame.event :=
  mjoin (replicate 11
           [ QuestGame.Frame (1 # 60) (game_player 400 400);
             QuestGame.PressE ]).

(** ** Health and cleanliness: [player.py], [item_system.py] and the
    statements of [check_trash_collection_with_health] that write them *)

Module Health.

(** The health fields of [Player]; [is_clean] and [clean_timer] are the
    attributes that [Soap.use] and [Water.use] set on the player, absent
    until then. *)
Record t := mk {
  health : Z; max_health : Z; is_dirty : bool; dirt_timer : Q;
  health_drain_timer : Q; health_drain_interval : Q;
  health_drain_amount : Z; is_clean : option bool;
  clean_timer : option Q }.

Definition set_health (self : t) (v : Z) : t :=
  mk v (max_health self) (is_dirty self) (dirt_timer self)
     (health_drain_timer self) (health_drain_interval self)
     (health_drain_amount self) (is_clean self) (clean_timer self).
Definition set_max_health (self : t) (v : Z) : t :=
  mk (health self) v (is_dirty self) (dirt_timer self)
     (health_drain_timer self) (health_drain_interval self)
     (health_drain_amount self) (is_clean self) (clean_timer self).
Definition set_is_dirty (self : t) (v : bool) : t :=
  mk (health self) (max_health self) v (dirt_timer self)
     (health_drain_timer self) (health_drain_interval self)
     (health_drain_amount self) (is_clean self) (clean_timer self).
Definition set_dirt_timer (self : t) (v : Q) : t :=
  mk (health self) (max_health self) (is_dirty self) v
     (health_drain_timer self) (health_drain_interval self)
     (health_drain_amount self) (is_clean self) (clean_timer self).
Definition set_health_drain_timer (self : t) (v : Q) : t :=
  mk (health self) (max_health self) (is_dirty self) (dirt_timer self) v
     (health_drain_interval self) (health_drain_amount self)
     (is_clean self) (clean_timer self).
Definition set_clean (self : t) (v : Q) : t :=
  mk (health self) (max_health self) (is_dirty self) (dirt_timer self)
     (health_drain_timer self) (health_drain_interval self)
     (health_drain_amount self) (Some true) (Some v).

Definition init : t := mk 100 100 false 0 0 20 10 None None.

Definition update_health_system (dt : Q) (self : t) : t :=
  let self :=
    if is_dirty self then
      let self := set_dirt_timer self (dirt_timer self - dt) in
      if Py.leb (dirt_timer self) 0 then set_is_dirty self false else self
    else self in
  if is_dirty self then
    let self :=
      set_health_drain_timer self (health_drain_timer self + dt) in
    if Py.leb (health_drain_interval self) (health_drain_timer self) then
      let self := set_health_drain_timer self 0 in
      set_max_health self
        (Z.max 0 (max_health self - health_drain_amount self))
    else self
  else self.

Definition make_dirty (self : t) : t :=
  set_dirt_timer (set_is_dirty self true) 0.

Definition clean_up (self : t) : t :=
  set_dirt_timer (set_is_dirty self false) 30.

(** [check_trash_collection_with_health], for one trash item within
    twenty pixels of the player. *)
Definition near_trash (self : t) : t :=
  if is_dirty self then
    let self :=
      set_health_drain_timer self (health_drain_timer self + (1 # 60)) in
    if Py.leb 20 (health_drain_timer self) then
      set_health_drain_timer
        (set_health self (Z.max 0 (health self - 10))) 0
    else self
  else self.

(** [check_trash_collection_with_health], for one dropped trash item
    that the player steps on. *)
Definition step_on_trash (self : t) : t :=
  if is_dirty self then
    set_max_health self (Z.max 0 (max_health self - 3))
  else make_dirty self.

End Health.

(** The number keys read by [Inventory.handle_input]. *)
Record NumKeys := mkNumKeys {
  K_1 : bool; K_2 : bool; K_3 : bool; K_4 : bool }.

Module Inventory.

(** [Inventory]: the quantities of the four items of [self.items] and
    [is_open]; the menu position and the images are left out. *)
Record t := mk {
  soap : Z; water : Z; first_aid : Z; trash : Z; is_open : bool }.

Definition init : t := mk 0 0 0 0 false.

(** [self.items[item_name].quantity], when the name is a key. *)
Definition quantity (self : t) (item_name : string) : option Z :=
  if String.eqb item_name "soap" then Some (soap self)
  else if String.eqb item_name "water" then Some (water self)
  else if String.eqb item_name "first_aid" then Some (first_aid self)
  else if String.eqb item_name "trash" then Some (trash self)
  else None.

Definition add_item (item_name : string) (quantity : Z) (self : t) : t :=
  if String.eqb item_name "soap" then
    mk (soap self + quantity) (water self) (first_aid self) (trash self)
       (is_open self)
  else if String.eqb item_name "water" then
    mk (soap self) (water self + quantity) (first_aid self) (trash self)
       (is_open self)
  else if String.eqb item_name "first_aid" then
    mk (soap self) (water self) (first_aid self + quantity) (trash self)
       (is_open self)
  else if String.eqb item_name "trash" then
    mk (soap self) (water self) (first_aid self) (trash self + quantity)
       (is_open self)
  else self.

(** [use_item]: the answer, the inventory and the player after the call;
    the four branches are [Soap.use], [Water.use], [FirstAid.use] and
    [TrashItem.use]. *)
Definition use_item (item_name : string) (player : Health.t) (self : t)
  : bool * t * Health.t :=
  if String.eqb item_name "soap" then
    if 0 <? soap self then
      (true,
       mk (soap self - 1) (water self) (first_aid self) (trash self)
          (is_open self),
       Health.set_clean player 30)
    else (false, self, player)
  else if String.eqb item_name "water" then
    if 0 <? water self then
      (true,
       mk (soap self) (water self - 1) (first_aid self) (trash self)
          (is_open self),
       Health.set_clean player 20)
    else (false, self, player)
  else if String.eqb item_name "first_aid" then
    if 0 <? first_aid self then
      (true,
       mk (soap self) (water self) (first_aid self - 1) (trash self)
          (is_open self),
       Health.set_max_health player
         (Z.min 100 (Health.max_health player + 30)))
    else (false, self, player)
  else (false, self, player).

Definition handle_input (keys : NumKeys) (player : Health.t) (self : t)
  : t * Health.t :=
  if negb (is_open self) then (self, player)
  else if K_1 keys then
    let '(_, self, player) := use_item "soap" player self in (self, player)
  else if K_2 keys then
    let '(_, self, player) := use_item "water" player self in (self, player)
  else if K_3 keys then
    let '(_, self, player) := use_item "first_aid" player self in
    (self, player)
  else if K_4 keys then
    let '(_, self, player) := use_item "trash" player self in (self, player)
  else (self, player).

Definition toggle (self : t) : t :=
  mk (soap self) (water self) (first_aid self) (trash self)
     (negb (is_open self)).

End Inventory.

Module HealthGame.

(** What reaches the player's health and the inventory while the game
    runs: [Player.update] calling [update_health_system], the two health
    effects of [check_trash_collection_with_health], the inventory input
    of a frame, the key I, a pick-up adding to the inventory, and
    [Player.clean_up]. *)
Inductive event :=
| Update (dt : Q)
| NearTrash
| StepOnTrash
| HandleInput (keys : NumKeys)
| Toggle
| AddItem (item_name : string) (quantity : Z)
| CleanUp.

Definition step (s : Health.t * Inventory.t) (ev : event)
  : Health.t * Inventory.t :=
  match ev with
  | Update dt => (Health.update_health_system dt s.1, s.2)
  | NearTrash => (Health.near_trash s.1, s.2)
  | StepOnTrash => (Health.step_on_trash s.1, s.2)
  | HandleInput keys =>
      let '(inv, player) := Inventory.handle_input keys s.1 s.2 in
      (player, inv)
  | Toggle => (s.1, Inventory.toggle s.2)
  | AddItem item_name quantity =>
      (s.1, Inventory.add_item item_name quantity s.2)
  | CleanUp => (Health.clean_up s.1, s.2)
  end.

Definition run (events : list event) : Health.t * Inventory.t :=
  foldl step (Health.init, Inventory.init) events.

(** The steps of the frames are not negative and nothing is added in
    negative quantity. *)
Definition well_timed (ev : event) : bool :=
  match ev with
  | Update dt => Py.leb 0 dt
  | AddItem _ quantity => 0 <=? quantity
  | _ => true
  end.

End HealthGame.

(** The invariant of the health fields. *)
Definition health_invariant (h : Health.t) : Prop :=
  0 <= Health.health h <= 100
  /\ 0 <= Health.max_health h <= 100
  /\ (Health.is_dirty h = true -> (Health.dirt_timer h <= 0)%Q).

(** Picking up soap, stepping on two trash items in one frame, using the
    soap and running the next frame. *)
Definition dirty_run : list HealthGame.event :=
  [ HealthGame.AddItem "soap" 1; HealthGame.Toggle;
    HealthGame.Update (1 # 60); HealthGame.StepOnTrash;
    HealthGame.StepOnTrash;
    HealthGame.HandleInput (mkNumKeys true false false false) ].

(** ** Animation: [update_animation] of [Player] and of [NPC] *)

Module PlayerAnim.

(** The animation fields of [Player]. *)
Record t := mk {
  animation_index : Z; animation_timer : Q;
  sprite_frames : gmap string (list Sprite); current_sprite : Sprite }.

(** [load_sprites]: the idle frame is the image or a fallback surface; an
    animated state keeps the frames whose file exists and, when there is
    none, shares the idle list. *)
Definition load_frames (file_exists : string -> bool)
    (idle : list Sprite) (paths : list string) : list Sprite :=
  match map Image (List.filter file_exists paths) with
  | [] => idle
  | frames => frames
  end.

Definition load_sprites (file_exists : string -> bool)
  : gmap string (list Sprite) :=
  let idle :=
    [ if file_exists "game images/front facing.png"
      then Image "game images/front facing.png" else Fallback ]%string in
  <["jump" :=
      load_frames file_exists idle
        [ "game images/jump.png"; "game images/jump.png";
          "game images/jump.png" ]]>
  (<["run" :=
       load_frames file_exists idle
         [ "game images/front facing.png"; "game images/left.png";
           "game images/front facing.png"; "game images/left.png" ]]>
  (<["walk" :=
       load_frames file_exists idle
         [ "game images/front facing.png"; "game images/left.png";
           "game images/front facing.png"; "game images/left.png" ]]>
  (<["idle" := idle]> ∅)))%string.

(** [state in self.sprite_frames and self.sprite_frames[state]]: the
    frames of a state that has some. *)
Definition frames_of (sprite_frames : gmap string (list Sprite))
    (state : string) : option (list Sprite) :=
  match sprite_frames !! state with
  | Some (f :: frames) => Some (f :: frames)
  | _ => None
  end.

(** [update_animation]; [None] stands for an exception. *)
Definition update_animation (dt : Q) (player : Player.t) (self : t)
  : option t :=
  let state :=
    animation_state (Player.on_ground player) (Player.vel_x player) in
  let sprite_frames := sprite_frames self in
  let '(animation_timer, animation_index) :=
    if negb (String.eqb state "idle") then
      let animation_timer := (animation_timer self + dt)%Q in
      if Py.leb (1 # 10) animation_timer then
        match frames_of sprite_frames state with
        | Some frames =>
            (0%Q, (animation_index self + 1) `mod` Py.len frames)
        | None => (0%Q, animation_index self)
        end
      else (animation_timer, animation_index self)
    else (0%Q, 0) in
  match frames_of sprite_frames state with
  | Some frames =>
      if String.eqb state "idle" then
        current_sprite ← Py.index frames 0;
        Some (mk animation_index animation_timer sprite_frames
                 current_sprite)
      else
        let animation_index :=
          if Py.len frames <=? animation_index then 0
          else animation_index in
        current_sprite ← Py.index frames animation_index;
        Some (mk animation_index animation_timer sprite_frames
                 current_sprite)
  | None =>
      match frames_of sprite_frames "idle" with
      | Some frames =>
          current_sprite ← Py.index frames 0;
          Some (mk animation_index animation_timer sprite_frames
                   current_sprite)
      | None =>
          Some (mk animation_index animation_timer sprite_frames Fallback)
      end
  end.

End PlayerAnim.


(** The frames of a run as events. *)
Definition frame_events (frames : list (Q * Player.t))
  : list QuestGame.event :=
  map (fun f => QuestGame.Frame f.1 f.2) frames.

(** Three frames of one second each. *)
Definition three_seconds : list (Q * Player.t) :=
  [ (1%Q, game_player 100 800); (1%Q, game_player 100 800);
    (1%Q, game_player 100 800) ].

(** The animation fields of a new NPC when no image file exists
    ([NPC.init_animation] with every path missing). *)
Definition fresh_anim : NPC.anim :=
  NPC.mk_anim 0 0 (3 # 20) "idle" (NPC.load_sprites (fun _ => false))
    Fallback.

(** The animation fields of an NPC that was running: the index is at
    the fourth run frame. *)
Definition run_anim : NPC.anim :=
  NPC.mk_anim 3 0 (3 # 20) "run" (NPC.load_sprites (fun _ => false))
    Fallback.

(** * Properties *)

(** ** Loops *)

Section Loops.
Context {I S : Type}.

Lemma for_in_ext (l : list I) (f g : I -> S -> option S) (s : S) :
  (forall i s, i ∈ l -> f i s = g i s) ->
  Py.for_in l f s = Py.for_in l g s.
Proof.
  revert s. induction l as [|i l IH]; intros s H; simpl; [done|].
  rewrite (H i s) by left.
  destruct (g i s); [|done]. apply IH. intros; apply H. by right.
Qed.

Lemma for_in_pure (l : list I) (body : I -> S -> option S)
    (f : S -> I -> S) (s : S) :
  (forall i s, i ∈ l -> body i s = Some (f s i)) ->
  Py.for_in l body s = Some (foldl f s l).
Proof.
  revert s. induction l as [|i l IH]; intros s H; simpl; [done|].
  rewrite (H i s) by left. apply IH. intros; apply H. by right.
Qed.

Lemma foldl_filter (p : I -> bool) (f : S -> I -> S) (s : S) (l : list I) :
  foldl (fun s i => if p i then f s i else s) s l
  = foldl f s (filter (fun i => p i = true) l).
Proof.
  revert s. induction l as [|i l IH]; intros s; simpl; [done|].
  rewrite IH. destruct (p i) eqn:E.
  - rewrite filter_cons_True by done. done.
  - rewrite filter_cons_False by (rewrite E; done). done.
Qed.

End Loops.

Lemma foldl_bind {I J S} (f : S -> J -> S) (g : I -> list J) (s : S)
    (l : list I) :
  foldl f s (l ≫= g) = foldl (fun s i => foldl f s (g i)) s l.
Proof.
  revert s. induction l as [|i l IH]; intros s; simpl; [done|].
  rewrite foldl_app. apply IH.
Qed.

(** Two nested [for] loops whose body never raises are a fold over the
    cells in row-major order. *)
Lemma nested_for_in {S} (rows cols : list Z)
    (body : Z -> Z -> S -> option S) (cell : S -> Z * Z -> S) (s : S) :
  (forall r c s,
      r ∈ rows -> c ∈ cols -> body r c s = Some (cell s (r, c))) ->
  Py.for_in rows (fun r s => Py.for_in cols (fun c s => body r c s) s) s
  = Some (foldl cell s (r ← rows; c ← cols; [(r, c)])).
Proof.
  intros H.
  rewrite (for_in_pure rows _
             (fun s r => foldl cell s (c ← cols; [(r, c)]))).
  - by rewrite foldl_bind.
  - intros r s' Hr.
    rewrite (for_in_pure cols _ (fun s c => cell s (r, c))).
    + f_equal. rewrite foldl_bind. done.
    + intros c s'' Hc. by apply H.
Qed.

Lemma elem_of_range (a b i : Z) : i ∈ Py.range a b <-> a <= i < b.
Proof. unfold Py.range. rewrite elem_of_seqZ. lia. Qed.

Lemma for_in_raises {I S} (l : list I) (body : I -> S -> option S) i :
  i ∈ l -> (forall s, body i s = None) ->
  forall s, Py.for_in l body s = None.
Proof.
  intros Hi Hnone. induction l as [|j l IH]; intros s; simpl.
  - by apply elem_of_nil in Hi.
  - apply elem_of_cons in Hi as [<-|Hi]; [by rewrite Hnone|].
    destruct (body j s); [by apply IH|done].
Qed.

(** ** Grids *)

Lemma grid_ok_first tiles :
  grid_ok tiles = true -> exists tiles0, tiles !! 0%nat = Some tiles0.
Proof. destruct tiles as [|t0 ts]; [done|]. by exists t0. Qed.

Lemma grid_ok_tile_at tiles tiles0 r c :
  grid_ok tiles = true -> tiles !! 0%nat = Some tiles0 ->
  0 <= r < Py.len tiles -> 0 <= c < Py.len tiles0 ->
  is_Some (tile_at tiles r c).
Proof.
  intros Hok H0 Hr Hc. unfold Py.len in *.
  destruct tiles as [|t0 ts]; [done|]. simpl in H0. injection H0 as ->.
  unfold grid_ok in Hok. rewrite forallb_forall in Hok.
  destruct (lookup_lt_is_Some_2 (tiles0 :: ts) (Z.to_nat r)) as [row Hrow];
    [lia|].
  unfold tile_at. rewrite Hrow. simpl.
  apply lookup_lt_is_Some_2.
  assert (Hin : In row (tiles0 :: ts)).
  { apply list_elem_of_In. by eapply list_elem_of_lookup_2. }
  specialize (Hok row Hin). apply Nat.leb_le in Hok. lia.
Qed.



(** The search loop shared by the four collision passes: when the body of
    the loop resolves the overlapping solid tiles by [step] and leaves the
    state alone otherwise, the loop is a fold of [step] over [hits]. *)
Lemma sweep_hits {S} tiles tiles0 (body_rect : Pygame.Rect)
    (ptx pty lo hi : Z) (step : S -> Z * Z -> S) (s : S) :
  grid_ok tiles = true -> tiles !! 0%nat = Some tiles0 ->
  Py.for_in (Py.range (Z.max 0 (pty - lo)) (Z.min (Py.len tiles) (pty + hi)))
    (fun ty s =>
       Py.for_in
         (Py.range (Z.max 0 (ptx - lo)) (Z.min (Py.len tiles0) (ptx + hi)))
         (fun tx s =>
            if (ty <? Py.len tiles) && (tx <? Py.len tiles0) then
              tile_gid ← tile_at tiles ty tx;
              if negb (tile_gid =? 0) then
                if Pygame.colliderect body_rect (tile_rect tx ty) then
                  Some (step s (ty, tx))
                else Some s
              else Some s
            else Some s) s) s
  = Some (foldl step s (hits tiles body_rect ptx pty lo hi)).
Proof.
  intros Hok H0.
  rewrite (nested_for_in _ _ _
            (fun s rc => if overlapping tiles body_rect rc
                         then step s rc else s)).
  - rewrite foldl_filter. unfold hits, window. rewrite H0. done.
  - intros r c s' Hr Hc. apply elem_of_range in Hr, Hc.
    destruct (grid_ok_tile_at tiles tiles0 r c Hok H0) as [gid Hgid];
      [lia..|].
    unfold overlapping, solid. simpl. rewrite Hgid. simpl.
    destruct (r <? Py.len tiles) eqn:E1; [|lia].
    destruct (c <? Py.len tiles0) eqn:E2; [|lia]. simpl.
    destruct (gid =? 0); simpl; [done|].
    by destruct (Pygame.colliderect _ _).
Qed.

(** ** Comparisons on rationals *)

Lemma ltb_lt (a b : Q) : Py.ltb a b = true <-> (a < b)%Q.
Proof.
  unfold Py.ltb. rewrite Qlt_alt. destruct (a ?= b)%Q; intuition congruence.
Qed.

Lemma ltb_ge (a b : Q) : Py.ltb a b = false <-> (b <= a)%Q.
Proof.
  unfold Py.ltb. rewrite Qle_alt. rewrite <- (Qcompare_antisym a b).
  destruct (a ?= b)%Q; simpl; intuition congruence.
Qed.

Lemma leb_le (a b : Q) : Py.leb a b = true <-> (a <= b)%Q.
Proof.
  unfold Py.leb. rewrite Qle_alt. destruct (a ?= b)%Q; intuition congruence.
Qed.

Lemma leb_gt (a b : Q) : Py.leb a b = false <-> (b < a)%Q.
Proof.
  unfold Py.leb. rewrite Qlt_alt. rewrite <- (Qcompare_antisym a b).
  destruct (a ?= b)%Q; simpl; intuition congruence.
Qed.

Lemma ltb_irrefl (a : Q) : Py.ltb a a = false.
Proof. apply ltb_ge. apply Qle_refl. Qed.

(** ** The four passes are folds over the overlapping solid tiles *)

Module PlayerFacts.
Import Player PlayerSpec.

Lemma player_rect_set_on_ground self b :
  rect (set_on_ground self b) = rect self.
Proof. by destruct self. Qed.

Lemma player_horizontal_fold tiles self :
  grid_ok tiles = true ->
  check_horizontal_collisions tiles self
  = Some (foldl horizontal_step self (horizontal_hits tiles self)).
Proof.
  intros Hok. destruct (grid_ok_first tiles Hok) as [tiles0 H0].
  unfold check_horizontal_collisions, horizontal_hits. rewrite H0. simpl.
  rewrite <- (sweep_hits tiles tiles0 (rect self) _ _ 2 4
                horizontal_step self Hok H0).
  apply for_in_ext; intros ty s _. apply for_in_ext; intros tx s' _.
  destruct ((ty <? Py.len tiles) && (tx <? Py.len tiles0)); [|done].
  destruct (tile_at tiles ty tx) as [gid|]; [|done]. simpl.
  destruct (negb (gid =? 0)); [|done].
  destruct (Pygame.colliderect _ _); [|done].
  unfold horizontal_step. simpl.
  destruct (Py.ltb 0 (vel_x s') || is_dashing s'); [done|].
  by destruct (Py.ltb (vel_x s') 0 || is_dashing s').
Qed.

Lemma player_vertical_sweep_fold tiles self :
  grid_ok tiles = true ->
  vertical_sweep tiles self
  = Some (foldl vertical_step self (vertical_hits tiles self)).
Proof.
  intros Hok. destruct (grid_ok_first tiles Hok) as [tiles0 H0].
  unfold vertical_sweep, vertical_hits. rewrite H0. simpl.
  rewrite <- (sweep_hits tiles tiles0 (rect self) _ _ 3 5
                vertical_step self Hok H0).
  apply for_in_ext; intros ty s _. apply for_in_ext; intros tx s' _.
  destruct ((ty <? Py.len tiles) && (tx <? Py.len tiles0)); [|done].
  destruct (tile_at tiles ty tx) as [gid|]; [|done]. simpl.
  destruct (negb (gid =? 0)); [|done].
  destruct (Pygame.colliderect _ _); [|done].
  unfold vertical_step. simpl.
  destruct (Py.ltb 0 (vel_y s')); [done|].
  by destruct (Py.ltb (vel_y s') 0).
Qed.

Lemma player_vertical_hits_reset tiles self b :
  vertical_hits tiles (set_on_ground self b) = vertical_hits tiles self.
Proof. by destruct self. Qed.

Lemma player_check_vertical_fold tiles self :
  grid_ok tiles = true ->
  check_vertical_collisions tiles self
  = Some (ground_snap (resolve_vertical tiles self)).
Proof.
  intros Hok. unfold check_vertical_collisions, resolve_vertical.
  rewrite (player_vertical_sweep_fold _ _ Hok). simpl.
  by rewrite player_vertical_hits_reset.
Qed.

(** A body with no vertical velocity is not moved by a step. *)
Lemma player_vertical_step_rest self rc :
  (vel_y self == 0)%Q -> vertical_step self rc = self.
Proof.
  intros H. unfold vertical_step.
  assert (H1 : Py.ltb 0 (vel_y self) = false)
    by (apply ltb_ge; rewrite H; apply Qle_refl).
  assert (H2 : Py.ltb (vel_y self) 0 = false)
    by (apply ltb_ge; rewrite H; apply Qle_refl).
  by rewrite H1, H2.
Qed.

Lemma player_vel_y_vertical_step self rc :
  (vel_y self == 0)%Q \/ vel_y (vertical_step self rc) = 0%Q.
Proof.
  unfold vertical_step.
  destruct (Py.ltb 0 (vel_y self)) eqn:E1; [right; by destruct self|].
  destruct (Py.ltb (vel_y self) 0) eqn:E2; [right; by destruct self|].
  left. apply ltb_ge in E1, E2. by apply Qle_antisym.
Qed.

Lemma player_vertical_fold_rest self l :
  (vel_y self == 0)%Q -> foldl vertical_step self l = self.
Proof.
  intros H. induction l as [|rc l IH]; simpl; [done|].
  by rewrite player_vertical_step_rest.
Qed.

(** Only the first overlapping tile acts: it stops the body. *)
Lemma player_vertical_fold_first self l :
  foldl vertical_step self l
  = match l with [] => self | rc :: _ => vertical_step self rc end.
Proof.
  destruct l as [|rc l]; simpl; [done|].
  destruct (player_vel_y_vertical_step self rc) as [H|H].
  - rewrite player_vertical_step_rest by done.
    by apply player_vertical_fold_rest.
  - apply player_vertical_fold_rest. by rewrite H.
Qed.

Lemma player_horizontal_step_frame self rc :
  exists v, horizontal_step self rc = set_x self v.
Proof.
  unfold horizontal_step.
  destruct (Py.ltb 0 (vel_x self) || is_dashing self); [by eexists|].
  destruct (Py.ltb (vel_x self) 0 || is_dashing self); [by eexists|].
  exists (x self). by destruct self.
Qed.

Lemma player_set_x_set_x self a b : set_x (set_x self a) b = set_x self b.
Proof. by destruct self. Qed.

(** The horizontal pass writes [x] and nothing else. *)
Lemma player_horizontal_fold_frame self l :
  exists v, foldl horizontal_step self l = set_x self v.
Proof.
  revert self. induction l as [|rc l IH]; intros self; simpl.
  - exists (x self). by destruct self.
  - destruct (player_horizontal_step_frame self rc) as [v ->].
    destruct (IH (set_x self v)) as [w ->]. exists w.
    apply player_set_x_set_x.
Qed.

(** While the first branch is taken, the last overlapping tile decides
    [x]. *)
Lemma player_horizontal_fold_right self l :
  Py.ltb 0 (vel_x self) || is_dashing self = true ->
  foldl horizontal_step self l
  = match last l with
    | None => self
    | Some rc =>
        set_x self (inject_Z (Pygame.left (tile_rect rc.2 rc.1)
                              - width self))
    end.
Proof.
  intros H. induction l as [|rc l IH] using rev_ind; [done|].
  rewrite foldl_snoc, last_snoc, IH.
  unfold horizontal_step.
  destruct (last l) as [rc'|].
  - replace (vel_x (set_x self _)) with (vel_x self) by by destruct self.
    replace (is_dashing (set_x self _)) with (is_dashing self)
      by by destruct self.
    rewrite H. rewrite player_set_x_set_x. by destruct self.
  - by rewrite H.
Qed.

Lemma player_horizontal_fold_left self l :
  Py.ltb 0 (vel_x self) || is_dashing self = false ->
  Py.ltb (vel_x self) 0 = true ->
  foldl horizontal_step self l
  = match last l with
    | None => self
    | Some rc => set_x self (inject_Z (Pygame.right (tile_rect rc.2 rc.1)))
    end.
Proof.
  intros H H'. induction l as [|rc l IH] using rev_ind; [done|].
  rewrite foldl_snoc, last_snoc, IH.
  unfold horizontal_step.
  destruct (last l) as [rc'|].
  - replace (vel_x (set_x self _)) with (vel_x self) by by destruct self.
    replace (is_dashing (set_x self _)) with (is_dashing self)
      by by destruct self.
    rewrite H, H'. simpl. by rewrite player_set_x_set_x.
  - by rewrite H, H'.
Qed.

Lemma player_horizontal_fold_rest self l :
  Py.ltb 0 (vel_x self) || is_dashing self = false ->
  Py.ltb (vel_x self) 0 || is_dashing self = false ->
  foldl horizontal_step self l = self.
Proof.
  intros H H'. induction l as [|rc l IH]; simpl; [done|].
  unfold horizontal_step at 2. by rewrite H, H'.
Qed.

End PlayerFacts.

Module NPCFacts.
Import NPC NPCSpec.

Lemma npc_horizontal_fold tiles self :
  grid_ok tiles = true ->
  check_horizontal_collisions tiles self
  = Some (foldl horizontal_step self (horizontal_hits tiles self)).
Proof.
  intros Hok. destruct (grid_ok_first tiles Hok) as [tiles0 H0].
  unfold check_horizontal_collisions, horizontal_hits. rewrite H0. simpl.
  rewrite <- (sweep_hits tiles tiles0 (rect self) _ _ 2 4
                horizontal_step self Hok H0).
  apply for_in_ext; intros ty s _. apply for_in_ext; intros tx s' _.
  destruct ((ty <? Py.len tiles) && (tx <? Py.len tiles0)); [|done].
  destruct (tile_at tiles ty tx) as [gid|]; [|done]. simpl.
  destruct (negb (gid =? 0)); [|done].
  destruct (Pygame.colliderect _ _); [|done].
  unfold horizontal_step. simpl.
  destruct (Py.ltb 0 (vel_x s')); [done|].
  by destruct (Py.ltb (vel_x s') 0).
Qed.

Lemma npc_vertical_sweep_fold tiles self :
  grid_ok tiles = true ->
  vertical_sweep tiles self
  = Some (foldl vertical_step self (vertical_hits tiles self)).
Proof.
  intros Hok. destruct (grid_ok_first tiles Hok) as [tiles0 H0].
  unfold vertical_sweep, vertical_hits. rewrite H0. simpl.
  rewrite <- (sweep_hits tiles tiles0 (rect self) _ _ 2 4
                vertical_step self Hok H0).
  apply for_in_ext; intros ty s _. apply for_in_ext; intros tx s' _.
  destruct ((ty <? Py.len tiles) && (tx <? Py.len tiles0)); [|done].
  destruct (tile_at tiles ty tx) as [gid|]; [|done]. simpl.
  destruct (negb (gid =? 0)); [|done].
  destruct (Pygame.colliderect _ _); [|done].
  unfold vertical_step. simpl.
  destruct (Py.ltb 0 (vel_y s')); [done|].
  by destruct (Py.ltb (vel_y s') 0).
Qed.

Lemma npc_vertical_hits_reset tiles self b :
  vertical_hits tiles (set_on_ground self b) = vertical_hits tiles self.
Proof. by destruct self. Qed.

Lemma npc_check_vertical_fold tiles self :
  grid_ok tiles = true ->
  check_vertical_collisions tiles self
  = Some (resolve_vertical tiles self).
Proof.
  intros Hok. unfold check_vertical_collisions, resolve_vertical.
  rewrite (npc_vertical_sweep_fold _ _ Hok).
  by rewrite npc_vertical_hits_reset.
Qed.

Lemma npc_vertical_step_rest self rc :
  (vel_y self == 0)%Q -> vertical_step self rc = self.
Proof.
  intros H. unfold vertical_step.
  assert (H1 : Py.ltb 0 (vel_y self) = false)
    by (apply ltb_ge; rewrite H; apply Qle_refl).
  assert (H2 : Py.ltb (vel_y self) 0 = false)
    by (apply ltb_ge; rewrite H; apply Qle_refl).
  by rewrite H1, H2.
Qed.

Lemma npc_vel_y_vertical_step self rc :
  (vel_y self == 0)%Q \/ vel_y (vertical_step self rc) = 0%Q.
Proof.
  unfold vertical_step.
  destruct (Py.ltb 0 (vel_y self)) eqn:E1; [right; by destruct self|].
  destruct (Py.ltb (vel_y self) 0) eqn:E2; [right; by destruct self|].
  left. apply ltb_ge in E1, E2. by apply Qle_antisym.
Qed.

Lemma npc_vertical_fold_rest self l :
  (vel_y self == 0)%Q -> foldl vertical_step self l = self.
Proof.
  intros H. induction l as [|rc l IH]; simpl; [done|].
  by rewrite npc_vertical_step_rest.
Qed.

Lemma npc_vertical_fold_first self l :
  foldl vertical_step self l
  = match l with [] => self | rc :: _ => vertical_step self rc end.
Proof.
  destruct l as [|rc l]; simpl; [done|].
  destruct (npc_vel_y_vertical_step self rc) as [H|H].
  - rewrite npc_vertical_step_rest by done. by apply npc_vertical_fold_rest.
  - apply npc_vertical_fold_rest. by rewrite H.
Qed.

Lemma npc_set_x_set_x self a b : set_x (set_x self a) b = set_x self b.
Proof. by destruct self. Qed.

Lemma npc_horizontal_step_frame self rc :
  exists v, horizontal_step self rc = set_x self v.
Proof.
  unfold horizontal_step.
  destruct (Py.ltb 0 (vel_x self)); [by eexists|].
  destruct (Py.ltb (vel_x self) 0); [by eexists|].
  exists (x self). by destruct self.
Qed.

Lemma npc_horizontal_fold_frame self l :
  exists v, foldl horizontal_step self l = set_x self v.
Proof.
  revert self. induction l as [|rc l IH]; intros self; simpl.
  - exists (x self). by destruct self.
  - destruct (npc_horizontal_step_frame self rc) as [v ->].
    destruct (IH (set_x self v)) as [w ->]. exists w.
    apply npc_set_x_set_x.
Qed.

Lemma npc_horizontal_fold_right self l :
  Py.ltb 0 (vel_x self) = true ->
  foldl horizontal_step self l
  = match last l with
    | None => self
    | Some rc =>
        set_x self (inject_Z (Pygame.left (tile_rect rc.2 rc.1)
                              - width self))
    end.
Proof.
  intros H. induction l as [|rc l IH] using rev_ind; [done|].
  rewrite foldl_snoc, last_snoc, IH.
  unfold horizontal_step.
  destruct (last l) as [rc'|].
  - replace (vel_x (set_x self _)) with (vel_x self) by by destruct self.
    rewrite H. rewrite npc_set_x_set_x. by destruct self.
  - by rewrite H.
Qed.

Lemma npc_horizontal_fold_left self l :
  Py.ltb (vel_x self) 0 = true ->
  foldl horizontal_step self l
  = match last l with
    | None => self
    | Some rc => set_x self (inject_Z (Pygame.right (tile_rect rc.2 rc.1)))
    end.
Proof.
  intros H'.
  assert (H : Py.ltb 0 (vel_x self) = false).
  { apply ltb_ge. apply Qlt_le_weak. by apply ltb_lt. }
  induction l as [|rc l IH] using rev_ind; [done|].
  rewrite foldl_snoc, last_snoc, IH.
  unfold horizontal_step.
  destruct (last l) as [rc'|].
  - replace (vel_x (set_x self _)) with (vel_x self) by by destruct self.
    rewrite H, H'. by rewrite npc_set_x_set_x.
  - by rewrite H, H'.
Qed.

Lemma npc_horizontal_fold_rest self l :
  Py.ltb 0 (vel_x self) = false -> Py.ltb (vel_x self) 0 = false ->
  foldl horizontal_step self l = self.
Proof.
  intros H H'. induction l as [|rc l IH]; simpl; [done|].
  unfold horizontal_step at 2. by rewrite H, H'.
Qed.

End NPCFacts.

(** ** The vertical pass *)

(** C4 (player and NPC): the vertical pass resets [on_ground], then
    resolves every solid tile of the search window that overlaps the body,
    in iteration order, by the step the specification gives: falling
    ([vel_y > 0]) puts the body on the tile ([y = tile.top - height],
    [vel_y = 0], grounded, [jump_count = 0]); rising ([vel_y < 0]) puts it
    under the tile ([y = tile.bottom], [vel_y = 0]).  No exception is
    raised on a grid whose rows cover the first one.  The player's pass
    ends with the ground-level snap. *)
Theorem vertical_pass_resolves_overlapping_tiles (tiles : list (list Z)) :
  grid_ok tiles = true ->
  (forall self,
      Player.check_vertical_collisions tiles self
      = Some (Player.ground_snap (PlayerSpec.resolve_vertical tiles self)))
  /\ (forall self,
         NPC.check_vertical_collisions tiles self
         = Some (NPCSpec.resolve_vertical tiles self))
  /\ (forall self rc,
         (0 < Player.vel_y self)%Q ->
         let s' := PlayerSpec.vertical_step self rc in
         Player.y s'
         = inject_Z (Pygame.top (tile_rect rc.2 rc.1) - Player.height self)
         /\ Player.vel_y s' = 0%Q /\ Player.on_ground s' = true
         /\ Player.jump_count s' = 0)
  /\ (forall self rc,
         (Player.vel_y self < 0)%Q ->
         let s' := PlayerSpec.vertical_step self rc in
         Player.y s' = inject_Z (Pygame.bottom (tile_rect rc.2 rc.1))
         /\ Player.vel_y s' = 0%Q
         /\ Player.on_ground s' = Player.on_ground self)
  /\ (forall self rc,
         (0 < NPC.vel_y self)%Q ->
         let s' := NPCSpec.vertical_step self rc in
         NPC.y s'
         = inject_Z (Pygame.top (tile_rect rc.2 rc.1) - NPC.height self)
         /\ NPC.vel_y s' = 0%Q /\ NPC.on_ground s' = true
         /\ NPC.jump_count s' = 0)
  /\ (forall self rc,
         (NPC.vel_y self < 0)%Q ->
         let s' := NPCSpec.vertical_step self rc in
         NPC.y s' = inject_Z (Pygame.bottom (tile_rect rc.2 rc.1))
         /\ NPC.vel_y s' = 0%Q
         /\ NPC.on_ground s' = NPC.on_ground self).
Proof.
  intros Hok. split; [|split; [|split; [|split; [|split]]]].
  - intros self. by apply PlayerFacts.player_check_vertical_fold.
  - intros self. by apply NPCFacts.npc_check_vertical_fold.
  - intros self rc Hv. unfold PlayerSpec.vertical_step.
    apply ltb_lt in Hv. rewrite Hv. by destruct self.
  - intros self rc Hv. unfold PlayerSpec.vertical_step.
    assert (Py.ltb 0 (Player.vel_y self) = false) as ->
      by (apply ltb_ge; by apply Qlt_le_weak).
    apply ltb_lt in Hv. rewrite Hv. by destruct self.
  - intros self rc Hv. unfold NPCSpec.vertical_step.
    apply ltb_lt in Hv. rewrite Hv. by destruct self.
  - intros self rc Hv. unfold NPCSpec.vertical_step.
    assert (Py.ltb 0 (NPC.vel_y self) = false) as ->
      by (apply ltb_ge; by apply Qlt_le_weak).
    apply ltb_lt in Hv. rewrite Hv. by destruct self.
Qed.

Lemma vertical_pass_resolves_overlapping_tiles_witness :
  grid_ok one_tile_grid = true
  /\ NPC.check_vertical_collisions one_tile_grid
       (NPC.set_vel_y (NPC.init 160 261 1) 10)
     = Some (NPCSpec.resolve_vertical one_tile_grid
               (NPC.set_vel_y (NPC.init 160 261 1) 10)).
Proof.
  split; [reflexivity|].
  apply (vertical_pass_resolves_overlapping_tiles one_tile_grid).
  reflexivity.
Defined.

(** C7, as stated, fails: a player rising from the ground (bottom edge
    exactly at the ground level 928, [vel_y = -450]) over a grid without
    solid tiles is still ungrounded after the sweep and within 2 pixels of
    the ground level, and the pass leaves it ungrounded and unmoved. *)
Lemma ground_snap_skipped_when_rising :
  let self := Player.set_vel_y (game_player 100 864) (-450) in
  Player.vertical_sweep open_grid (Player.set_on_ground self false)
  = Some (Player.set_on_ground self false)
  /\ (Qabs (Player.y self + inject_Z (Player.height self)
            - inject_Z Player.ground_y) <= 2)%Q
  /\ Player.check_vertical_collisions open_grid self
     = Some (Player.set_on_ground self false)
  /\ Player.on_ground (Player.set_on_ground self false) = false.
Proof. vm_compute. repeat split; congruence. Qed.

(** C7, amended: if [on_ground] is still false after the sweep, the
    body's bottom edge is within 2 pixels of the ground level 928 and the
    body is not rising ([vel_y >= 0]), the pass forces [on_ground], snaps
    [y] to [928 - height] and zeroes [vel_y] (and [jump_count]); a rising
    body is left as the sweep left it. *)
Theorem ground_snap_when_not_rising (tiles : list (list Z))
    (self swept : Player.t) :
  Player.vertical_sweep tiles (Player.set_on_ground self false)
  = Some swept ->
  Player.on_ground swept = false ->
  (Qabs (Player.y swept + inject_Z (Player.height swept)
         - inject_Z Player.ground_y) <= 2)%Q ->
  ((0 <= Player.vel_y swept)%Q ->
   exists s', Player.check_vertical_collisions tiles self = Some s'
     /\ Player.on_ground s' = true
     /\ Player.y s' = inject_Z (Player.ground_y - Player.height swept)
     /\ (Player.y s' + inject_Z (Player.height s')
         == inject_Z Player.ground_y)%Q
     /\ Player.vel_y s' = 0%Q /\ Player.jump_count s' = 0)
  /\ ((Player.vel_y swept < 0)%Q ->
      Player.check_vertical_collisions tiles self = Some swept).
Proof.
  intros Hs Hg Hnear. unfold Player.check_vertical_collisions.
  rewrite Hs. cbn [mbind option_bind]. unfold Player.ground_snap.
  rewrite Hg. apply leb_le in Hnear. rewrite Hnear. cbn [negb andb].
  split.
  - intros Hv. apply leb_le in Hv. rewrite Hv.
    eexists. split; [done|]. destruct swept; simpl.
    repeat split; try done.
    rewrite <- inject_Z_plus. apply inject_Z_injective. lia.
  - intros Hv. apply leb_gt in Hv. by rewrite Hv.
Qed.

Lemma ground_snap_when_not_rising_witness :
  let self := game_player 100 (8635 # 10) in
  exists s',
    Player.check_vertical_collisions open_grid self = Some s'
    /\ Player.on_ground s' = true
    /\ Player.y s' = inject_Z (Player.ground_y - 64).
Proof.
  destruct (ground_snap_when_not_rising open_grid (game_player 100 (8635 # 10))
              (Player.set_on_ground (game_player 100 (8635 # 10)) false))
    as [H _].
  - vm_compute. reflexivity.
  - reflexivity.
  - vm_compute. congruence.
  - destruct H as (s' & H1 & H2 & H3 & _).
    + vm_compute. congruence.
    + exists s'. auto.
Defined.

(** ** The horizontal pass *)

Lemma player_x_set_x (s : Player.t) (v : Q) :
  Player.x (Player.set_x s v) = v
  /\ Player.y (Player.set_x s v) = Player.y s
  /\ Player.vel_x (Player.set_x s v) = Player.vel_x s
  /\ Player.vel_y (Player.set_x s v) = Player.vel_y s
  /\ Player.width (Player.set_x s v) = Player.width s
  /\ Player.height (Player.set_x s v) = Player.height s
  /\ Player.on_ground (Player.set_x s v) = Player.on_ground s
  /\ Player.is_dashing (Player.set_x s v) = Player.is_dashing s.
Proof. by destruct s. Qed.

Lemma npc_x_set_x (s : NPC.t) (v : Q) :
  NPC.x (NPC.set_x s v) = v
  /\ NPC.y (NPC.set_x s v) = NPC.y s
  /\ NPC.vel_x (NPC.set_x s v) = NPC.vel_x s
  /\ NPC.vel_y (NPC.set_x s v) = NPC.vel_y s
  /\ NPC.width (NPC.set_x s v) = NPC.width s
  /\ NPC.height (NPC.set_x s v) = NPC.height s
  /\ NPC.on_ground (NPC.set_x s v) = NPC.on_ground s.
Proof. by destruct s. Qed.

(** C9: while [is_dashing] holds, the player's horizontal pass takes the
    first ("moving right") branch at every overlapping solid tile of the
    window, whatever the sign of [vel_x]: each step puts [x] at
    [tile.left - width], so the pass returns the body with
    [x = tile.left - width] for the last such tile, with [y], [vel_x] and
    the dash flag as they were; with no such tile it returns the body
    unchanged. *)
Theorem dashing_resolves_through_right_branch (tiles : list (list Z))
    (self : Player.t) :
  grid_ok tiles = true ->
  Player.is_dashing self = true ->
  (forall s rc,
      Player.is_dashing s = true ->
      Player.x (PlayerSpec.horizontal_step s rc)
      = inject_Z (Pygame.left (tile_rect rc.2 rc.1) - Player.width s)
      /\ PlayerSpec.horizontal_step s rc
         = Player.set_x s
             (inject_Z (Pygame.left (tile_rect rc.2 rc.1)
                        - Player.width s)))
  /\ Player.check_horizontal_collisions tiles self
     = Some (foldl PlayerSpec.horizontal_step self
                   (PlayerSpec.horizontal_hits tiles self))
  /\ (forall rc,
         last (PlayerSpec.horizontal_hits tiles self) = Some rc ->
         exists s',
           Player.check_horizontal_collisions tiles self = Some s'
           /\ Player.x s'
              = inject_Z (Pygame.left (tile_rect rc.2 rc.1)
                          - Player.width self)
           /\ Player.y s' = Player.y self
           /\ Player.vel_x s' = Player.vel_x self
           /\ Player.is_dashing s' = true
           /\ s' = Player.set_x self (Player.x s'))
  /\ (last (PlayerSpec.horizontal_hits tiles self) = None ->
      Player.check_horizontal_collisions tiles self = Some self).
Proof.
  intros Hok Hd.
  assert (Hlast :
    foldl PlayerSpec.horizontal_step self
          (PlayerSpec.horizontal_hits tiles self)
    = match last (PlayerSpec.horizontal_hits tiles self) with
      | None => self
      | Some rc =>
          Player.set_x self
            (inject_Z (Pygame.left (tile_rect rc.2 rc.1)
                       - Player.width self))
      end).
  { apply PlayerFacts.player_horizontal_fold_right. rewrite Hd.
    apply orb_true_r. }
  split; [|split; [|split]].
  - intros s rc Hs. unfold PlayerSpec.horizontal_step.
    rewrite Hs, orb_true_r. split; [|done]. apply player_x_set_x.
  - by apply PlayerFacts.player_horizontal_fold.
  - intros rc Hrc. rewrite PlayerFacts.player_horizontal_fold by done.
    rewrite Hlast, Hrc. eexists. split; [reflexivity|].
    destruct (player_x_set_x self
                (inject_Z (Pygame.left (tile_rect rc.2 rc.1)
                           - Player.width self)))
      as (Hx & Hy & Hvx & _ & _ & _ & _ & Hdash).
    rewrite Hx, Hy, Hvx, Hdash. by repeat split.
  - intros Hnone. rewrite PlayerFacts.player_horizontal_fold by done.
    by rewrite Hlast, Hnone.
Qed.

(** A dashing player that moves left from [x = 190] into the tile at
    row 0, column 5 of [far_tile_grid] ends at the tile's left face,
    [x = 160 - 64 = 96], still moving left. *)
Lemma dashing_resolves_through_right_branch_witness :
  let self :=
    Player.set_is_dashing (Player.set_vel_x (game_player 190 0) (-150)) true in
  grid_ok far_tile_grid = true
  /\ Player.is_dashing self = true
  /\ exists s',
       Player.check_horizontal_collisions far_tile_grid self = Some s'
       /\ Player.x s' = inject_Z 96
       /\ Player.vel_x s' = (-150)%Q.
Proof.
  split; [reflexivity|]. split; [reflexivity|].
  destruct (dashing_resolves_through_right_branch far_tile_grid
              (Player.set_is_dashing
                 (Player.set_vel_x (game_player 190 0) (-150)) true))
    as (_ & _ & H & _); [reflexivity..|].
  destruct (H (0, 5)) as (s' & Hs' & Hx & _ & Hvx & _); [reflexivity|].
  exists s'. split; [exact Hs'|]. split; [exact Hx|exact Hvx].
Defined.

(** C10: a body with zero velocity on an axis is not pushed out along that
    axis.  With [vel_x = 0] (and, for the player, not dashing) the
    horizontal pass returns the body unchanged.  With [vel_y = 0] the
    sweep of the vertical pass changes nothing after the reset of
    [on_ground]: the NPC ends ungrounded with [y] and [vel_y] unchanged,
    and the player can only be grounded by the ground-level snap, that is
    when its bottom edge is within 2 pixels of 928. *)
Theorem zero_velocity_is_not_pushed_out (tiles : list (list Z)) :
  grid_ok tiles = true ->
  (forall self,
      (Player.vel_x self == 0)%Q -> Player.is_dashing self = false ->
      Player.check_horizontal_collisions tiles self = Some self)
  /\ (forall self,
         (NPC.vel_x self == 0)%Q ->
         NPC.check_horizontal_collisions tiles self = Some self)
  /\ (forall self,
         (NPC.vel_y self == 0)%Q ->
         NPC.check_vertical_collisions tiles self
         = Some (NPC.set_on_ground self false))
  /\ (forall self,
         (Player.vel_y self == 0)%Q ->
         Player.vertical_sweep tiles (Player.set_on_ground self false)
         = Some (Player.set_on_ground self false)
         /\ Player.check_vertical_collisions tiles self
            = Some (Player.ground_snap (Player.set_on_ground self false))
         /\ forall s',
             Player.check_vertical_collisions tiles self = Some s' ->
             (Player.on_ground s' = true /\
              (Qabs (Player.y self + inject_Z (Player.height self)
                     - inject_Z Player.ground_y) <= 2)%Q)
             \/ (Player.on_ground s' = false
                 /\ Player.y s' = Player.y self
                 /\ Player.vel_y s' = Player.vel_y self)).
Proof.
  intros Hok. split; [|split; [|split]].
  - intros self Hv Hd. rewrite PlayerFacts.player_horizontal_fold by done.
    f_equal.
    apply PlayerFacts.player_horizontal_fold_rest; rewrite Hd, orb_false_r;
      apply ltb_ge; rewrite Hv; apply Qle_refl.
  - intros self Hv. rewrite NPCFacts.npc_horizontal_fold by done. f_equal.
    apply NPCFacts.npc_horizontal_fold_rest;
      apply ltb_ge; rewrite Hv; apply Qle_refl.
  - intros self Hv. rewrite NPCFacts.npc_check_vertical_fold by done. f_equal.
    unfold NPCSpec.resolve_vertical. apply NPCFacts.npc_vertical_fold_rest.
    by destruct self.
  - intros self Hv.
    assert (Hsweep :
      foldl PlayerSpec.vertical_step (Player.set_on_ground self false)
            (PlayerSpec.vertical_hits tiles self)
      = Player.set_on_ground self false).
    { apply PlayerFacts.player_vertical_fold_rest. by destruct self. }
    split; [|split].
    + rewrite PlayerFacts.player_vertical_sweep_fold by done. f_equal.
      by rewrite PlayerFacts.player_vertical_hits_reset.
    + rewrite PlayerFacts.player_check_vertical_fold by done.
      unfold PlayerSpec.resolve_vertical. by rewrite Hsweep.
    + intros s'. rewrite PlayerFacts.player_check_vertical_fold by done.
      unfold PlayerSpec.resolve_vertical. rewrite Hsweep.
      intros [= <-]. unfold Player.ground_snap.
      destruct (negb _ && _) eqn:E1; [|right; by destruct self].
      destruct (Py.leb (Qabs _) 2) eqn:E2; [|right; by destruct self].
      left. split; [by destruct self|].
      apply leb_le in E2. by destruct self.
Qed.

Lemma zero_velocity_is_not_pushed_out_witness :
  grid_ok one_tile_grid = true
  /\ NPC.check_vertical_collisions one_tile_grid (NPC.init 160 280 1)
     = Some (NPC.set_on_ground (NPC.init 160 280 1) false).
Proof.
  split; [reflexivity|].
  destruct (zero_velocity_is_not_pushed_out one_tile_grid) as (_ & _ & H & _);
    [reflexivity|].
  apply H. reflexivity.
Defined.

(** C6, as stated, fails: the NPC of scale 3 stands at the origin and moves
    right; its rectangle, 180 pixels wide, overlaps the solid tile at
    column 5, which lies outside the columns 0..3 the pass searches, and
    the pass leaves [x] at 0 instead of [160 - 180]. *)
Lemma wide_body_overlap_outside_window :
  (0 < NPC.vel_x wide_npc)%Q
  /\ solid far_tile_grid (0, 5) = true
  /\ Pygame.colliderect (NPC.rect wide_npc) (tile_rect 5 0) = true
  /\ NPC.check_horizontal_collisions far_tile_grid wide_npc = Some wide_npc
  /\ ~ (NPC.x wide_npc
        == inject_Z (Pygame.left (tile_rect 5 0) - NPC.width wide_npc))%Q.
Proof. vm_compute. repeat split; congruence. Qed.

(** C6, amended: for a body whose rectangle overlaps a solid tile of the
    search window, let [rc] be the last such tile in iteration order.
    Moving right ([vel_x > 0]) the horizontal pass returns the body with
    [x = tile.left - width]; moving left ([vel_x < 0]; for the player,
    when not dashing) with [x = tile.right].  In every case the pass
    writes [x] only: [y], [vel_x], [vel_y], the size and [on_ground] are
    as they were, and so is every other field. *)
Theorem horizontal_pass_resolves_last_overlap (tiles : list (list Z)) :
  grid_ok tiles = true ->
  (forall self rc,
      last (NPCSpec.horizontal_hits tiles self) = Some rc ->
      ((0 < NPC.vel_x self)%Q ->
       exists s',
         NPC.check_horizontal_collisions tiles self = Some s'
         /\ NPC.x s'
            = inject_Z (Pygame.left (tile_rect rc.2 rc.1) - NPC.width self)
         /\ s' = NPC.set_x self (NPC.x s'))
      /\ ((NPC.vel_x self < 0)%Q ->
          exists s',
            NPC.check_horizontal_collisions tiles self = Some s'
            /\ NPC.x s' = inject_Z (Pygame.right (tile_rect rc.2 rc.1))
            /\ s' = NPC.set_x self (NPC.x s')))
  /\ (forall self rc,
         last (PlayerSpec.horizontal_hits tiles self) = Some rc ->
         ((0 < Player.vel_x self)%Q ->
          exists s',
            Player.check_horizontal_collisions tiles self = Some s'
            /\ Player.x s'
               = inject_Z (Pygame.left (tile_rect rc.2 rc.1)
                           - Player.width self)
            /\ s' = Player.set_x self (Player.x s'))
         /\ ((Player.vel_x self < 0)%Q -> Player.is_dashing self = false ->
             exists s',
               Player.check_horizontal_collisions tiles self = Some s'
               /\ Player.x s' = inject_Z (Pygame.right (tile_rect rc.2 rc.1))
               /\ s' = Player.set_x self (Player.x s')))
  /\ (forall self,
         exists s', NPC.check_horizontal_collisions tiles self = Some s'
           /\ NPC.y s' = NPC.y self
           /\ NPC.vel_x s' = NPC.vel_x self
           /\ NPC.vel_y s' = NPC.vel_y self
           /\ NPC.width s' = NPC.width self
           /\ NPC.height s' = NPC.height self
           /\ NPC.on_ground s' = NPC.on_ground self
           /\ s' = NPC.set_x self (NPC.x s'))
  /\ (forall self,
         exists s', Player.check_horizontal_collisions tiles self = Some s'
           /\ Player.y s' = Player.y self
           /\ Player.vel_x s' = Player.vel_x self
           /\ Player.vel_y s' = Player.vel_y self
           /\ Player.width s' = Player.width self
           /\ Player.height s' = Player.height self
           /\ Player.on_ground s' = Player.on_ground self
           /\ s' = Player.set_x self (Player.x s')).
Proof.
  intros Hok.
  assert (Hnpc : forall self v,
    exists s', Some (NPC.set_x self v) = Some s'
      /\ NPC.x s' = v /\ s' = NPC.set_x self (NPC.x s')).
  { intros self v. eexists. split; [reflexivity|].
    destruct (npc_x_set_x self v) as (Hx & _). by rewrite Hx. }
  assert (Hplayer : forall self v,
    exists s', Some (Player.set_x self v) = Some s'
      /\ Player.x s' = v /\ s' = Player.set_x self (Player.x s')).
  { intros self v. eexists. split; [reflexivity|].
    destruct (player_x_set_x self v) as (Hx & _). by rewrite Hx. }
  split; [|split; [|split]].
  - intros self rc Hl. split; intros Hv; apply ltb_lt in Hv;
      rewrite NPCFacts.npc_horizontal_fold by done.
    + rewrite NPCFacts.npc_horizontal_fold_right by done. rewrite Hl.
      apply Hnpc.
    + rewrite NPCFacts.npc_horizontal_fold_left by done. rewrite Hl.
      apply Hnpc.
  - intros self rc Hl. split.
    + intros Hv. apply ltb_lt in Hv.
      rewrite PlayerFacts.player_horizontal_fold by done.
      rewrite PlayerFacts.player_horizontal_fold_right by (by rewrite Hv).
      rewrite Hl. apply Hplayer.
    + intros Hv Hd.
      rewrite PlayerFacts.player_horizontal_fold by done.
      rewrite PlayerFacts.player_horizontal_fold_left.
      * rewrite Hl. apply Hplayer.
      * rewrite Hd, orb_false_r. apply ltb_ge. by apply Qlt_le_weak.
      * by apply ltb_lt.
  - intros self. rewrite NPCFacts.npc_horizontal_fold by done.
    destruct (NPCFacts.npc_horizontal_fold_frame self
                (NPCSpec.horizontal_hits tiles self)) as [v Hv].
    eexists. split; [done|]. rewrite Hv.
    destruct (npc_x_set_x self v) as (Hx & Hy & Hvx & Hvy & Hw & Hh & Hg).
    rewrite Hx. by repeat split.
  - intros self. rewrite PlayerFacts.player_horizontal_fold by done.
    destruct (PlayerFacts.player_horizontal_fold_frame self
                (PlayerSpec.horizontal_hits tiles self)) as [v Hv].
    eexists. split; [done|]. rewrite Hv.
    destruct (player_x_set_x self v)
      as (Hx & Hy & Hvx & Hvy & Hw & Hh & Hg & _).
    rewrite Hx. by repeat split.
Qed.

(** The game's player walks right from [x = 100] into the solid tile at
    column 5 of [far_tile_grid] and is put at its left face,
    [x = 160 - 64 = 96]. *)
Lemma horizontal_pass_resolves_last_overlap_witness :
  let self := Player.set_vel_x (game_player 100 0) 150 in
  grid_ok far_tile_grid = true
  /\ last (PlayerSpec.horizontal_hits far_tile_grid self) = Some (0, 5)
  /\ exists s',
       Player.check_horizontal_collisions far_tile_grid self = Some s'
       /\ Player.x s' = inject_Z 96.
Proof.
  split; [reflexivity|]. split; [reflexivity|].
  destruct (horizontal_pass_resolves_last_overlap far_tile_grid)
    as (_ & H & _); [reflexivity|].
  destruct (H (Player.set_vel_x (game_player 100 0) 150) (0, 5)) as [H1 _];
    [reflexivity|].
  destruct H1 as (s' & Hs' & Hx & _); [reflexivity|].
  exists s'. split; [exact Hs'|exact Hx].
Defined.

(** ** Repeating the vertical pass *)

Lemma near_ground_tile_top (r h : Z) :
  (Qabs (inject_Z (r * tile_size - h) + inject_Z h - inject_Z 928) <= 2)%Q ->
  r * tile_size = 928.
Proof.
  intros H. apply Qabs_Qle_condition in H. destruct H as [H1 H2].
  rewrite <- inject_Z_plus in H1, H2.
  unfold Qminus in H1, H2. rewrite <- inject_Z_opp in H1, H2.
  rewrite <- inject_Z_plus in H1, H2.
  change (-(2))%Q with (inject_Z (-2)) in H1.
  change 2%Q with (inject_Z 2) in H2.
  rewrite <- Zle_Qle in H1, H2. unfold tile_size in *. lia.
Qed.

Lemma player_set_on_ground_fields (s : Player.t) (b : bool) :
  Player.x (Player.set_on_ground s b) = Player.x s
  /\ Player.y (Player.set_on_ground s b) = Player.y s
  /\ Player.vel_y (Player.set_on_ground s b) = Player.vel_y s
  /\ Player.height (Player.set_on_ground s b) = Player.height s
  /\ Player.on_ground (Player.set_on_ground s b) = b.
Proof. by destruct s. Qed.

Lemma player_snapped_fields (s : Player.t) (v : Q) :
  let s' :=
    Player.set_jump_count
      (Player.set_on_ground (Player.set_vel_y (Player.set_y s v) 0) true) 0 in
  Player.x s' = Player.x s /\ Player.y s' = v /\ Player.vel_y s' = 0%Q
  /\ Player.height s' = Player.height s /\ Player.on_ground s' = true.
Proof. by destruct s. Qed.

(** After one vertical pass of the player, the ground-level check of a
    second pass finds the body where it would put it. *)
Lemma player_settled_after_pass (f s1 : Player.t) (l : list (Z * Z)) r :
  f = foldl PlayerSpec.vertical_step r l ->
  Player.on_ground r = false ->
  s1 = Player.ground_snap f ->
  (Player.vel_y s1 == 0)%Q ->
  let s2 := Player.ground_snap (Player.set_on_ground s1 false) in
  Player.x s2 = Player.x s1 /\ Player.y s2 = Player.y s1.
Proof.
  intros Hf Hr Hs1 Hv s2. subst s2.
  destruct (player_set_on_ground_fields s1 false)
    as (Hx & Hy & Hvy & Hh & Hg).
  unfold Player.ground_snap. rewrite Hg, Hvy, Hy, Hh.
  cbn [negb andb].
  destruct (Py.leb 0 (Player.vel_y s1)); [|by rewrite Hx, Hy].
  destruct (Py.leb (Qabs _) 2) eqn:Enear; [|by rewrite Hx, Hy].
  destruct (player_snapped_fields (Player.set_on_ground s1 false)
              (inject_Z (Player.ground_y - Player.height s1)))
    as (Hx' & Hy' & _).
  rewrite Hx', Hy', Hx. split; [done|].
  apply leb_le in Enear. symmetry.
  rewrite Hs1 in Enear, Hv |- *. unfold Player.ground_snap in *.
  destruct (negb (Player.on_ground f) && Py.leb 0 (Player.vel_y f)) eqn:E1.
  - destruct (Py.leb (Qabs (Player.y f + inject_Z (Player.height f)
                            - inject_Z Player.ground_y)) 2) eqn:E2.
    + by destruct f.
    + apply leb_gt in E2. exfalso.
      apply (Qlt_irrefl 2). eapply Qlt_le_trans; eauto.
  - rewrite PlayerFacts.player_vertical_fold_first in Hf.
    destruct l as [|rc l'].
    + subst f. rewrite Hr in E1. cbn [negb andb] in E1.
      apply leb_gt in E1. rewrite Hv in E1. by apply Qlt_irrefl in E1.
    + unfold PlayerSpec.vertical_step in Hf.
      destruct (Py.ltb 0 (Player.vel_y r)) eqn:E3.
      * subst f. destruct r; simpl in *.
        f_equal. unfold Pygame.top, tile_rect in *. simpl in *.
        apply near_ground_tile_top in Enear. unfold Player.ground_y. lia.
      * assert (Hgf : Player.on_ground f = false).
        { destruct (Py.ltb (Player.vel_y r) 0); subst f; by destruct r. }
        rewrite Hgf in E1. cbn [negb andb] in E1.
        apply leb_gt in E1. rewrite Hv in E1. by apply Qlt_irrefl in E1.
Qed.

Lemma player_vel_y_ground_snap (f : Player.t) :
  (Player.vel_y f == 0)%Q -> (Player.vel_y (Player.ground_snap f) == 0)%Q.
Proof.
  intros H. unfold Player.ground_snap.
  destruct (negb _ && _); [|done].
  destruct (Py.leb _ 2); [by destruct f|done].
Qed.

Lemma player_ground_snap_moving (f : Player.t) :
  ~ (Player.vel_y (Player.ground_snap f) == 0)%Q -> Player.ground_snap f = f.
Proof.
  unfold Player.ground_snap.
  destruct (negb _ && _); [|done].
  destruct (Py.leb _ 2); [|done].
  intros H. exfalso. apply H. by destruct f.
Qed.

Lemma player_second_pass tiles (self f s1 : Player.t) :
  f = foldl PlayerSpec.vertical_step (Player.set_on_ground self false)
        (PlayerSpec.vertical_hits tiles self) ->
  s1 = Player.ground_snap f ->
  let s2 := Player.ground_snap (PlayerSpec.resolve_vertical tiles s1) in
  Player.x s2 = Player.x s1 /\ Player.y s2 = Player.y s1.
Proof.
  intros Hf Hs1 s2. subst s2.
  destruct (Qeq_dec (Player.vel_y s1) 0) as [Hv|Hv].
  - unfold PlayerSpec.resolve_vertical.
    rewrite PlayerFacts.player_vertical_fold_rest.
    + eapply player_settled_after_pass; eauto. by destruct self.
    + by destruct s1.
  - assert (Hl : PlayerSpec.vertical_hits tiles self = []).
    { destruct (PlayerSpec.vertical_hits tiles self) as [|rc l'] eqn:E;
        [done|].
      exfalso. apply Hv. rewrite Hs1. apply player_vel_y_ground_snap.
      rewrite Hf, PlayerFacts.player_vertical_fold_first.
      destruct (PlayerFacts.player_vel_y_vertical_step
                  (Player.set_on_ground self false) rc) as [H|H].
      + by rewrite PlayerFacts.player_vertical_step_rest.
      + by rewrite H. }
    rewrite Hl in Hf. simpl in Hf.
    assert (Hs : s1 = Player.set_on_ground self false).
    { rewrite Hs1 in Hv. apply player_ground_snap_moving in Hv.
      by rewrite Hs1, Hv. }
    unfold PlayerSpec.resolve_vertical.
    assert (Hr : Player.set_on_ground s1 false = s1)
      by (rewrite Hs; by destruct self).
    assert (Hh : PlayerSpec.vertical_hits tiles s1 = [])
      by (rewrite Hs, PlayerFacts.player_vertical_hits_reset; done).
    rewrite Hr, Hh. simpl.
    assert (Hsnap : Player.ground_snap s1 = s1).
    { rewrite Hs at 1. rewrite <- Hf. by rewrite <- Hs1. }
    by rewrite Hsnap.
Qed.

Lemma npc_second_pass tiles (self s1 : NPC.t) :
  s1 = NPCSpec.resolve_vertical tiles self ->
  let s2 := NPCSpec.resolve_vertical tiles s1 in
  NPC.x s2 = NPC.x s1 /\ NPC.y s2 = NPC.y s1.
Proof.
  intros Hs1 s2. subst s2.
  destruct (Qeq_dec (NPC.vel_y s1) 0) as [Hv|Hv].
  - unfold NPCSpec.resolve_vertical at 1 2.
    rewrite !NPCFacts.npc_vertical_fold_rest by by destruct s1.
    by destruct s1.
  - assert (Hl : NPCSpec.vertical_hits tiles self = []).
    { destruct (NPCSpec.vertical_hits tiles self) as [|rc l'] eqn:E; [done|].
      exfalso. apply Hv. rewrite Hs1. unfold NPCSpec.resolve_vertical.
      rewrite E, NPCFacts.npc_vertical_fold_first.
      destruct (NPCFacts.npc_vel_y_vertical_step
                  (NPC.set_on_ground self false) rc) as [H|H].
      + by rewrite NPCFacts.npc_vertical_step_rest.
      + by rewrite H. }
    assert (Hs : s1 = NPC.set_on_ground self false).
    { rewrite Hs1. unfold NPCSpec.resolve_vertical. by rewrite Hl. }
    unfold NPCSpec.resolve_vertical at 1 2.
    assert (Hh : NPCSpec.vertical_hits tiles s1 = [])
      by (rewrite Hs, NPCFacts.npc_vertical_hits_reset; done).
    rewrite Hh. simpl. by destruct s1.
Qed.

(** C8: the vertical pass is idempotent on positions.  A second pass run
    directly after a first one returns a body at the same [x] and [y]; in
    particular so for a body the first pass has resolved and that overlaps
    no solid tile any more.  It holds for the player and for the NPC. *)
Theorem vertical_pass_idempotent_position (tiles : list (list Z)) :
  grid_ok tiles = true ->
  (forall self s1,
      Player.check_vertical_collisions tiles self = Some s1 ->
      exists s2, Player.check_vertical_collisions tiles s1 = Some s2
        /\ Player.x s2 = Player.x s1 /\ Player.y s2 = Player.y s1)
  /\ (forall self s1,
         NPC.check_vertical_collisions tiles self = Some s1 ->
         exists s2, NPC.check_vertical_collisions tiles s1 = Some s2
           /\ NPC.x s2 = NPC.x s1 /\ NPC.y s2 = NPC.y s1).
Proof.
  intros Hok. split.
  - intros self s1. rewrite PlayerFacts.player_check_vertical_fold by done.
    intros [= Hs1]. rewrite PlayerFacts.player_check_vertical_fold by done.
    eexists. split; [done|].
    by apply (player_second_pass tiles self
                (PlayerSpec.resolve_vertical tiles self) s1).
  - intros self s1. rewrite NPCFacts.npc_check_vertical_fold by done.
    intros [= Hs1]. rewrite NPCFacts.npc_check_vertical_fold by done.
    eexists. split; [done|].
    by apply (npc_second_pass tiles self s1).
Qed.

Lemma vertical_pass_idempotent_position_witness :
  grid_ok one_tile_grid = true
  /\ exists s2,
       NPC.check_vertical_collisions one_tile_grid
         (NPC.set_on_ground
            (NPC.set_vel_y (NPC.set_y (NPC.init 160 261 1) 260) 0) true)
       = Some s2
       /\ NPC.y s2 = 260%Q.
Proof.
  split; [reflexivity|].
  destruct (vertical_pass_idempotent_position one_tile_grid) as [_ H];
    [reflexivity|].
  destruct (H (NPC.set_vel_y (NPC.init 160 261 1) 10)
              (NPC.set_on_ground
                 (NPC.set_vel_y (NPC.set_y (NPC.init 160 261 1) 260) 0) true))
    as (s2 & H1 & _ & H2); [reflexivity|].
  exists s2. split; [exact H1|exact H2].
Defined.

(** ** Flush bodies *)

Lemma int_inject_Z (k : Z) : Py.int (inject_Z k) = k.
Proof. unfold Py.int. simpl. apply Z.quot_1_r. Qed.

(** A body that rests exactly on top of a tile does not overlap it. *)
Lemma flush_no_overlap (x : Q) (w h c r : Z) :
  0 < h ->
  Pygame.colliderect
    (Pygame.Rect_of x (inject_Z (r * tile_size - h)) w h) (tile_rect c r)
  = false.
Proof.
  intros Hh. unfold Pygame.colliderect, Pygame.Rect_of, tile_rect. simpl.
  rewrite int_inject_Z. unfold tile_size.
  destruct ((w =? 0) || (h =? 0) || false || false); [done|].
  apply andb_false_iff. right. apply Z.ltb_ge. lia.
Qed.

(** C3, as stated, fails: the NPC rests exactly on the only solid tile of
    [one_tile_grid] (tile top 320, [y = 320 - 60]) with [vel_y >= 0], and
    one vertical pass leaves it ungrounded. *)
Lemma flush_npc_not_grounded :
  let self := NPC.set_vel_y (NPC.init 160 260 1) 10 in
  solid one_tile_grid (10, 5) = true
  /\ NPC.y self
     = inject_Z (Pygame.top (tile_rect 5 10) - NPC.height self)
  /\ (0 <= NPC.vel_y self)%Q
  /\ NPC.check_vertical_collisions one_tile_grid self
     = Some (NPC.set_on_ground self false)
  /\ NPC.on_ground (NPC.set_on_ground self false) = false.
Proof. vm_compute. repeat split; congruence. Qed.

(** C3, amended: a body resting exactly on top of a tile does not overlap
    it.  If such a body overlaps no solid tile of the search window and
    has [vel_y >= 0], one vertical pass leaves [y] unchanged; the player
    ends grounded with [vel_y = 0] when the tile top is the ground level
    928 (by the 2-pixel snap); on any other tile top, and always for the
    NPC, the pass reports [on_ground = false] and leaves [vel_y]
    unchanged. *)
Theorem flush_body_vertical_pass (tiles : list (list Z)) :
  grid_ok tiles = true ->
  (forall self c r,
      0 < Player.height self ->
      Player.y self = inject_Z (r * tile_size - Player.height self) ->
      Pygame.colliderect (Player.rect self) (tile_rect c r) = false)
  /\ (forall self,
         Player.y self = inject_Z (Player.ground_y - Player.height self) ->
         (0 <= Player.vel_y self)%Q ->
         PlayerSpec.vertical_hits tiles self = [] ->
         exists s', Player.check_vertical_collisions tiles self = Some s'
           /\ Player.on_ground s' = true /\ Player.vel_y s' = 0%Q
           /\ Player.y s' = Player.y self)
  /\ (forall self r,
         Player.y self = inject_Z (r * tile_size - Player.height self) ->
         r * tile_size <> Player.ground_y ->
         PlayerSpec.vertical_hits tiles self = [] ->
         Player.check_vertical_collisions tiles self
         = Some (Player.set_on_ground self false))
  /\ (forall self,
         NPCSpec.vertical_hits tiles self = [] ->
         NPC.check_vertical_collisions tiles self
         = Some (NPC.set_on_ground self false)).
Proof.
  intros Hok. split; [|split; [|split]].
  - intros self c r Hh Hy. unfold Player.rect. rewrite Hy.
    by apply flush_no_overlap.
  - intros self Hy Hv Hl.
    rewrite PlayerFacts.player_check_vertical_fold by done.
    unfold PlayerSpec.resolve_vertical. rewrite Hl. simpl.
    eexists. split; [done|]. unfold Player.ground_snap.
    destruct (player_set_on_ground_fields self false)
      as (_ & Hy' & Hvy & Hh & Hg).
    rewrite Hg, Hvy, Hy', Hh. apply leb_le in Hv. rewrite Hv.
    cbn [negb andb].
    assert (Hnear :
      Py.leb (Qabs (Player.y self + inject_Z (Player.height self)
                    - inject_Z Player.ground_y)) 2 = true).
    { apply leb_le. rewrite Hy. apply Qabs_Qle_condition.
      rewrite <- inject_Z_plus. unfold Qminus.
      rewrite <- inject_Z_opp, <- inject_Z_plus.
      change (-(2))%Q with (inject_Z (-2)). change 2%Q with (inject_Z 2).
      rewrite <- !Zle_Qle. lia. }
    rewrite Hnear.
    destruct (player_snapped_fields (Player.set_on_ground self false)
                (inject_Z (Player.ground_y - Player.height self)))
      as (_ & Hy'' & Hv'' & _ & Hg'').
    by rewrite Hg'', Hv'', Hy'', Hy.
  - intros self r Hy Hr Hl.
    rewrite PlayerFacts.player_check_vertical_fold by done.
    unfold PlayerSpec.resolve_vertical. rewrite Hl. simpl. f_equal.
    unfold Player.ground_snap.
    destruct (player_set_on_ground_fields self false)
      as (_ & Hy' & Hvy & Hh & Hg).
    rewrite Hg, Hvy, Hy', Hh.
    destruct (negb false && _); [|done].
    destruct (Py.leb (Qabs _) 2) eqn:E; [|done].
    exfalso. apply Hr. apply leb_le in E. rewrite Hy in E.
    by apply near_ground_tile_top in E.
  - intros self Hl. rewrite NPCFacts.npc_check_vertical_fold by done.
    unfold NPCSpec.resolve_vertical. by rewrite Hl.
Qed.

(** The game's player stands on the ground level over [open_grid]
    ([y = 928 - 64]) and is grounded by one vertical pass. *)
Lemma flush_body_vertical_pass_witness :
  grid_ok open_grid = true
  /\ exists s',
       Player.check_vertical_collisions open_grid (game_player 100 864)
       = Some s'
       /\ Player.on_ground s' = true /\ Player.vel_y s' = 0%Q
       /\ Player.y s' = 864%Q.
Proof.
  split; [reflexivity|].
  destruct (flush_body_vertical_pass open_grid) as (_ & H & _);
    [reflexivity|].
  apply (H (game_player 100 864)).
  - reflexivity.
  - vm_compute. congruence.
  - reflexivity.
Defined.

(** ** Falling over a grid without solid tiles *)


Lemma npc_update_dash_fields dt (s : NPC.t) :
  let s' := NPC.update_dash dt s in
  NPC.y s' = NPC.y s /\ NPC.vel_y s' = NPC.vel_y s
  /\ NPC.gravity s' = NPC.gravity s /\ NPC.on_ground s' = NPC.on_ground s.
Proof.
  unfold NPC.update_dash. destruct s; simpl.
  repeat match goal with
         | |- context [if ?c then _ else _] => destruct c; simpl
         end; done.
Qed.




Lemma player_handle_normal_movement_airborne keys dt (s : Player.t) :
  Player.on_ground s = false ->
  let s' := Player.handle_normal_movement keys dt s in
  Player.y s' = Player.y s /\ Player.vel_y s' = Player.vel_y s
  /\ Player.gravity s' = Player.gravity s
  /\ Player.max_fall_speed s' = Player.max_fall_speed s
  /\ Player.height s' = Player.height s /\ Player.on_ground s' = false.
Proof.
  intros Hg. unfold Player.handle_normal_movement.
  destruct s; simpl in *; subst.
  destruct (K_LEFT keys), (K_RIGHT keys);
    simpl; rewrite andb_false_r;
    match goal with |- context [if ?c then _ else _] => destruct c end;
    done.
Qed.

Lemma player_update_dash_fields dt (s : Player.t) :
  let s' := Player.update_dash dt s in
  Player.y s' = Player.y s /\ Player.vel_y s' = Player.vel_y s
  /\ Player.gravity s' = Player.gravity s
  /\ Player.max_fall_speed s' = Player.max_fall_speed s
  /\ Player.height s' = Player.height s
  /\ Player.on_ground s' = Player.on_ground s.
Proof.
  unfold Player.update_dash. destruct s; simpl.
  repeat match goal with
         | |- context [if ?c then _ else _] => destruct c; simpl
         end; done.
Qed.







(** ** Building the solid grid *)

Lemma for_in_pure_inv {I S} (P : S -> Prop) (l : list I)
    (body : I -> S -> option S) (f : S -> I -> S) (s : S) :
  P s ->
  (forall i s, i ∈ l -> P s -> body i s = Some (f s i) /\ P (f s i)) ->
  Py.for_in l body s = Some (foldl f s l) /\ P (foldl f s l).
Proof.
  revert s. induction l as [|i l IH]; intros s Hs H; simpl; [done|].
  destruct (H i s) as [-> HP]; [by left|done|].
  apply IH; [done|]. intros; apply H; [by right|done].
Qed.

Lemma nested_for_in_inv {S} (P : S -> Prop) (rows cols : list Z)
    (body : Z -> Z -> S -> option S) (cell : S -> Z * Z -> S) (s : S) :
  P s ->
  (forall r c s, r ∈ rows -> c ∈ cols -> P s ->
                 body r c s = Some (cell s (r, c)) /\ P (cell s (r, c))) ->
  Py.for_in rows (fun r s => Py.for_in cols (fun c s => body r c s) s) s
  = Some (foldl cell s (r ← rows; c ← cols; [(r, c)]))
  /\ P (foldl cell s (r ← rows; c ← cols; [(r, c)])).
Proof.
  intros Hs H. rewrite foldl_bind.
  apply (for_in_pure_inv P rows _
           (fun s r => foldl cell s (c ← cols; [(r, c)]))); [done|].
  intros r s' Hr Hs'. rewrite foldl_bind. simpl.
  apply (for_in_pure_inv P cols _ (fun s c => cell s (r, c))); [done|].
  intros c s'' Hc Hs''. by apply H.
Qed.

Lemma elem_of_cells (height width r c : Z) :
  (r, c) ∈ cells height width <-> (0 <= r < height /\ 0 <= c < width).
Proof.
  unfold cells. rewrite list_elem_of_bind. split.
  - intros (r' & Hin & Hr). apply list_elem_of_bind in Hin.
    destruct Hin as (c' & Hin & Hc). apply list_elem_of_singleton in Hin.
    injection Hin as -> ->. apply elem_of_range in Hr, Hc. lia.
  - intros [Hr Hc]. exists r. split; [|apply elem_of_range; lia].
    apply list_elem_of_bind. exists c.
    split; [by apply list_elem_of_singleton|apply elem_of_range; lia].
Qed.

Lemma dims_row grid height width r row :
  dims grid height width -> grid !! r = Some row ->
  Py.len row = Z.max 0 width.
Proof.
  intros [_ H] Hr. rewrite Forall_forall in H. apply H.
  by eapply list_elem_of_lookup_2.
Qed.

Lemma dims_lookup grid height width r :
  dims grid height width -> 0 <= r < height ->
  exists row, grid !! Z.to_nat r = Some row /\ Py.len row = Z.max 0 width.
Proof.
  intros Hd Hr. destruct (lookup_lt_is_Some_2 grid (Z.to_nat r)) as [row H].
  - destruct Hd as [Hl _]. unfold Py.len in Hl. lia.
  - exists row. split; [done|]. by eapply dims_row.
Qed.

Lemma dims_tile_at grid height width r c :
  dims grid height width -> 0 <= r < height -> 0 <= c < width ->
  is_Some (tile_at grid r c).
Proof.
  intros Hd Hr Hc. destruct (dims_lookup _ _ _ r Hd Hr) as (row & H & Hl).
  unfold tile_at. rewrite H. simpl. apply lookup_lt_is_Some_2.
  unfold Py.len in Hl. lia.
Qed.

Lemma index_nonneg {A} (l : list A) (i : Z) :
  0 <= i -> Py.index l i = l !! Z.to_nat i.
Proof. intros H. unfold Py.index. by rewrite (proj2 (Z.leb_le 0 i) H). Qed.

Lemma set_cell_paint grid height width r c :
  dims grid height width -> 0 <= r < height -> 0 <= c < width ->
  set_cell grid r c 1 = Some (paint grid (r, c)).
Proof.
  intros Hd Hr Hc. destruct (dims_lookup _ _ _ r Hd Hr) as (row & H & Hl).
  unfold set_cell, paint. simpl.
  rewrite !index_nonneg by lia. rewrite H. simpl.
  rewrite index_nonneg by lia.
  destruct (lookup_lt_is_Some_2 row (Z.to_nat c)) as [v ->]; [|done].
  unfold Py.len in Hl. lia.
Qed.

Lemma paint_dims grid height width rc :
  dims grid height width -> dims (paint grid rc) height width.
Proof.
  intros Hd. unfold paint.
  destruct (grid !! Z.to_nat rc.1) as [row|] eqn:E; [|done].
  pose proof (dims_row _ _ _ _ _ Hd E) as Hrow.
  destruct Hd as [Hl Hall]. split.
  - unfold Py.len in *. by rewrite length_insert.
  - apply Forall_insert; [done|]. unfold Py.len in *.
    by rewrite length_insert.
Qed.

Lemma tile_at_paint_same grid height width r c :
  dims grid height width -> 0 <= r < height -> 0 <= c < width ->
  tile_at (paint grid (r, c)) r c = Some 1.
Proof.
  intros Hd Hr Hc. destruct (dims_lookup _ _ _ r Hd Hr) as (row & H & Hl).
  unfold tile_at, paint. simpl. rewrite H.
  rewrite list_lookup_insert_eq by (by eapply lookup_lt_Some).
  simpl. apply list_lookup_insert_eq. unfold Py.len in Hl. lia.
Qed.

Lemma tile_at_paint_other grid r c r' c' :
  0 <= r -> 0 <= c -> 0 <= r' -> 0 <= c' -> (r, c) <> (r', c') ->
  tile_at (paint grid (r, c)) r' c' = tile_at grid r' c'.
Proof.
  intros Hr Hc Hr' Hc' Hne. unfold tile_at, paint. simpl.
  destruct (grid !! Z.to_nat r) as [row|] eqn:E; [|done].
  destruct (decide (r = r')) as [<-|Hrr].
  - rewrite list_lookup_insert_eq by (by eapply lookup_lt_Some).
    rewrite E. simpl. apply list_lookup_insert_ne.
    intros Heq. apply Hne. f_equal. lia.
  - rewrite list_lookup_insert_ne; [done|]. lia.
Qed.

(** Painting the cells selected by [p]: a cell of the map ends as 1 when
    selected and keeps its value otherwise. *)
Lemma tile_at_fold_paint (p : Z * Z -> bool) height width r c :
  0 <= r < height -> 0 <= c < width ->
  forall (l : list (Z * Z)) grid,
    dims grid height width ->
    (forall rc, rc ∈ l -> 0 <= rc.1 < height /\ 0 <= rc.2 < width) ->
    let grid' := foldl (fun g rc => if p rc then paint g rc else g) grid l in
    dims grid' height width
    /\ tile_at grid' r c
       = if bool_decide ((r, c) ∈ l) && p (r, c) then Some 1
         else tile_at grid r c.
Proof.
  intros Hr Hc. induction l as [|rc l IH]; intros grid Hd Hl; simpl.
  - done.
  - set (g1 := if p rc then paint grid rc else grid).
    assert (Hd1 : dims g1 height width).
    { subst g1. destruct (p rc); [by apply paint_dims|done]. }
    destruct (IH g1 Hd1) as [Hd' Ht].
    { intros rc' H. apply Hl. by right. }
    split; [done|]. rewrite Ht.
    destruct (Hl rc) as [Hrc1 Hrc2]; [by left|].
    destruct (decide (rc = (r, c))) as [->|Hne].
    + rewrite (bool_decide_eq_true_2 ((r, c) ∈ (r, c) :: l)) by by left.
      subst g1. destruct (p (r, c)) eqn:Ep; simpl.
      * rewrite andb_true_r. destruct (bool_decide _); [done|].
        by eapply tile_at_paint_same.
      * by rewrite andb_false_r.
    + assert (Hg1 : tile_at g1 r c = tile_at grid r c).
      { subst g1. destruct (p rc); [|done]. destruct rc as [r0 c0].
        simpl in *. apply tile_at_paint_other; [lia..|done]. }
      rewrite Hg1.
      assert (Hb : bool_decide ((r, c) ∈ rc :: l)
                   = bool_decide ((r, c) ∈ l)).
      { apply bool_decide_ext. rewrite elem_of_cons.
        split; [intros [H|H]; [congruence|done]|by right]. }
      by rewrite Hb.
Qed.

Lemma zero_grid_dims width height : dims (zero_grid width height) height width.
Proof.
  unfold dims, zero_grid, Py.len. split.
  - rewrite length_replicate. lia.
  - apply Forall_replicate. rewrite length_replicate. lia.
Qed.

Lemma zero_grid_tile_at width height r c :
  0 <= r < height -> 0 <= c < width ->
  tile_at (zero_grid width height) r c = Some 0.
Proof.
  intros Hr Hc. unfold tile_at, zero_grid.
  rewrite lookup_replicate_2 by lia. simpl.
  apply lookup_replicate_2. lia.
Qed.

(** The loop that both builders run over the map: read a tile
    identifier, paint the cell when it is non-zero. *)
Lemma paint_loop (get : Z -> Z -> option Z) height width grid :
  dims grid height width ->
  (forall r c, 0 <= r < height -> 0 <= c < width -> is_Some (get r c)) ->
  exists grid',
    Py.for_in (Py.range 0 height) (fun y g =>
      Py.for_in (Py.range 0 width) (fun x g =>
        v ← get y x;
        if negb (v =? 0) then set_cell g y x 1 else Some g) g) grid
    = Some grid'
    /\ dims grid' height width
    /\ forall r c, 0 <= r < height -> 0 <= c < width ->
         tile_at grid' r c
         = if nonzero (get r c) then Some 1 else tile_at grid r c.
Proof.
  intros Hd Hget.
  set (p := fun rc : Z * Z => nonzero (get rc.1 rc.2)).
  destruct (nested_for_in_inv (fun g => dims g height width)
              (Py.range 0 height) (Py.range 0 width)
              (fun y x g =>
                 v ← get y x;
                 if negb (v =? 0) then set_cell g y x 1 else Some g)
              (fun g rc => if p rc then paint g rc else g) grid Hd)
    as [Hloop Hd'].
  { intros r c g Hr Hc Hg. apply elem_of_range in Hr, Hc.
    destruct (Hget r c) as [v Hv]; [lia..|].
    subst p. simpl. rewrite Hv. simpl.
    destruct (negb (v =? 0)).
    - rewrite (set_cell_paint g height width) by (done || lia).
      split; [done|]. by apply paint_dims.
    - done. }
  eexists. split; [exact Hloop|]. split; [exact Hd'|].
  intros r c Hr Hc.
  destruct (tile_at_fold_paint p height width r c Hr Hc
              (cells height width) grid Hd) as [_ Ht].
  { intros [r' c'] H. by apply elem_of_cells in H. }
  unfold cells in Ht. rewrite Ht.
  rewrite bool_decide_eq_true_2 by (by apply elem_of_cells).
  done.
Qed.

Lemma layer_covers_tile_at layer height width r c :
  layer_covers layer height width = true ->
  0 <= r < height -> 0 <= c < width ->
  is_Some (tile_at layer r c).
Proof.
  unfold layer_covers. intros H Hr Hc.
  apply andb_true_iff in H as [Hh Hw]. apply Z.leb_le in Hh.
  rewrite forallb_forall in Hw.
  destruct (lookup_lt_is_Some_2 layer (Z.to_nat r)) as [row Hrow].
  { unfold Py.len in Hh. lia. }
  unfold tile_at. rewrite Hrow. simpl. apply lookup_lt_is_Some_2.
  assert (Hin : In row layer).
  { apply list_elem_of_In. by eapply list_elem_of_lookup_2. }
  specialize (Hw row Hin). apply Z.leb_le in Hw. unfold Py.len in Hw. lia.
Qed.

Lemma layer_cell_by_name m name layer r c :
  m !! name = Some layer -> 0 <= r -> 0 <= c ->
  MapUtils.layer_cell (MapUtils.ByName m) name r c = tile_at layer r c.
Proof.
  intros Hm Hr Hc. unfold MapUtils.layer_cell, tile_at. rewrite Hm. simpl.
  rewrite index_nonneg by done.
  destruct (layer !! Z.to_nat r) as [row|]; [|done]. simpl.
  by rewrite index_nonneg.
Qed.

(** One pass of [extract_ground_layer] over a named layer. *)
Lemma extract_layer_pass m name layer height width grid :
  m !! name = Some layer ->
  layer_covers layer height width = true ->
  dims grid height width ->
  exists grid',
    Py.for_in (Py.range 0 height) (fun y g =>
      Py.for_in (Py.range 0 width) (fun x g =>
        v ← MapUtils.layer_cell (MapUtils.ByName m) name y x;
        if negb (v =? 0) then set_cell g y x 1 else Some g) g) grid
    = Some grid'
    /\ dims grid' height width
    /\ forall r c, 0 <= r < height -> 0 <= c < width ->
         tile_at grid' r c
         = if nonzero (tile_at layer r c) then Some 1 else tile_at grid r c.
Proof.
  intros Hm Hcov Hd.
  destruct (paint_loop
              (fun y x => MapUtils.layer_cell (MapUtils.ByName m) name y x)
              height width grid Hd) as (grid' & Hloop & Hd' & Ht).
  { intros r c Hr Hc.
    rewrite (layer_cell_by_name m name layer) by (done || lia).
    by eapply layer_covers_tile_at. }
  exists grid'. split; [done|]. split; [done|].
  intros r c Hr Hc. rewrite Ht by done.
  by rewrite (layer_cell_by_name m name layer) by (done || lia).
Qed.

Lemma print_row_ok grid height width row :
  dims grid height width -> 0 < height -> 0 <= row < height ->
  Game.print_row grid row = Some tt.
Proof.
  intros Hd Hh Hrow. unfold Game.print_row.
  destruct (dims_lookup grid height width 0 Hd) as (g0 & Hg0 & Hl0); [lia|].
  destruct (dims_lookup grid height width row Hd) as (gr & Hgr & Hlr); [lia|].
  rewrite (index_nonneg grid 0), (index_nonneg grid row) by lia.
  rewrite Hg0. simpl.
  rewrite (for_in_pure _ _ (fun u _ => u)).
  - f_equal. by destruct (foldl _ _ _).
  - intros x [] Hx. apply elem_of_range in Hx.
    rewrite Hgr. simpl.
    rewrite index_nonneg by lia.
    destruct (lookup_lt_is_Some_2 gr (Z.to_nat x)) as [v ->]; [|done].
    unfold Py.len in *. lia.
Qed.

(** On the list of layer dictionaries that [load_tmx_map] returns,
    [name in layers] is false for both names and [extract_ground_layer]
    returns the grid of zeros. *)
Lemma extract_ground_layer_of_layer_list width height tw th l :
  MapUtils.extract_ground_layer
    (MapUtils.mk width height tw th (MapUtils.LayerList l))
  = Some (zero_grid width height).
Proof. reflexivity. Qed.

(** * Further properties of the modelled code *)

(** ** What the collision passes leave alone *)

Lemma for_in_invariant {I S} (P : S -> Prop) (l : list I)
    (body : I -> S -> option S) :
  (forall i s s', i ∈ l -> P s -> body i s = Some s' -> P s') ->
  forall s s', P s -> Py.for_in l body s = Some s' -> P s'.
Proof.
  intros H. induction l as [|i l IH]; intros s s' Hs Hrun; simpl in Hrun.
  - by injection Hrun as <-.
  - destruct (body i s) as [s1|] eqn:E; [|done].
    eapply IH; [|eapply H; [by left|exact Hs|exact E]|exact Hrun].
    intros j t t' Hj. apply H. by right.
Qed.

Lemma player_horizontal_frame tiles (s s' : Player.t) :
  Player.check_horizontal_collisions tiles s = Some s' ->
  exists v, s' = Player.set_x s v.
Proof.
  unfold Player.check_horizontal_collisions.
  destruct (tiles !! 0%nat) as [tiles0|]; [|done]. simpl.
  apply (for_in_invariant (fun t => exists v, t = Player.set_x s v)).
  - intros ty t t' _ Ht.
    apply (for_in_invariant (fun t => exists v, t = Player.set_x s v));
      [|exact Ht].
    intros tx u u' _ [v ->].
    destruct (_ && _); [|intros [= <-]; by eexists].
    destruct (tile_at tiles ty tx) as [gid|]; [|done]. simpl.
    destruct (negb _); [|intros [= <-]; by eexists].
    destruct (Pygame.colliderect _ _); [|intros [= <-]; by eexists].
    destruct (_ || _).
    { intros [= <-]. eexists. apply PlayerFacts.player_set_x_set_x. }
    destruct (_ || _).
    { intros [= <-]. eexists. apply PlayerFacts.player_set_x_set_x. }
    intros [= <-]. by eexists.
  - exists (Player.x s). by destruct s.
Qed.

(** The fields the vertical pass may write. *)
Lemma player_vertical_frame tiles (s s' : Player.t) :
  Player.check_vertical_collisions tiles s = Some s' ->
  exists y v g j,
    s' = Player.set_jump_count
           (Player.set_on_ground (Player.set_vel_y (Player.set_y s y) v) g) j.
Proof.
  set (P := fun t : Player.t => exists y v g j,
    t = Player.set_jump_count
          (Player.set_on_ground (Player.set_vel_y (Player.set_y s y) v) g) j).
  assert (Hstart : P (Player.set_on_ground s false)).
  { exists (Player.y s), (Player.vel_y s), false, (Player.jump_count s).
    by destruct s. }
  unfold Player.check_vertical_collisions, Player.vertical_sweep.
  destruct (tiles !! 0%nat) as [tiles0|]; [|done]. simpl.
  destruct (Py.for_in _ _ _) as [swept|] eqn:E; [|done]. simpl.
  intros [= <-].
  assert (Hswept : P swept).
  { revert E. apply (for_in_invariant P); [|exact Hstart].
    intros ty t t' _ Ht. apply (for_in_invariant P); [|exact Ht].
    intros tx u u' _ Hu.
    destruct (_ && _); [|by intros [= <-]].
    destruct (tile_at tiles ty tx) as [gid|]; [|done]. simpl.
    destruct (negb _); [|by intros [= <-]].
    destruct (Pygame.colliderect _ _); [|by intros [= <-]].
    destruct Hu as (y & v & g & j & ->).
    destruct (Py.ltb 0 _).
    { intros [= <-]. destruct s; simpl. by do 4 eexists. }
    destruct (Py.ltb _ 0).
    { intros [= <-]. destruct s; simpl. by do 4 eexists. }
    intros [= <-]. by do 4 eexists. }
  destruct Hswept as (y & v & g & j & ->).
  unfold Player.ground_snap.
  destruct (negb _ && _); [|by do 4 eexists].
  destruct (Py.leb _ 2); [|by do 4 eexists].
  destruct s; simpl. by do 4 eexists.
Qed.

Lemma npc_horizontal_frame tiles (s s' : NPC.t) :
  NPC.check_horizontal_collisions tiles s = Some s' ->
  exists v, s' = NPC.set_x s v.
Proof.
  unfold NPC.check_horizontal_collisions.
  destruct (tiles !! 0%nat) as [tiles0|]; [|done]. simpl.
  apply (for_in_invariant (fun t => exists v, t = NPC.set_x s v)).
  - intros ty t t' _ Ht.
    apply (for_in_invariant (fun t => exists v, t = NPC.set_x s v));
      [|exact Ht].
    intros tx u u' _ [v ->].
    destruct (_ && _); [|intros [= <-]; by eexists].
    destruct (tile_at tiles ty tx) as [gid|]; [|done]. simpl.
    destruct (negb _); [|intros [= <-]; by eexists].
    destruct (Pygame.colliderect _ _); [|intros [= <-]; by eexists].
    destruct (Py.ltb 0 _).
    { intros [= <-]. eexists. apply NPCFacts.npc_set_x_set_x. }
    destruct (Py.ltb _ 0).
    { intros [= <-]. eexists. apply NPCFacts.npc_set_x_set_x. }
    intros [= <-]. by eexists.
  - exists (NPC.x s). by destruct s.
Qed.

Lemma npc_vertical_frame tiles (s s' : NPC.t) :
  NPC.check_vertical_collisions tiles s = Some s' ->
  exists y v g j,
    s' = NPC.set_jump_count
           (NPC.set_on_ground (NPC.set_vel_y (NPC.set_y s y) v) g) j.
Proof.
  set (P := fun t : NPC.t => exists y v g j,
    t = NPC.set_jump_count
          (NPC.set_on_ground (NPC.set_vel_y (NPC.set_y s y) v) g) j).
  assert (Hstart : P (NPC.set_on_ground s false)).
  { exists (NPC.y s), (NPC.vel_y s), false, (NPC.jump_count s).
    by destruct s. }
  unfold NPC.check_vertical_collisions, NPC.vertical_sweep.
  destruct (tiles !! 0%nat) as [tiles0|]; [|done]. simpl.
  apply (for_in_invariant P); [|exact Hstart].
  intros ty t t' _ Ht. apply (for_in_invariant P); [|exact Ht].
  intros tx u u' _ Hu.
  destruct (_ && _); [|by intros [= <-]].
  destruct (tile_at tiles ty tx) as [gid|]; [|done]. simpl.
  destruct (negb _); [|by intros [= <-]].
  destruct (Pygame.colliderect _ _); [|by intros [= <-]].
  destruct Hu as (y & v & g & j & ->).
  destruct (Py.ltb 0 _).
  { intros [= <-]. destruct s; simpl. by do 4 eexists. }
  destruct (Py.ltb _ 0).
  { intros [= <-]. destruct s; simpl. by do 4 eexists. }
  intros [= <-]. by do 4 eexists.
Qed.

(** X1: whatever the grid, when the two collision passes return they have
    written only their own axis.  The horizontal pass changes [x] alone;
    the vertical pass changes at most [y], [vel_y], [on_ground] and
    [jump_count].  In particular neither touches [vel_x], the size of the
    body or the dash state. *)
Theorem collision_passes_frame (tiles : list (list Z)) :
  (forall s s' : Player.t,
      Player.check_horizontal_collisions tiles s = Some s' ->
      exists v, s' = Player.set_x s v)
  /\ (forall s s' : Player.t,
         Player.check_vertical_collisions tiles s = Some s' ->
         exists y v g j,
           s' = Player.set_jump_count
                  (Player.set_on_ground
                     (Player.set_vel_y (Player.set_y s y) v) g) j)
  /\ (forall s s' : NPC.t,
         NPC.check_horizontal_collisions tiles s = Some s' ->
         exists v, s' = NPC.set_x s v)
  /\ (forall s s' : NPC.t,
         NPC.check_vertical_collisions tiles s = Some s' ->
         exists y v g j,
           s' = NPC.set_jump_count
                  (NPC.set_on_ground (NPC.set_vel_y (NPC.set_y s y) v) g) j).
Proof.
  split; [|split; [|split]].
  - apply player_horizontal_frame.
  - apply player_vertical_frame.
  - apply npc_horizontal_frame.
  - apply npc_vertical_frame.
Qed.

Lemma collision_passes_frame_witness :
  exists v,
    Player.set_x (Player.set_vel_x (game_player 100 0) 150)
      (inject_Z (160 - 64))
    = Player.set_x (Player.set_vel_x (game_player 100 0) 150) v.
Proof.
  destruct (collision_passes_frame far_tile_grid) as [H _].
  apply (H (Player.set_vel_x (game_player 100 0) 150)).
  reflexivity.
Defined.

(** ** [update] phase by phase *)

Lemma player_update_phases dt keys grid (s : Player.t) :
  Player.update dt keys grid s
  = (m ← (if Player.truthy grid then
            h ← Player.check_horizontal_collisions (default [] grid)
                  (Phases.player_moved dt keys s);
            Player.check_vertical_collisions (default [] grid) h
          else Some (Phases.player_moved dt keys s));
     Some (Player.update_dash dt m)).
Proof. reflexivity. Qed.

Lemma npc_update_phases dt keys grid (s : NPC.t) (a : NPC.anim) :
  NPC.update dt keys grid s a
  = (m ← (if NPC.truthy grid then
            h ← NPC.check_horizontal_collisions (default [] grid)
                  (Phases.npc_moved dt keys s);
            NPC.check_vertical_collisions (default [] grid) h
          else Some (Phases.npc_moved dt keys s));
     a' ← NPC.update_animation dt m a;
     Some (NPC.update_dash dt m, a')).
Proof. reflexivity. Qed.

(** The state that leaves the collision stage of [Player.update] differs
    from the moved state in position, vertical speed, [on_ground] and
    [jump_count] at most. *)
Lemma player_collision_stage dt keys grid (s s' : Player.t) :
  Player.update dt keys grid s = Some s' ->
  exists x y v g j,
    s' = Player.update_dash dt
           (Player.set_jump_count
              (Player.set_on_ground
                 (Player.set_vel_y
                    (Player.set_y
                       (Player.set_x (Phases.player_moved dt keys s) x) y)
                    v) g) j).
Proof.
  rewrite player_update_phases.
  set (m := Phases.player_moved dt keys s).
  destruct (Player.truthy grid).
  - destruct (Player.check_horizontal_collisions _ m) as [h|] eqn:Eh;
      [|done].
    simpl.
    destruct (Player.check_vertical_collisions _ h) as [v|] eqn:Ev;
      [|done].
    simpl. intros [= <-].
    apply player_horizontal_frame in Eh as [x ->].
    apply player_vertical_frame in Ev as (y & vy & g & j & ->).
    by exists x, y, vy, g, j.
  - simpl. intros [= <-].
    exists (Player.x m), (Player.y m), (Player.vel_y m),
      (Player.on_ground m), (Player.jump_count m).
    by destruct m.
Qed.

Lemma npc_collision_stage dt keys grid (s s' : NPC.t) (a a' : NPC.anim) :
  NPC.update dt keys grid s a = Some (s', a') ->
  exists x y v g j,
    s' = NPC.update_dash dt
           (NPC.set_jump_count
              (NPC.set_on_ground
                 (NPC.set_vel_y
                    (NPC.set_y (NPC.set_x (Phases.npc_moved dt keys s) x) y)
                    v) g) j).
Proof.
  rewrite npc_update_phases.
  set (m := Phases.npc_moved dt keys s).
  destruct (NPC.truthy grid).
  - destruct (NPC.check_horizontal_collisions _ m) as [h|] eqn:Eh; [|done].
    simpl.
    destruct (NPC.check_vertical_collisions _ h) as [v|] eqn:Ev; [|done].
    simpl.
    destruct (NPC.update_animation dt v a) as [a1|]; [|done].
    simpl. intros [= <- <-].
    apply npc_horizontal_frame in Eh as [x ->].
    apply npc_vertical_frame in Ev as (y & vy & g & j & ->).
    by exists x, y, vy, g, j.
  - simpl.
    destruct (NPC.update_animation dt m a) as [a1|]; [|done].
    simpl. intros [= <- <-].
    exists (NPC.x m), (NPC.y m), (NPC.vel_y m),
      (NPC.on_ground m), (NPC.jump_count m).
    by destruct m.
Qed.

Lemma player_update_dash_frame dt (s : Player.t) :
  exists t d c,
    Player.update_dash dt s
    = Player.set_dash_cooldown_timer
        (Player.set_is_dashing (Player.set_dash_timer s t) d) c.
Proof.
  unfold Player.update_dash. destruct s; simpl.
  repeat match goal with
         | |- context [if ?c then _ else _] => destruct c; simpl
         end; by do 3 eexists.
Qed.

Lemma npc_update_dash_frame dt (s : NPC.t) :
  exists t d c,
    NPC.update_dash dt s
    = NPC.set_dash_cooldown_timer
        (NPC.set_is_dashing (NPC.set_dash_timer s t) d) c.
Proof.
  unfold NPC.update_dash. destruct s; simpl.
  repeat match goal with
         | |- context [if ?c then _ else _] => destruct c; simpl
         end; by do 3 eexists.
Qed.

Lemma player_moved_keeps_input dt keys (s : Player.t) :
  let h := Player.handle_normal_movement keys dt s in
  let m := Phases.player_moved dt keys s in
  Player.vel_x m = Player.vel_x h /\ Player.speed m = Player.speed h
  /\ Player.jump_count m = Player.jump_count h
  /\ Player.facing_right m = Player.facing_right h
  /\ player_dash_state m = player_dash_state h.
Proof.
  unfold Phases.player_moved, Player.apply_gravity, player_dash_state.
  generalize (Player.handle_normal_movement keys dt s). intros h.
  destruct h; simpl.
  destruct (Py.ltb _ _); simpl; destruct (Py.ltb _ _); done.
Qed.

Lemma player_stage_keeps_input dt (m : Player.t) x y v g j :
  let s' :=
    Player.update_dash dt
      (Player.set_jump_count
         (Player.set_on_ground
            (Player.set_vel_y (Player.set_y (Player.set_x m x) y) v) g) j) in
  Player.vel_x s' = Player.vel_x m /\ Player.speed s' = Player.speed m
  /\ Player.facing_right s' = Player.facing_right m.
Proof.
  intros s'. subst s'.
  match goal with |- context [Player.update_dash dt ?t] =>
    destruct (player_update_dash_frame dt t) as (a & b & c & ->)
  end.
  by destruct m.
Qed.

Lemma npc_moved_keeps_input dt keys (s : NPC.t) :
  let h := NPC.handle_normal_movement keys dt s in
  let m := Phases.npc_moved dt keys s in
  NPC.vel_x m = NPC.vel_x h /\ NPC.speed m = NPC.speed h.
Proof.
  unfold Phases.npc_moved, NPC.apply_gravity.
  generalize (NPC.handle_normal_movement keys dt s). intros h.
  by destruct h.
Qed.

Lemma npc_stage_keeps_input dt (m : NPC.t) x y v g j :
  let s' :=
    NPC.update_dash dt
      (NPC.set_jump_count
         (NPC.set_on_ground
            (NPC.set_vel_y (NPC.set_y (NPC.set_x m x) y) v) g) j) in
  NPC.vel_x s' = NPC.vel_x m /\ NPC.speed s' = NPC.speed m.
Proof.
  intros s'. subst s'.
  match goal with |- context [NPC.update_dash dt ?t] =>
    destruct (npc_update_dash_frame dt t) as (a & b & c & ->)
  end.
  by destruct m.
Qed.

Lemma player_input_speed keys dt (s : Player.t) :
  let h := Player.handle_normal_movement keys dt s in
  Player.vel_x h
  = (if K_LEFT keys then - Player.speed s
     else if K_RIGHT keys then Player.speed s else 0)%Q
  /\ Player.speed h = Player.speed s.
Proof.
  unfold Player.handle_normal_movement. destruct s; simpl.
  destruct (K_LEFT keys), (K_RIGHT keys); simpl;
    destruct (K_SPACE keys && _); simpl;
    destruct (K_d keys && _ && _); done.
Qed.

Lemma npc_input_speed keys dt (s : NPC.t) :
  let h := NPC.handle_normal_movement keys dt s in
  NPC.vel_x h
  = (if K_a keys || K_LEFT keys then - NPC.speed s
     else if K_d keys || K_RIGHT keys then NPC.speed s else 0)%Q
  /\ NPC.speed h = NPC.speed s.
Proof.
  unfold NPC.handle_normal_movement. destruct s; simpl.
  destruct (K_a keys || K_LEFT keys), (K_d keys || K_RIGHT keys); simpl;
    destruct (K_SPACE keys && _); simpl;
    destruct (K_d keys && _ && _); done.
Qed.

(** X2: horizontal speed is set directly from the keys at every update,
    never accumulated: after [update] it is [-speed] when the left key is
    held (left wins over right), [speed] when only the right key is held,
    and 0 otherwise, whatever the grid and the collisions.  The NPC reads
    [a] or left, [d] or right; its [update] includes the call of
    [update_animation]. *)
Theorem horizontal_speed_follows_keys dt keys grid :
  (forall s s' : Player.t,
      Player.update dt keys grid s = Some s' ->
      Player.vel_x s'
      = (if K_LEFT keys then - Player.speed s
         else if K_RIGHT keys then Player.speed s else 0)%Q
      /\ Player.speed s' = Player.speed s)
  /\ (forall (s s' : NPC.t) (a a' : NPC.anim),
         NPC.update dt keys grid s a = Some (s', a') ->
         NPC.vel_x s'
         = (if K_a keys || K_LEFT keys then - NPC.speed s
            else if K_d keys || K_RIGHT keys then NPC.speed s else 0)%Q
         /\ NPC.speed s' = NPC.speed s).
Proof.
  split.
  - intros s s' H.
    apply player_collision_stage in H as (x & y & v & g & j & ->).
    destruct (player_stage_keeps_input dt (Phases.player_moved dt keys s)
                x y v g j) as (-> & -> & _).
    destruct (player_moved_keeps_input dt keys s) as (-> & -> & _).
    apply player_input_speed.
  - intros s s' a a' H.
    apply npc_collision_stage in H as (x & y & v & g & j & ->).
    destruct (npc_stage_keeps_input dt (Phases.npc_moved dt keys s)
                x y v g j) as (-> & ->).
    destruct (npc_moved_keeps_input dt keys s) as (-> & ->).
    apply npc_input_speed.
Qed.

Lemma horizontal_speed_follows_keys_witness :
  exists s',
    Player.update (1 # 60) (mkKeys true true false false false false)
      (Some open_grid) (game_player 100 0) = Some s'
    /\ Player.vel_x s' = (- 150)%Q.
Proof.
  destruct (Player.update (1 # 60) (mkKeys true true false false false false)
              (Some open_grid) (game_player 100 0)) as [s'|] eqn:E.
  - exists s'. split; [done|].
    destruct (horizontal_speed_follows_keys (1 # 60)
                (mkKeys true true false false false false) (Some open_grid))
      as [H _].
    apply (H _ _ E).
  - vm_compute in E. discriminate.
Defined.

(** ** The map clamp *)

Lemma py_max_ge_left (a b : Q) : (a <= Py.max a b)%Q.
Proof.
  unfold Py.max. destruct (Py.ltb a b) eqn:E.
  - apply ltb_lt in E. by apply Qlt_le_weak.
  - apply Qle_refl.
Qed.

Lemma py_clamp_le (a b : Q) : (0 <= b)%Q -> (Py.max 0 (Py.min a b) <= b)%Q.
Proof.
  intros Hb. unfold Py.max, Py.min.
  destruct (Py.ltb b a) eqn:E1.
  - destruct (Py.ltb 0 b); [apply Qle_refl|done].
  - apply ltb_ge in E1. destruct (Py.ltb 0 a); done.
Qed.

Lemma inject_Z_sub_nonneg (a b : Z) : b <= a -> (0 <= inject_Z (a - b))%Q.
Proof. intros H. change 0%Q with (inject_Z 0). rewrite <- Zle_Qle. lia. Qed.

Lemma player_moved_bounds dt keys (s : Player.t) :
  0 <= Player.width s <= 1920 -> 0 <= Player.height s <= 960 ->
  let m := Phases.player_moved dt keys s in
  Player.width m = Player.width s /\ Player.height m = Player.height s
  /\ (0 <= Player.x m <= inject_Z (1920 - Player.width s))%Q
  /\ (0 <= Player.y m <= inject_Z (960 - Player.height s))%Q
  /\ (32 <= Player.height s ->
      Player.on_ground m
      = Player.on_ground (Player.handle_normal_movement keys dt s)).
Proof.
  intros Hw Hh. unfold Phases.player_moved.
  set (s1 := Player.apply_gravity dt
               (Player.handle_normal_movement keys dt s)).
  assert (Hs1 : Player.width s1 = Player.width s
                /\ Player.height s1 = Player.height s
                /\ Player.on_ground s1
                   = Player.on_ground
                       (Player.handle_normal_movement keys dt s)).
  { subst s1. unfold Player.apply_gravity, Player.handle_normal_movement.
    destruct s; simpl.
    repeat match goal with
           | |- context [if ?c then _ else _] => destruct c; simpl
           end; done. }
  clearbody s1. destruct Hs1 as (Hw1 & Hh1 & Hg1).
  destruct s1 as [x1 y1 w1 h1 vx1 vy1 sp1 js1 gr1 mf1 og1 jc1 d1 dd1 dt1
                    dc1 dcd1 fr1].
  simpl in *. subst w1 h1.
  set (X := Py.max 0 (Py.min (x1 + vx1 * dt)
                             (inject_Z (1920 - Player.width s)))).
  set (Y := Py.max 0 (Py.min (y1 + vy1 * dt)
                             (inject_Z (960 - Player.height s)))).
  assert (HX : (0 <= X <= inject_Z (1920 - Player.width s))%Q).
  { split; [apply py_max_ge_left|].
    apply py_clamp_le, inject_Z_sub_nonneg. lia. }
  assert (HY : (0 <= Y <= inject_Z (960 - Player.height s))%Q).
  { split; [apply py_max_ge_left|].
    apply py_clamp_le, inject_Z_sub_nonneg. lia. }
  destruct (Py.ltb (inject_Z 928) Y) eqn:E; simpl.
  - apply ltb_lt in E.
    assert (Hsmall : Player.height s < 32).
    { destruct HY as [_ HY].
      assert (Hlt : (inject_Z 928 < inject_Z (960 - Player.height s))%Q)
        by (eapply Qlt_le_trans; eauto).
      rewrite <- Zlt_Qlt in Hlt. lia. }
    repeat split; try done.
    + apply HX.
    + apply HX.
    + change 0%Q with (inject_Z 0). rewrite <- Zle_Qle. lia.
    + rewrite <- Zle_Qle. lia.
    + intros. lia.
  - repeat split; try done; apply HY || apply HX.
Qed.

(** X3: with a missing or empty grid, [Player.update] keeps the body inside
    the map: for a body no larger than the map (1920 by 960 pixels) the
    updated position satisfies [0 <= x <= 1920 - width] and
    [0 <= y <= 960 - height], wherever the body was and however fast it
    moved. *)
Theorem player_stays_in_map_without_grid dt keys grid (s : Player.t) :
  Player.truthy grid = false ->
  0 <= Player.width s <= 1920 -> 0 <= Player.height s <= 960 ->
  exists s', Player.update dt keys grid s = Some s'
    /\ (0 <= Player.x s' <= inject_Z (1920 - Player.width s))%Q
    /\ (0 <= Player.y s' <= inject_Z (960 - Player.height s))%Q.
Proof.
  intros Hg Hw Hh. rewrite player_update_phases, Hg. simpl.
  eexists. split; [done|].
  destruct (player_moved_bounds dt keys s Hw Hh) as (_ & _ & HX & HY & _).
  match goal with |- context [Player.update_dash dt ?m] =>
    destruct (player_update_dash_frame dt m) as (t & d & c & ->);
    set (mm := m) in *
  end.
  clearbody mm. by destruct mm.
Qed.

Lemma player_stays_in_map_without_grid_witness :
  exists s',
    Player.update 10 (mkKeys false true false false false false) None
      (game_player 1900 900) = Some s'
    /\ (0 <= Player.x s' <= inject_Z (1920 - 64))%Q
    /\ (0 <= Player.y s' <= inject_Z (960 - 64))%Q.
Proof.
  apply (player_stays_in_map_without_grid 10
           (mkKeys false true false false false false) None
           (game_player 1900 900)).
  - reflexivity.
  - vm_compute. split; congruence.
  - vm_compute. split; congruence.
Defined.

(** X4: the ground-level clamp [if self.y > 928] of [Player.update] cannot
    fire for a body at least 32 pixels high, because the map clamp has
    already put [y] at [960 - height <= 928] or above it.  So with a
    missing or empty grid such a player (the game's player is 64 pixels
    high) that is airborne before the update is still not grounded after
    it. *)
Theorem tall_player_never_grounded_without_grid dt keys grid
    (s : Player.t) :
  Player.truthy grid = false ->
  0 <= Player.width s <= 1920 -> 32 <= Player.height s <= 960 ->
  Player.on_ground s = false ->
  exists s', Player.update dt keys grid s = Some s'
    /\ Player.on_ground s' = false.
Proof.
  intros Hg Hw Hh Ha. rewrite player_update_phases, Hg. simpl.
  eexists. split; [done|].
  destruct (player_moved_bounds dt keys s Hw) as (_ & _ & _ & _ & Hog);
    [lia|].
  destruct (player_handle_normal_movement_airborne keys dt s Ha)
    as (_ & _ & _ & _ & _ & Hn).
  rewrite Hn in Hog.
  match goal with |- context [Player.update_dash dt ?m] =>
    destruct (player_update_dash_fields dt m) as (_ & _ & _ & _ & _ & ->)
  end.
  apply Hog. lia.
Qed.

Lemma tall_player_never_grounded_without_grid_witness :
  exists s',
    Player.update 10 no_keys (Some []) (game_player 100 890) = Some s'
    /\ Player.on_ground s' = false.
Proof.
  apply (tall_player_never_grounded_without_grid 10 no_keys (Some [])
           (game_player 100 890)).
  - reflexivity.
  - vm_compute. split; congruence.
  - vm_compute. split; congruence.
  - reflexivity.
Defined.

(** ** Gravity *)

Lemma player_vertical_vel_y tiles (s s' : Player.t) :
  Player.check_vertical_collisions tiles s = Some s' ->
  Player.vel_y s' = Player.vel_y s \/ Player.vel_y s' = 0%Q.
Proof.
  set (P := fun t : Player.t =>
              Player.vel_y t = Player.vel_y s \/ Player.vel_y t = 0%Q).
  assert (Hstart : P (Player.set_on_ground s false))
    by (left; by destruct s).
  unfold Player.check_vertical_collisions, Player.vertical_sweep.
  destruct (tiles !! 0%nat) as [tiles0|]; [|done]. simpl.
  destruct (Py.for_in _ _ _) as [swept|] eqn:E; [|done]. simpl.
  intros [= <-].
  assert (Hswept : P swept).
  { revert E. apply (for_in_invariant P); [|exact Hstart].
    intros ty t t' _ Ht. apply (for_in_invariant P); [|exact Ht].
    intros tx u u' _ Hu.
    destruct (_ && _); [|by intros [= <-]].
    destruct (tile_at tiles ty tx) as [gid|]; [|done]. simpl.
    destruct (negb _); [|by intros [= <-]].
    destruct (Pygame.colliderect _ _); [|by intros [= <-]].
    destruct (Py.ltb 0 _).
    { intros [= <-]. right. by destruct u. }
    destruct (Py.ltb _ 0).
    { intros [= <-]. right. by destruct u. }
    by intros [= <-]. }
  unfold Player.ground_snap.
  destruct (negb _ && _); [|exact Hswept].
  destruct (Py.leb _ 2); [|exact Hswept].
  right. by destruct swept.
Qed.

Lemma npc_vertical_vel_y tiles (s s' : NPC.t) :
  NPC.check_vertical_collisions tiles s = Some s' ->
  NPC.vel_y s' = NPC.vel_y s \/ NPC.vel_y s' = 0%Q.
Proof.
  set (P := fun t : NPC.t =>
              NPC.vel_y t = NPC.vel_y s \/ NPC.vel_y t = 0%Q).
  assert (Hstart : P (NPC.set_on_ground s false))
    by (left; by destruct s).
  unfold NPC.check_vertical_collisions, NPC.vertical_sweep.
  destruct (tiles !! 0%nat) as [tiles0|]; [|done]. simpl.
  apply (for_in_invariant P); [|exact Hstart].
  intros ty t t' _ Ht. apply (for_in_invariant P); [|exact Ht].
  intros tx u u' _ Hu.
  destruct (_ && _); [|by intros [= <-]].
  destruct (tile_at tiles ty tx) as [gid|]; [|done]. simpl.
  destruct (negb _); [|by intros [= <-]].
  destruct (Pygame.colliderect _ _); [|by intros [= <-]].
  destruct (Py.ltb 0 _).
  { intros [= <-]. right. by destruct u. }
  destruct (Py.ltb _ 0).
  { intros [= <-]. right. by destruct u. }
  by intros [= <-].
Qed.

(** The vertical speed that leaves the collision stage is the one that
    entered it, or 0. *)
Lemma player_stage_vel_y grid (m m' : Player.t) :
  (if Player.truthy grid then
     h ← Player.check_horizontal_collisions (default [] grid) m;
     Player.check_vertical_collisions (default [] grid) h
   else Some m) = Some m' ->
  (Player.vel_y m' = Player.vel_y m \/ Player.vel_y m' = 0%Q)
  /\ (Player.truthy grid = false -> m' = m).
Proof.
  destruct (Player.truthy grid).
  - destruct (Player.check_horizontal_collisions _ m) as [h|] eqn:Eh;
      [|done].
    simpl. intros Ev. split; [|done].
    apply player_horizontal_frame in Eh as [x ->].
    apply player_vertical_vel_y in Ev.
    destruct (player_x_set_x m x) as (_ & _ & _ & Hv & _).
    by rewrite Hv in Ev.
  - intros [= <-]. split; [by left|done].
Qed.

Lemma npc_stage_vel_y grid (m m' : NPC.t) :
  (if NPC.truthy grid then
     h ← NPC.check_horizontal_collisions (default [] grid) m;
     NPC.check_vertical_collisions (default [] grid) h
   else Some m) = Some m' ->
  (NPC.vel_y m' = NPC.vel_y m \/ NPC.vel_y m' = 0%Q)
  /\ (NPC.truthy grid = false -> m' = m).
Proof.
  destruct (NPC.truthy grid).
  - destruct (NPC.check_horizontal_collisions _ m) as [h|] eqn:Eh; [|done].
    simpl. intros Ev. split; [|done].
    apply npc_horizontal_frame in Eh as [x ->].
    apply npc_vertical_vel_y in Ev.
    destruct (npc_x_set_x m x) as (_ & _ & _ & Hv & _).
    by rewrite Hv in Ev.
  - intros [= <-]. split; [by left|done].
Qed.

Lemma player_input_vel_y keys dt (s : Player.t) :
  let h := Player.handle_normal_movement keys dt s in
  Player.vel_y h
  = (if K_SPACE keys && Player.on_ground s then Player.jump_speed s
     else Player.vel_y s)
  /\ Player.gravity h = Player.gravity s
  /\ Player.max_fall_speed h = Player.max_fall_speed s
  /\ Player.height h = Player.height s.
Proof.
  unfold Player.handle_normal_movement. destruct s; simpl.
  destruct (K_LEFT keys), (K_RIGHT keys); simpl;
    destruct (K_SPACE keys && _); simpl;
    destruct (K_d keys && _ && _); done.
Qed.

Lemma npc_input_vel_y keys dt (s : NPC.t) :
  let h := NPC.handle_normal_movement keys dt s in
  NPC.vel_y h
  = (if K_SPACE keys && NPC.on_ground s then NPC.jump_speed s
     else NPC.vel_y s)
  /\ NPC.gravity h = NPC.gravity s.
Proof.
  unfold NPC.handle_normal_movement. destruct s; simpl.
  destruct (K_a keys || K_LEFT keys), (K_d keys || K_RIGHT keys); simpl;
    destruct (K_SPACE keys && _); simpl;
    destruct (K_d keys && _ && _); done.
Qed.

(** The vertical speed with which the player enters the collision stage:
    the integrated and clamped one, unless the ground-level clamp
    [if self.y > 928] fired, which it cannot for a body at least 32
    pixels high. *)
Lemma player_moved_vel_y dt keys (s : Player.t) :
  let h := Player.handle_normal_movement keys dt s in
  let m := Phases.player_moved dt keys s in
  let v1 := (Player.vel_y h + Player.gravity h * dt)%Q in
  let v2 := if Py.ltb (Player.max_fall_speed h) v1
            then Player.max_fall_speed h else v1 in
  (Player.vel_y m = v2 \/ Player.vel_y m = 0%Q)
  /\ (32 <= Player.height h <= 960 -> Player.vel_y m = v2).
Proof.
  unfold Phases.player_moved, Player.apply_gravity.
  generalize (Player.handle_normal_movement keys dt s). intros h.
  destruct h as [x1 y1 w1 h1 vx1 vy1 sp1 js1 gr1 mf1 og1 jc1 d1 dd1 dt1
                   dc1 dcd1 fr1].
  simpl.
  destruct (Py.ltb mf1 (vy1 + gr1 * dt)); simpl.
  - match goal with
    | |- context [Py.ltb (inject_Z 928) ?Y] =>
        destruct (Py.ltb (inject_Z 928) Y) eqn:E; simpl
    end.
    + split; [by right|]. intros Hh. exfalso.
      apply ltb_lt in E.
      match type of E with
      | (_ < Py.max 0 (Py.min ?a ?b))%Q =>
          pose proof (py_clamp_le a b (inject_Z_sub_nonneg 960 h1
            ltac:(lia))) as Hle
      end.
      assert (Hlt : (inject_Z 928 < inject_Z (960 - h1))%Q)
        by (eapply Qlt_le_trans; eauto).
      rewrite <- Zlt_Qlt in Hlt. lia.
    + split; [by left|done].
  - match goal with
    | |- context [Py.ltb (inject_Z 928) ?Y] =>
        destruct (Py.ltb (inject_Z 928) Y) eqn:E; simpl
    end.
    + split; [by right|]. intros Hh. exfalso.
      apply ltb_lt in E.
      match type of E with
      | (_ < Py.max 0 (Py.min ?a ?b))%Q =>
          pose proof (py_clamp_le a b (inject_Z_sub_nonneg 960 h1
            ltac:(lia))) as Hle
      end.
      assert (Hlt : (inject_Z 928 < inject_Z (960 - h1))%Q)
        by (eapply Qlt_le_trans; eauto).
      rewrite <- Zlt_Qlt in Hlt. lia.
    + split; [by left|done].
Qed.

Lemma npc_moved_vel_y dt keys (s : NPC.t) :
  let h := NPC.handle_normal_movement keys dt s in
  NPC.vel_y (Phases.npc_moved dt keys s)
  = (NPC.vel_y h + NPC.gravity h * dt)%Q.
Proof.
  unfold Phases.npc_moved, NPC.apply_gravity.
  generalize (NPC.handle_normal_movement keys dt s). intros h.
  by destruct h.
Qed.

(** C5, as stated, fails for the NPC: it has no [max_fall_speed], and one
    update at [dt = 1/60] takes [vel_y] from 10000 to 10010, above any
    limit the player knows (500). *)
Lemma npc_fall_speed_not_clamped :
  let self := NPC.set_vel_y (NPC.init 0 0 1) 10000 in
  exists s' a',
    NPC.update (1 # 60) no_keys None self fresh_anim = Some (s', a')
    /\ (NPC.vel_y s' == 10010)%Q
    /\ (Player.max_fall_speed (Player.init 0 0 1) < NPC.vel_y s')%Q.
Proof.
  do 2 eexists. split; [vm_compute; reflexivity|].
  vm_compute. split; congruence.
Qed.

(** C5, amended: [Player.update] takes the vertical speed left by the
    input step (the jump speed after a jump from the ground, the old
    speed otherwise), adds [gravity * dt] and clamps the sum so that it
    does not exceed [max_fall_speed]; the speed it returns is that
    clamped value, or 0 when a collision, the ground snap or the
    ground-level clamp stopped the body, so it never exceeds a
    non-negative [max_fall_speed]; without a grid, for a body between 32
    and 960 pixels high, it is exactly the clamped value.  [NPC.update]
    adds [gravity * dt] in the same way and applies no limit: the speed
    it returns is the sum, or 0 after a collision, and exactly the sum
    without a grid. *)
Theorem gravity_integration (dt : Q) (keys : Keys)
    (grid : option (list (list Z))) :
  (forall s s' : Player.t,
      Player.update dt keys grid s = Some s' ->
      let v0 := if K_SPACE keys && Player.on_ground s
                then Player.jump_speed s else Player.vel_y s in
      let v1 := (v0 + Player.gravity s * dt)%Q in
      let v2 := if Py.ltb (Player.max_fall_speed s) v1
                then Player.max_fall_speed s else v1 in
      (Player.vel_y s' = v2 \/ Player.vel_y s' = 0%Q)
      /\ ((0 <= Player.max_fall_speed s)%Q ->
          (Player.vel_y s' <= Player.max_fall_speed s)%Q)
      /\ (Player.truthy grid = false -> 32 <= Player.height s <= 960 ->
          Player.vel_y s' = v2))
  /\ (forall (s s' : NPC.t) (a a' : NPC.anim),
         NPC.update dt keys grid s a = Some (s', a') ->
         let v0 := if K_SPACE keys && NPC.on_ground s
                   then NPC.jump_speed s else NPC.vel_y s in
         (NPC.vel_y s' = (v0 + NPC.gravity s * dt)%Q
          \/ NPC.vel_y s' = 0%Q)
         /\ (NPC.truthy grid = false ->
             NPC.vel_y s' = (v0 + NPC.gravity s * dt)%Q)).
Proof.
  split.
  - intros s s' Hrun v0 v1 v2.
    rewrite player_update_phases in Hrun.
    destruct (if Player.truthy grid then _ else _) as [m'|] eqn:Estage;
      [|done].
    simpl in Hrun. injection Hrun as <-.
    destruct (player_update_dash_fields dt m') as (_ & -> & _).
    apply player_stage_vel_y in Estage as [Hstage Hskip].
    destruct (player_moved_vel_y dt keys s) as [Hm Htall].
    destruct (player_input_vel_y keys dt s) as (Hv & Hg & Hmf & Hh).
    rewrite Hv, Hg, Hmf in Hm, Htall. rewrite Hh in Htall.
    fold v0 in Hm, Htall. fold v1 in Hm, Htall. fold v2 in Hm, Htall.
    assert (Hcases : Player.vel_y m' = v2 \/ Player.vel_y m' = 0%Q).
    { destruct Hstage as [->|Hz]; [exact Hm|by right]. }
    split; [exact Hcases|]. split.
    + intros Hpos. destruct Hcases as [->| ->]; [|exact Hpos].
      subst v2. destruct (Py.ltb _ v1) eqn:E; [apply Qle_refl|].
      by apply ltb_ge in E.
    + intros Hnone Htall'. rewrite (Hskip Hnone). by apply Htall.
  - intros s s' a a' Hrun v0.
    rewrite npc_update_phases in Hrun.
    destruct (if NPC.truthy grid then _ else _) as [m'|] eqn:Estage;
      [|done].
    cbn [mbind option_bind] in Hrun.
    destruct (NPC.update_animation dt m' a) as [a1|]; [|done].
    cbn [mbind option_bind] in Hrun. injection Hrun as <- <-.
    destruct (npc_update_dash_fields dt m') as (_ & -> & _).
    apply npc_stage_vel_y in Estage as [Hstage Hskip].
    pose proof (npc_moved_vel_y dt keys s) as Hm. simpl in Hm.
    destruct (npc_input_vel_y keys dt s) as (Hv & Hg).
    rewrite Hv, Hg in Hm. fold v0 in Hm.
    split.
    + destruct Hstage as [->|Hz]; [by left|by right].
    + intros Hnone. by rewrite (Hskip Hnone).
Qed.

(** The game's player, falling at 495 pixels per second without a grid:
    one frame at sixty frames per second would take it to 511.67, and
    the update returns it at the limit, 500. *)
Lemma gravity_integration_witness :
  exists s',
    Player.update (1 # 60) no_keys None
      (Player.set_vel_y (game_player 100 0) 495) = Some s'
    /\ Player.vel_y s' = 500%Q.
Proof.
  destruct (Player.update (1 # 60) no_keys None
              (Player.set_vel_y (game_player 100 0) 495)) as [s'|] eqn:E.
  - exists s'. split; [done|].
    destruct (gravity_integration (1 # 60) no_keys None) as [H _].
    destruct (H _ _ E) as (_ & _ & Hexact).
    rewrite Hexact; [reflexivity|reflexivity|split; vm_compute; congruence].
  - vm_compute in E. discriminate.
Defined.

(** ** Jumping *)

Lemma player_input_airborne keys dt (s : Player.t) :
  Player.on_ground s = false ->
  Player.handle_normal_movement keys dt s
  = Player.handle_normal_movement (Phases.release_space keys) dt s.
Proof.
  intros Hg. unfold Player.handle_normal_movement, Phases.release_space.
  destruct keys as [kl kr ks ka kd kf]. destruct s; simpl in *; subst.
  destruct kl, kr, ks; reflexivity.
Qed.

Lemma npc_input_airborne keys dt (s : NPC.t) :
  NPC.on_ground s = false ->
  NPC.handle_normal_movement keys dt s
  = NPC.handle_normal_movement (Phases.release_space keys) dt s.
Proof.
  intros Hg. unfold NPC.handle_normal_movement, Phases.release_space.
  destruct keys as [kl kr ks ka kd kf]. destruct s; simpl in *; subst.
  destruct kl, kr, ks, ka, kd; reflexivity.
Qed.

(** X5: a jump is honoured only from the ground.  For an airborne body the
    jump key is ignored: [update] returns exactly what it returns with the
    key released (no change of [vel_y], no [jump_count] increment).  For a
    grounded body that holds the key, the input step sets
    [vel_y = jump_speed], clears [on_ground] and adds one to
    [jump_count]. *)
Theorem jump_only_from_ground dt keys grid :
  (forall s : Player.t,
      Player.on_ground s = false ->
      Player.update dt keys grid s
      = Player.update dt (Phases.release_space keys) grid s)
  /\ (forall (s : NPC.t) (a : NPC.anim),
         NPC.on_ground s = false ->
         NPC.update dt keys grid s a
         = NPC.update dt (Phases.release_space keys) grid s a)
  /\ (forall s : Player.t,
         Player.on_ground s = true -> K_SPACE keys = true ->
         let s' := Player.handle_normal_movement keys dt s in
         Player.vel_y s' = Player.jump_speed s
         /\ Player.on_ground s' = false
         /\ Player.jump_count s' = Player.jump_count s + 1).
Proof.
  split; [|split].
  - intros s Hg. rewrite !player_update_phases.
    unfold Phases.player_moved.
    by rewrite (player_input_airborne keys dt s Hg).
  - intros s a Hg. rewrite !npc_update_phases.
    unfold Phases.npc_moved.
    by rewrite (npc_input_airborne keys dt s Hg).
  - intros s Hg Hk s'. subst s'. unfold Player.handle_normal_movement.
    destruct keys as [kl kr ks ka kd kf]. destruct s; simpl in *; subst.
    destruct kl, kr; simpl;
      match goal with
      | |- context [if ?c then _ else _] => destruct c; simpl
      end; done.
Qed.

Lemma jump_only_from_ground_witness :
  Player.update (1 # 60) (mkKeys false false true false false false)
    (Some open_grid) (game_player 100 0)
  = Player.update (1 # 60) no_keys (Some open_grid) (game_player 100 0).
Proof.
  apply (jump_only_from_ground (1 # 60)
           (mkKeys false false true false false false) (Some open_grid)).
  reflexivity.
Defined.

(** ** The dash timers *)

Lemma player_dash_state_after_input keys dt (s : Player.t) :
  let s1 := Player.handle_normal_movement keys dt s in
  player_dash_state s1
  = (if K_d keys && negb (Player.is_dashing s)
        && Py.leb (Player.dash_cooldown_timer s) 0
     then (true, Player.dash_duration s, Player.dash_cooldown s)
     else player_dash_state s)
  /\ Player.dash_duration s1 = Player.dash_duration s
  /\ Player.dash_cooldown s1 = Player.dash_cooldown s.
Proof.
  unfold Player.handle_normal_movement, player_dash_state.
  destruct s; simpl.
  destruct (K_LEFT keys), (K_RIGHT keys); simpl;
    destruct (K_SPACE keys && _); simpl;
    destruct (K_d keys && _ && _); done.
Qed.

Lemma player_dash_state_update_dash dt (s : Player.t) :
  player_dash_state (Player.update_dash dt s)
  = (if Player.is_dashing s
     then negb (Py.leb (Player.dash_timer s - dt) 0) else false,
     if Player.is_dashing s
     then (Player.dash_timer s - dt)%Q else Player.dash_timer s,
     if Py.ltb 0 (Player.dash_cooldown_timer s)
     then (Player.dash_cooldown_timer s - dt)%Q
     else Player.dash_cooldown_timer s).
Proof.
  unfold Player.update_dash, player_dash_state. destruct s; simpl.
  destruct is_dashing; simpl.
  - destruct (Py.leb _ _); simpl; destruct (Py.ltb _ _); done.
  - destruct (Py.ltb _ _); done.
Qed.

Lemma player_dash_state_moved dt keys (s : Player.t) x y v g j :
  player_dash_state
    (Player.set_jump_count
       (Player.set_on_ground
          (Player.set_vel_y
             (Player.set_y (Player.set_x (Phases.player_moved dt keys s) x) y)
             v) g) j)
  = player_dash_state (Player.handle_normal_movement keys dt s).
Proof.
  unfold Phases.player_moved, Player.apply_gravity, player_dash_state.
  generalize (Player.handle_normal_movement keys dt s). intros h.
  destruct h; simpl.
  destruct (Py.ltb _ _); simpl; destruct (Py.ltb _ _); done.
Qed.

(** X6: the dash is a three-state machine driven by [update].
    - While dashing, the dash key is ignored; the dash timer loses [dt] and
      the dash ends as soon as it is no longer positive.
    - While the cooldown timer is positive (and no dash runs), a dash
      request is rejected: the body is not dashing after the update, the
      dash timer is untouched and the cooldown loses [dt].
    - With no dash running and the cooldown elapsed, holding the dash key
      starts a dash: the timer is loaded with [dash_duration] and the
      cooldown with [dash_cooldown], and both lose this frame's [dt].
    This holds whatever the grid and the other keys are. *)
Theorem dash_state_machine dt keys grid (s s' : Player.t) :
  Player.update dt keys grid s = Some s' ->
  (Player.is_dashing s = true ->
   Player.is_dashing s' = negb (Py.leb (Player.dash_timer s - dt) 0)
   /\ Player.dash_timer s' = (Player.dash_timer s - dt)%Q)
  /\ (Player.is_dashing s = false ->
      (0 < Player.dash_cooldown_timer s)%Q ->
      Player.is_dashing s' = false
      /\ Player.dash_timer s' = Player.dash_timer s
      /\ Player.dash_cooldown_timer s'
         = (Player.dash_cooldown_timer s - dt)%Q)
  /\ (Player.is_dashing s = false ->
      (Player.dash_cooldown_timer s <= 0)%Q -> K_d keys = true ->
      Player.is_dashing s' = negb (Py.leb (Player.dash_duration s - dt) 0)
      /\ Player.dash_timer s' = (Player.dash_duration s - dt)%Q
      /\ Player.dash_cooldown_timer s'
         = (if Py.ltb 0 (Player.dash_cooldown s)
            then Player.dash_cooldown s - dt else Player.dash_cooldown s)%Q)
  /\ (Player.is_dashing s = false -> K_d keys = false ->
      Player.is_dashing s' = false
      /\ Player.dash_timer s' = Player.dash_timer s).
Proof.
  intros H. apply player_collision_stage in H as (x & y & v & g & j & ->).
  match goal with |- context [Player.update_dash dt ?m] =>
    pose proof (player_dash_state_update_dash dt m) as Hd;
    pose proof (player_dash_state_moved dt keys s x y v g j) as Hm;
    set (mm := m) in *
  end.
  destruct (player_dash_state_after_input keys dt s) as (Hi & _ & _).
  simpl in Hi. rewrite Hi in Hm. clear Hi.
  unfold player_dash_state in Hd at 1.
  assert (Hmm : (Player.is_dashing mm, Player.dash_timer mm,
                 Player.dash_cooldown_timer mm)
                = if K_d keys && negb (Player.is_dashing s)
                     && Py.leb (Player.dash_cooldown_timer s) 0
                  then (true, Player.dash_duration s, Player.dash_cooldown s)
                  else player_dash_state s) by exact Hm.
  clear Hm. clearbody mm.
  split; [|split; [|split]].
  - intros Hs. rewrite Hs, andb_false_r in Hmm. simpl in Hmm.
    unfold player_dash_state in Hmm. rewrite Hs in Hmm.
    injection Hmm as H1 H2 H3. rewrite H1, H2 in Hd.
    by injection Hd as -> -> _.
  - intros Hs Hc. apply leb_gt in Hc.
    rewrite Hc, andb_false_r in Hmm. unfold player_dash_state in Hmm.
    rewrite Hs in Hmm. injection Hmm as H1 H2 H3.
    rewrite H1, H2, H3 in Hd. apply leb_gt, ltb_lt in Hc. rewrite Hc in Hd.
    by injection Hd as -> -> ->.
  - intros Hs Hc Hk. apply leb_le in Hc. rewrite Hk, Hs, Hc in Hmm.
    simpl in Hmm. injection Hmm as H1 H2 H3. rewrite H1, H2, H3 in Hd.
    by injection Hd as -> -> ->.
  - intros Hs Hk. rewrite Hk in Hmm. simpl in Hmm.
    unfold player_dash_state in Hmm. rewrite Hs in Hmm.
    injection Hmm as H1 H2 H3. rewrite H1, H2 in Hd.
    by injection Hd as -> -> _.
Qed.

(** A dash requested half a second into the cooldown is rejected. *)
Lemma dash_state_machine_witness :
  exists s',
    Player.update (1 # 60) (mkKeys false false false false true false)
      (Some open_grid)
      (Player.set_dash_cooldown_timer (game_player 100 0) (1 # 2))
    = Some s'
    /\ Player.is_dashing s' = false
    /\ Player.dash_cooldown_timer s' = ((1 # 2) - (1 # 60))%Q.
Proof.
  destruct (Player.update (1 # 60) (mkKeys false false false false true false)
              (Some open_grid)
              (Player.set_dash_cooldown_timer (game_player 100 0) (1 # 2)))
    as [s'|] eqn:E.
  - exists s'. split; [done|].
    destruct (dash_state_machine _ _ _ _ _ E) as (_ & H & _).
    destruct H as (H1 & _ & H3); [reflexivity|vm_compute; congruence|].
    split; [exact H1|exact H3].
  - vm_compute in E. discriminate.
Defined.

(** ** Resolution separates the body from the tile *)

Lemma rect_left_of_tile (y : Q) (w h c r : Z) :
  0 < w ->
  Pygame.colliderect
    (Pygame.Rect_of (inject_Z (c * tile_size - w)) y w h) (tile_rect c r)
  = false.
Proof.
  intros Hw. unfold Pygame.colliderect, Pygame.Rect_of, tile_rect. simpl.
  rewrite int_inject_Z. unfold tile_size.
  destruct ((w =? 0) || (h =? 0) || false || false) eqn:E; [done|].
  apply andb_false_iff. left. apply andb_false_iff. right.
  apply Z.ltb_ge. lia.
Qed.

Lemma rect_right_of_tile (y : Q) (w h c r : Z) :
  0 < w ->
  Pygame.colliderect
    (Pygame.Rect_of (inject_Z (c * tile_size + tile_size)) y w h)
    (tile_rect c r)
  = false.
Proof.
  intros Hw. unfold Pygame.colliderect, Pygame.Rect_of, tile_rect. simpl.
  rewrite int_inject_Z. unfold tile_size.
  destruct ((w =? 0) || (h =? 0) || false || false) eqn:E; [done|].
  apply andb_false_iff. left. apply andb_false_iff. left.
  apply andb_false_iff. left. apply Z.ltb_ge. lia.
Qed.

Lemma rect_below_tile (x : Q) (w h c r : Z) :
  0 < h ->
  Pygame.colliderect
    (Pygame.Rect_of x (inject_Z (r * tile_size + tile_size)) w h)
    (tile_rect c r)
  = false.
Proof.
  intros Hh. unfold Pygame.colliderect, Pygame.Rect_of, tile_rect. simpl.
  rewrite int_inject_Z. unfold tile_size.
  destruct ((w =? 0) || (h =? 0) || false || false) eqn:E; [done|].
  apply andb_false_iff. left. apply andb_false_iff. left.
  apply andb_false_iff. right. apply Z.ltb_ge. lia.
Qed.

Lemma player_landed_fields (s : Player.t) (v : Q) :
  let s' :=
    Player.set_jump_count
      (Player.set_on_ground
         (Player.set_vel_y (Player.set_y (Player.set_on_ground s false) v) 0)
         true) 0 in
  Player.y s' = v /\ Player.on_ground s' = true /\ Player.vel_y s' = 0%Q
  /\ Player.jump_count s' = 0
  /\ Player.rect s' = Pygame.Rect_of (Player.x s) v (Player.width s)
                        (Player.height s)
  /\ Player.ground_snap s' = s'.
Proof. by destruct s. Qed.

Lemma npc_landed_fields (s : NPC.t) (v : Q) :
  let s' :=
    NPC.set_jump_count
      (NPC.set_on_ground
         (NPC.set_vel_y (NPC.set_y (NPC.set_on_ground s false) v) 0)
         true) 0 in
  NPC.y s' = v /\ NPC.on_ground s' = true /\ NPC.vel_y s' = 0%Q
  /\ NPC.jump_count s' = 0
  /\ NPC.rect s' = Pygame.Rect_of (NPC.x s) v (NPC.width s) (NPC.height s).
Proof. by destruct s. Qed.

Lemma npc_bumped_fields (s : NPC.t) (v : Q) :
  let s' := NPC.set_vel_y (NPC.set_y (NPC.set_on_ground s false) v) 0 in
  NPC.y s' = v /\ NPC.on_ground s' = false /\ NPC.vel_y s' = 0%Q
  /\ NPC.rect s' = Pygame.Rect_of (NPC.x s) v (NPC.width s) (NPC.height s).
Proof. by destruct s. Qed.

(** X7: the first overlapping tile decides the vertical pass, and the pass
    separates the body from it.  When a falling body ([vel_y > 0], positive
    height) overlaps solid tiles of the window, the pass puts it on top of
    the first one in row-major order: [y = tile.top - height], grounded,
    [vel_y = 0], [jump_count = 0], and its rectangle no longer overlaps
    that tile.  A rising NPC ([vel_y < 0]) is put under the first
    overlapping tile, [y = tile.bottom], ungrounded, and no longer overlaps
    it. *)
Theorem vertical_pass_lands_on_first_overlap (tiles : list (list Z)) :
  grid_ok tiles = true ->
  (forall (s : Player.t) rc rest,
      PlayerSpec.vertical_hits tiles s = rc :: rest ->
      (0 < Player.vel_y s)%Q -> 0 < Player.height s ->
      exists s',
        Player.check_vertical_collisions tiles s = Some s'
        /\ Player.y s' = inject_Z (rc.1 * tile_size - Player.height s)
        /\ Player.on_ground s' = true /\ Player.vel_y s' = 0%Q
        /\ Player.jump_count s' = 0
        /\ Pygame.colliderect (Player.rect s') (tile_rect rc.2 rc.1)
           = false)
  /\ (forall (s : NPC.t) rc rest,
         NPCSpec.vertical_hits tiles s = rc :: rest ->
         (0 < NPC.vel_y s)%Q -> 0 < NPC.height s ->
         exists s',
           NPC.check_vertical_collisions tiles s = Some s'
           /\ NPC.y s' = inject_Z (rc.1 * tile_size - NPC.height s)
           /\ NPC.on_ground s' = true /\ NPC.vel_y s' = 0%Q
           /\ NPC.jump_count s' = 0
           /\ Pygame.colliderect (NPC.rect s') (tile_rect rc.2 rc.1) = false)
  /\ (forall (s : NPC.t) rc rest,
         NPCSpec.vertical_hits tiles s = rc :: rest ->
         (NPC.vel_y s < 0)%Q -> 0 < NPC.height s ->
         exists s',
           NPC.check_vertical_collisions tiles s = Some s'
           /\ NPC.y s' = inject_Z (rc.1 * tile_size + tile_size)
           /\ NPC.on_ground s' = false /\ NPC.vel_y s' = 0%Q
           /\ Pygame.colliderect (NPC.rect s') (tile_rect rc.2 rc.1)
              = false).
Proof.
  intros Hok. split; [|split].
  - intros s rc rest Hl Hv Hh.
    rewrite PlayerFacts.player_check_vertical_fold by done.
    unfold PlayerSpec.resolve_vertical.
    rewrite Hl, PlayerFacts.player_vertical_fold_first.
    unfold PlayerSpec.vertical_step.
    assert (E : Py.ltb 0 (Player.vel_y (Player.set_on_ground s false))
                = true).
    { apply ltb_lt. by destruct s. }
    rewrite E.
    replace (Player.height (Player.set_on_ground s false))
      with (Player.height s) by by destruct s.
    destruct (player_landed_fields s
                (inject_Z (Pygame.top (tile_rect rc.2 rc.1)
                           - Player.height s)))
      as (Hy & Hg & Hvy & Hj & Hr & Hsnap).
    rewrite Hsnap. eexists. split; [done|].
    rewrite Hy, Hg, Hvy, Hj, Hr. repeat split; try done.
    by apply flush_no_overlap.
  - intros s rc rest Hl Hv Hh.
    rewrite NPCFacts.npc_check_vertical_fold by done.
    unfold NPCSpec.resolve_vertical.
    rewrite Hl, NPCFacts.npc_vertical_fold_first.
    unfold NPCSpec.vertical_step.
    assert (E : Py.ltb 0 (NPC.vel_y (NPC.set_on_ground s false)) = true).
    { apply ltb_lt. by destruct s. }
    rewrite E.
    replace (NPC.height (NPC.set_on_ground s false))
      with (NPC.height s) by by destruct s.
    destruct (npc_landed_fields s
                (inject_Z (Pygame.top (tile_rect rc.2 rc.1) - NPC.height s)))
      as (Hy & Hg & Hvy & Hj & Hr).
    eexists. split; [done|].
    rewrite Hy, Hg, Hvy, Hj, Hr. repeat split; try done.
    by apply flush_no_overlap.
  - intros s rc rest Hl Hv Hh.
    rewrite NPCFacts.npc_check_vertical_fold by done.
    unfold NPCSpec.resolve_vertical.
    rewrite Hl, NPCFacts.npc_vertical_fold_first.
    unfold NPCSpec.vertical_step.
    assert (E : Py.ltb 0 (NPC.vel_y (NPC.set_on_ground s false)) = false).
    { apply ltb_ge. apply Qlt_le_weak. by destruct s. }
    assert (E' : Py.ltb (NPC.vel_y (NPC.set_on_ground s false)) 0 = true).
    { apply ltb_lt. by destruct s. }
    rewrite E, E'.
    destruct (npc_bumped_fields s
                (inject_Z (Pygame.bottom (tile_rect rc.2 rc.1))))
      as (Hy & Hg & Hvy & Hr).
    eexists. split; [done|].
    rewrite Hy, Hg, Hvy, Hr. repeat split; try done.
    by apply rect_below_tile.
Qed.

(** The NPC one pixel into the only solid tile of [one_tile_grid] lands
    on it. *)
Lemma vertical_pass_lands_on_first_overlap_witness :
  exists s',
    NPC.check_vertical_collisions one_tile_grid
      (NPC.set_vel_y (NPC.init 160 261 1) 10) = Some s'
    /\ NPC.y s' = inject_Z (10 * tile_size - 60)
    /\ NPC.on_ground s' = true.
Proof.
  destruct (vertical_pass_lands_on_first_overlap one_tile_grid)
    as (_ & H & _); [reflexivity|].
  destruct (H (NPC.set_vel_y (NPC.init 160 261 1) 10) (10, 5) [])
    as (s' & H1 & H2 & H3 & _).
  - reflexivity.
  - vm_compute. congruence.
  - reflexivity.
  - exists s'. split; [exact H1|]. split; [exact H2|exact H3].
Defined.

Lemma player_set_x_rect (s : Player.t) (v : Q) :
  Player.x (Player.set_x s v) = v
  /\ Player.rect (Player.set_x s v)
     = Pygame.Rect_of v (Player.y s) (Player.width s) (Player.height s).
Proof. by destruct s. Qed.

Lemma npc_set_x_rect (s : NPC.t) (v : Q) :
  NPC.x (NPC.set_x s v) = v
  /\ NPC.rect (NPC.set_x s v)
     = Pygame.Rect_of v (NPC.y s) (NPC.width s) (NPC.height s).
Proof. by destruct s. Qed.

(** X8: the horizontal pass pushes the body out of the tile that decides
    it.  For a body of positive width whose rectangle overlaps solid tiles
    of the window, let [rc] be the last one in row-major order.  Moving
    right it ends at [x = tile.left - width], moving left (for the player:
    when not dashing) at [x = tile.right]; in both cases the rectangle of
    the returned body no longer overlaps that tile. *)
Theorem horizontal_pass_leaves_last_overlap (tiles : list (list Z)) :
  grid_ok tiles = true ->
  (forall (s : Player.t) rc,
      last (PlayerSpec.horizontal_hits tiles s) = Some rc ->
      0 < Player.width s ->
      ((0 < Player.vel_x s)%Q ->
       exists s',
         Player.check_horizontal_collisions tiles s = Some s'
         /\ Player.x s' = inject_Z (rc.2 * tile_size - Player.width s)
         /\ Pygame.colliderect (Player.rect s') (tile_rect rc.2 rc.1)
            = false)
      /\ ((Player.vel_x s < 0)%Q -> Player.is_dashing s = false ->
          exists s',
            Player.check_horizontal_collisions tiles s = Some s'
            /\ Player.x s' = inject_Z (rc.2 * tile_size + tile_size)
            /\ Pygame.colliderect (Player.rect s') (tile_rect rc.2 rc.1)
               = false))
  /\ (forall (s : NPC.t) rc,
         last (NPCSpec.horizontal_hits tiles s) = Some rc ->
         0 < NPC.width s ->
         ((0 < NPC.vel_x s)%Q ->
          exists s',
            NPC.check_horizontal_collisions tiles s = Some s'
            /\ NPC.x s' = inject_Z (rc.2 * tile_size - NPC.width s)
            /\ Pygame.colliderect (NPC.rect s') (tile_rect rc.2 rc.1)
               = false)
         /\ ((NPC.vel_x s < 0)%Q ->
             exists s',
               NPC.check_horizontal_collisions tiles s = Some s'
               /\ NPC.x s' = inject_Z (rc.2 * tile_size + tile_size)
               /\ Pygame.colliderect (NPC.rect s') (tile_rect rc.2 rc.1)
                  = false)).
Proof.
  intros Hok. split.
  - intros s rc Hl Hw. split.
    + intros Hv. apply ltb_lt in Hv.
      rewrite PlayerFacts.player_horizontal_fold by done.
      rewrite PlayerFacts.player_horizontal_fold_right by (by rewrite Hv).
      rewrite Hl. eexists. split; [done|].
      match goal with |- context [Player.set_x s ?v] =>
        destruct (player_set_x_rect s v) as [-> ->]
      end.
      split; [done|]. by apply rect_left_of_tile.
    + intros Hv Hd.
      rewrite PlayerFacts.player_horizontal_fold by done.
      rewrite PlayerFacts.player_horizontal_fold_left.
      * rewrite Hl. eexists. split; [done|].
        match goal with |- context [Player.set_x s ?v] =>
          destruct (player_set_x_rect s v) as [-> ->]
        end.
        split; [done|]. by apply rect_right_of_tile.
      * rewrite Hd, orb_false_r. apply ltb_ge. by apply Qlt_le_weak.
      * by apply ltb_lt.
  - intros s rc Hl Hw. split.
    + intros Hv. apply ltb_lt in Hv.
      rewrite NPCFacts.npc_horizontal_fold by done.
      rewrite NPCFacts.npc_horizontal_fold_right by done.
      rewrite Hl. eexists. split; [done|].
      match goal with |- context [NPC.set_x s ?v] =>
        destruct (npc_set_x_rect s v) as [-> ->]
      end.
      split; [done|]. by apply rect_left_of_tile.
    + intros Hv. apply ltb_lt in Hv.
      rewrite NPCFacts.npc_horizontal_fold by done.
      rewrite NPCFacts.npc_horizontal_fold_left by done.
      rewrite Hl. eexists. split; [done|].
      match goal with |- context [NPC.set_x s ?v] =>
        destruct (npc_set_x_rect s v) as [-> ->]
      end.
      split; [done|]. by apply rect_right_of_tile.
Qed.

Lemma horizontal_pass_leaves_last_overlap_witness :
  exists s',
    Player.check_horizontal_collisions far_tile_grid
      (Player.set_vel_x (game_player 170 0) (-150)) = Some s'
    /\ Player.x s' = inject_Z (5 * tile_size + tile_size)
    /\ Pygame.colliderect (Player.rect s') (tile_rect 5 0) = false.
Proof.
  destruct (horizontal_pass_leaves_last_overlap far_tile_grid) as [H _];
    [reflexivity|].
  destruct (H (Player.set_vel_x (game_player 170 0) (-150)) (0, 5))
    as [_ H2]; [reflexivity|reflexivity|].
  apply H2; [vm_compute; congruence|reflexivity].
Defined.

(** ** The shape of the built grid *)

Lemma zero_grid_binary width height : binary_grid (zero_grid width height).
Proof.
  unfold binary_grid, zero_grid. apply Forall_replicate, Forall_replicate.
  by left.
Qed.

Lemma set_cell_shape grid grid' height width y x :
  0 <= y -> 0 <= x ->
  set_cell grid y x 1 = Some grid' ->
  dims grid height width /\ binary_grid grid ->
  dims grid' height width /\ binary_grid grid'.
Proof.
  intros Hy Hx. unfold set_cell. rewrite index_nonneg by done.
  destruct (grid !! Z.to_nat y) as [row|] eqn:Er; [|done]. simpl.
  destruct (Py.index row x); [|done]. simpl. intros [= <-] [Hd Hb].
  pose proof (dims_row _ _ _ _ _ Hd Er) as Hrow.
  destruct Hd as [Hl Hall]. split; [split|].
  - unfold Py.len in *. by rewrite length_insert.
  - apply Forall_insert; [done|]. unfold Py.len in *.
    by rewrite length_insert.
  - apply Forall_insert; [done|]. apply Forall_insert; [|by right].
    unfold binary_grid in Hb. rewrite Forall_forall in Hb. apply Hb.
    by eapply list_elem_of_lookup_2.
Qed.

(** Any loop over the cells of the map that only paints cells keeps the
    grid rectangular and binary, whether or not it runs to its end. *)
Lemma painting_keeps_shape (get : Z -> Z -> list (list Z) -> option bool)
    height width (rows cols : list Z) grid grid' :
  (forall y, y ∈ rows -> 0 <= y) -> (forall x, x ∈ cols -> 0 <= x) ->
  dims grid height width /\ binary_grid grid ->
  Py.for_in rows (fun y g =>
    Py.for_in cols (fun x g =>
      match get y x g with
      | Some true => set_cell g y x 1
      | Some false => Some g
      | None => None
      end) g) grid = Some grid' ->
  dims grid' height width /\ binary_grid grid'.
Proof.
  intros Hrows Hcols Hs.
  apply (for_in_invariant
           (fun g => dims g height width /\ binary_grid g)); [|done].
  intros y g g' Hy Hg.
  apply (for_in_invariant
           (fun g => dims g height width /\ binary_grid g)); [|done].
  intros x u u' Hx Hu.
  destruct (get y x u) as [[|]|]; [|by intros [= <-]|done].
  intros Hset.
  apply (set_cell_shape u u' height width y x);
    [by apply Hrows|by apply Hcols|exact Hset|exact Hu].
Qed.

Lemma extract_ground_layer_merge (map_data : MapUtils.map_data_t) :
  MapUtils.extract_ground_layer map_data
  = merge_layers MapUtils.solid_layer_names (MapUtils.layers map_data)
      (MapUtils.width map_data) (MapUtils.height map_data)
      (zero_grid (MapUtils.width map_data) (MapUtils.height map_data)).
Proof. reflexivity. Qed.

Lemma extract_background_layer_merge (map_data : MapUtils.map_data_t) :
  extract_background_layer map_data
  = merge_layers background_names (MapUtils.layers map_data)
      (MapUtils.width map_data) (MapUtils.height map_data)
      (zero_grid (MapUtils.width map_data) (MapUtils.height map_data)).
Proof. reflexivity. Qed.

Lemma paint_body_form (o : option Z) (grid : list (list Z)) (y x : Z) :
  (v ← o; if negb (v =? 0) then set_cell grid y x 1 else Some grid)
  = match (fun v => negb (v =? 0)) <$> o with
    | Some true => set_cell grid y x 1
    | Some false => Some grid
    | None => None
    end.
Proof. destruct o as [v|]; [|done]. simpl. by destruct (negb _). Qed.

Lemma merge_layers_shape names layers width height grid grid' :
  dims grid height width /\ binary_grid grid ->
  merge_layers names layers width height grid = Some grid' ->
  dims grid' height width /\ binary_grid grid'.
Proof.
  unfold merge_layers.
  apply (for_in_invariant
           (fun g => dims g height width /\ binary_grid g)).
  intros name g g' _ Hg.
  destruct (MapUtils.contains name layers); [|by intros [= <-]].
  intros Hrun.
  apply (painting_keeps_shape
           (fun y x _ =>
              (fun v => negb (v =? 0)) <$> MapUtils.layer_cell layers name y x)
           height width (Py.range 0 height) (Py.range 0 width) g g').
  - intros y Hy. apply elem_of_range in Hy. lia.
  - intros x Hx. apply elem_of_range in Hx. lia.
  - done.
  - rewrite <- Hrun. apply for_in_ext; intros y u _.
    apply for_in_ext; intros x u' _. symmetry. apply paint_body_form.
Qed.

Lemma create_collision_grid_shape (map_data : Game.map_data_t) grid :
  Game.create_collision_grid map_data = Some grid ->
  dims grid (Game.height map_data) (Game.width map_data)
  /\ binary_grid grid.
Proof.
  unfold Game.create_collision_grid.
  pose proof (conj (zero_grid_dims (Game.width map_data)
                      (Game.height map_data))
                   (zero_grid_binary (Game.width map_data)
                      (Game.height map_data))) as Hz.
  destruct (find _ _) as [gl|]; [|by intros [= <-]].
  destruct (Py.for_in _ _ _) as [g|] eqn:Eloop; [|done].
  cbn [mbind option_bind].
  intros Hrest.
  assert (Hg : grid = g).
  { destruct (Py.index g 0); [|done]. simpl in Hrest.
    destruct (Game.print_row g 25); [|done]. simpl in Hrest.
    destruct (Game.print_row g 29); [|done]. simpl in Hrest.
    by injection Hrest. }
  subst grid.
  apply (painting_keeps_shape
           (fun y x _ =>
              if y * layer_width gl + x <? Py.len (layer_data gl)
              then (fun v => negb (v =? 0))
                     <$> Py.index (layer_data gl) (y * layer_width gl + x)
              else Some false)
           (Game.height map_data) (Game.width map_data)
           (Py.range 0 (Game.height map_data))
           (Py.range 0 (Game.width map_data))
           (zero_grid (Game.width map_data) (Game.height map_data)) g).
  - intros y Hy. apply elem_of_range in Hy. lia.
  - intros x Hx. apply elem_of_range in Hx. lia.
  - exact Hz.
  - rewrite <- Eloop. apply for_in_ext; intros y u _.
    apply for_in_ext; intros x u' _. simpl.
    destruct (_ <? _); [|done]. symmetry. apply paint_body_form.
Qed.

(** X9: whatever the map holds, a grid returned by one of the three
    builders ([Game.create_collision_grid], [extract_ground_layer],
    [extract_background_layer]) is a rectangle of [height] rows of [width]
    cells, each cell 0 or 1. *)
Theorem built_grid_is_rectangular_and_binary :
  (forall map_data grid,
      Game.create_collision_grid map_data = Some grid ->
      dims grid (Game.height map_data) (Game.width map_data)
      /\ binary_grid grid)
  /\ (forall map_data grid,
         MapUtils.extract_ground_layer map_data = Some grid ->
         dims grid (MapUtils.height map_data) (MapUtils.width map_data)
         /\ binary_grid grid)
  /\ (forall map_data grid,
         extract_background_layer map_data = Some grid ->
         dims grid (MapUtils.height map_data) (MapUtils.width map_data)
         /\ binary_grid grid).
Proof.
  split; [|split].
  - apply create_collision_grid_shape.
  - intros map_data grid. rewrite extract_ground_layer_merge.
    apply merge_layers_shape. split;
      [apply zero_grid_dims|apply zero_grid_binary].
  - intros map_data grid. rewrite extract_background_layer_merge.
    apply merge_layers_shape. split;
      [apply zero_grid_dims|apply zero_grid_binary].
Qed.

Lemma built_grid_is_rectangular_and_binary_witness :
  dims (zero_grid 1 30) 30 1 /\ binary_grid (zero_grid 1 30).
Proof.
  destruct built_grid_is_rectangular_and_binary as [H _].
  apply (H ground1_only_map). vm_compute. reflexivity.
Defined.


(** ** The diagnostic reads of [create_collision_grid] *)

Lemma print_row_empty_rows grid height width row :
  dims grid height width -> 0 < height -> width <= 0 ->
  Game.print_row grid row = Some tt.
Proof.
  intros Hd Hh Hw. unfold Game.print_row.
  destruct (dims_lookup grid height width 0 Hd) as (g0 & Hg0 & Hl0); [lia|].
  rewrite (index_nonneg grid 0) by lia. rewrite Hg0. simpl.
  replace (Z.min 10 (Py.len g0)) with 0 by lia. done.
Qed.

Lemma print_row_missing grid height width row :
  dims grid height width -> 0 < height -> 0 < width -> height <= row ->
  Game.print_row grid row = None.
Proof.
  intros Hd Hh Hw Hrow. unfold Game.print_row.
  destruct (dims_lookup grid height width 0 Hd) as (g0 & Hg0 & Hl0); [lia|].
  rewrite (index_nonneg grid 0) by lia. rewrite Hg0. simpl.
  assert (Hr : Py.range 0 (Z.min 10 (Py.len g0))
               = 0 :: Py.range 1 (Z.min 10 (Py.len g0))).
  { unfold Py.range. rewrite (seqZ_cons 0) by lia. f_equal. f_equal; lia. }
  rewrite Hr. simpl.
  rewrite (index_nonneg grid row) by lia.
  rewrite lookup_ge_None_2; [done|].
  destruct Hd as [Hlen _]. unfold Py.len in Hlen. lia.
Qed.

Lemma create_collision_grid_paints (map_data : Game.map_data_t) gl :
  0 <= layer_width gl ->
  exists grid,
    Py.for_in (Py.range 0 (Game.height map_data)) (fun y grid =>
      Py.for_in (Py.range 0 (Game.width map_data)) (fun x grid =>
        let index := y * layer_width gl + x in
        if index <? Py.len (layer_data gl) then
          gid ← Py.index (layer_data gl) index;
          if negb (gid =? 0) then set_cell grid y x 1
          else Some grid
        else Some grid) grid)
      (zero_grid (Game.width map_data) (Game.height map_data))
    = Some grid
    /\ dims grid (Game.height map_data) (Game.width map_data).
Proof.
  intros Hw.
  destruct (paint_loop
              (fun y x =>
                 if y * layer_width gl + x <? Py.len (layer_data gl)
                 then Py.index (layer_data gl) (y * layer_width gl + x)
                 else Some 0)
              (Game.height map_data) (Game.width map_data)
              (zero_grid (Game.width map_data) (Game.height map_data))
              (zero_grid_dims _ _))
    as (grid & Hloop & Hd & _).
  { intros r c Hr Hc.
    destruct (_ <? _) eqn:E; [|done]. apply Z.ltb_lt in E.
    rewrite index_nonneg by nia. apply lookup_lt_is_Some_2.
    unfold Py.len in E. nia. }
  exists grid. split; [|exact Hd].
  rewrite <- Hloop. apply for_in_ext; intros y g _.
  apply for_in_ext; intros x g' _. simpl.
  by destruct (_ <? _).
Qed.

(** X10: on a map with a layer named [ground] (of non-negative layer
    width), [create_collision_grid] raises exactly when the map has no
    row, or has cells and fewer than 30 rows: the diagnostic reads of
    [grid[0]], [grid[25][x]] and [grid[29][x]] are what can fail. *)
Theorem create_collision_grid_raises_below_thirty_rows
    (map_data : Game.map_data_t) (ground_layer : Layer) :
  List.find (fun l => String.eqb (layer_name l) "ground")
            (Game.layers map_data) = Some ground_layer ->
  0 <= layer_width ground_layer ->
  Game.create_collision_grid map_data = None
  <-> Game.height map_data <= 0
      \/ (0 < Game.width map_data /\ Game.height map_data < 30).
Proof.
  intros Hfind Hlw. unfold Game.create_collision_grid. rewrite Hfind.
  destruct (create_collision_grid_paints map_data ground_layer Hlw)
    as (grid & Hloop & Hd).
  match goal with
  | |- context [Py.for_in (Py.range 0 (Game.height map_data)) ?b ?g] =>
      assert (Hloop' : Py.for_in (Py.range 0 (Game.height map_data)) b g
                       = Some grid) by exact Hloop
  end.
  rewrite Hloop'. clear Hloop Hloop'.
  cbn [mbind option_bind].
  destruct (Z.le_gt_cases (Game.height map_data) 0) as [Hh|Hh].
  { split; [by left|intros _].
    rewrite index_nonneg by lia. rewrite lookup_ge_None_2; [done|].
    destruct Hd as [Hlen _]. unfold Py.len in Hlen. lia. }
  destruct (dims_lookup grid _ _ 0 Hd) as (g0 & Hg0 & _); [lia|].
  rewrite index_nonneg by lia. rewrite Hg0. cbn [mbind option_bind].
  destruct (Z.le_gt_cases (Game.width map_data) 0) as [Hw|Hw].
  { rewrite !(print_row_empty_rows grid _ _ _ Hd) by lia.
    cbn [mbind option_bind]. split; [done|lia]. }
  destruct (Z.le_gt_cases 30 (Game.height map_data)) as [H30|H30].
  { rewrite !(print_row_ok grid _ _ _ Hd) by lia.
    cbn [mbind option_bind]. split; [done|lia]. }
  split; [intros _; right; lia|intros _].
  destruct (Game.print_row grid 25); [|done]. cbn [mbind option_bind].
  by rewrite (print_row_missing grid _ _ 29 Hd) by lia.
Qed.

Lemma create_collision_grid_raises_below_thirty_rows_witness :
  Game.create_collision_grid low_map = None.
Proof.
  apply (create_collision_grid_raises_below_thirty_rows low_map
           (mkLayer "ground" 1 20 (replicate 20 1))).
  - reflexivity.
  - simpl. lia.
  - right. simpl. lia.
Defined.

(** ** The cells of the built grid *)

(** When the painting loop returns, every read of it returned. *)
Lemma paint_loop_reads (get : Z -> Z -> option Z) height width grid grid' :
  Py.for_in (Py.range 0 height) (fun y g =>
    Py.for_in (Py.range 0 width) (fun x g =>
      v ← get y x;
      if negb (v =? 0) then set_cell g y x 1 else Some g) g) grid
  = Some grid' ->
  forall r c, 0 <= r < height -> 0 <= c < width -> is_Some (get r c).
Proof.
  intros Hrun r c Hr Hc. destruct (get r c) as [v|] eqn:E; [by exists v|].
  rewrite (for_in_raises _ _ r) in Hrun; [done| |].
  - apply elem_of_range. lia.
  - intros g. apply (for_in_raises _ _ c).
    + apply elem_of_range. lia.
    + intros g'. by rewrite E.
Qed.

Lemma create_collision_grid_cells (map_data : Game.map_data_t) gl grid :
  List.find (fun l => String.eqb (layer_name l) "ground")
            (Game.layers map_data) = Some gl ->
  Game.create_collision_grid map_data = Some grid ->
  forall r c,
    0 <= r < Game.height map_data -> 0 <= c < Game.width map_data ->
    tile_at grid r c
    = Some (if (r * layer_width gl + c <? Py.len (layer_data gl))
               && nonzero (Py.index (layer_data gl)
                             (r * layer_width gl + c))
            then 1 else 0).
Proof.
  intros Hfind. unfold Game.create_collision_grid. rewrite Hfind.
  destruct (Py.for_in _ _ _) as [g|] eqn:Eloop; [|done].
  cbn [mbind option_bind]. intros Hrest.
  assert (Hg : grid = g).
  { destruct (Py.index g 0); [|done]. simpl in Hrest.
    destruct (Game.print_row g 25); [|done]. simpl in Hrest.
    destruct (Game.print_row g 29); [|done]. simpl in Hrest.
    by injection Hrest. }
  subst grid. clear Hrest.
  set (get := fun y x =>
         if y * layer_width gl + x <? Py.len (layer_data gl)
         then Py.index (layer_data gl) (y * layer_width gl + x)
         else Some 0).
  assert (Hloop :
    Py.for_in (Py.range 0 (Game.height map_data)) (fun y g =>
      Py.for_in (Py.range 0 (Game.width map_data)) (fun x g =>
        v ← get y x;
        if negb (v =? 0) then set_cell g y x 1 else Some g) g)
      (zero_grid (Game.width map_data) (Game.height map_data))
    = Some g).
  { rewrite <- Eloop. apply for_in_ext; intros y u _.
    apply for_in_ext; intros x u' _. subst get. simpl.
    by destruct (_ <? _). }
  destruct (paint_loop get (Game.height map_data) (Game.width map_data)
              (zero_grid (Game.width map_data) (Game.height map_data))
              (zero_grid_dims _ _)
              (paint_loop_reads get _ _ _ _ Hloop))
    as (g' & Hloop' & _ & Ht).
  rewrite Hloop in Hloop'. injection Hloop' as <-.
  intros r c Hr Hc. rewrite Ht by done.
  rewrite zero_grid_tile_at by done. subst get. simpl.
  destruct (_ <? _); simpl; [|done].
  by destruct (nonzero _).
Qed.

(** C2, as stated, fails for the grid the game plays on.
    [Game.create_collision_grid] reads the layer named [ground] only: on
    [ground1_only_map], whose layers include [ground] and [ground1], the
    layer [ground1] has the non-zero identifier 5 at cell (0, 0) and the
    resulting cell is 0. *)
Lemma create_collision_grid_ignores_ground1 :
  (exists l, l ∈ Game.layers ground1_only_map
             /\ layer_name l = "ground"%string)
  /\ (exists l, l ∈ Game.layers ground1_only_map
                /\ layer_name l = "ground1"%string
                /\ nonzero (Py.index (layer_data l) (0 * layer_width l + 0))
                   = true)
  /\ exists grid,
       Game.create_collision_grid ground1_only_map = Some grid
       /\ tile_at grid 0 0 = Some 0.
Proof.
  split; [|split].
  - eexists. split; [by left|done].
  - eexists. split; [right; by left|done].
  - eexists. split; [vm_compute; reflexivity|reflexivity].
Qed.

(** C2, amended: [extract_ground_layer] merges the layers named [ground]
    and [ground1] as a union: for a map whose layers are indexed by name,
    include both and cover the map, cell (row, col) of the result is 1 if
    and only if at least one of the two layers has a non-zero identifier
    there, and 0 otherwise.  [Game.create_collision_grid] builds the grid
    from the first layer named [ground] alone: whenever it returns a
    grid, cell (row, col) is 1 if and only if the index
    [row * layer_width + col] is below the length of that layer's flat
    data and the data holds a non-zero identifier there, and 0 otherwise.
    It returns a grid on every map of at least 30 rows whose ground layer
    has a non-negative width. *)
Theorem solid_grid_from_ground_layers :
  (forall map_data m ground ground1,
      MapUtils.layers map_data = MapUtils.ByName m ->
      m !! "ground"%string = Some ground ->
      m !! "ground1"%string = Some ground1 ->
      layer_covers ground (MapUtils.height map_data)
        (MapUtils.width map_data) = true ->
      layer_covers ground1 (MapUtils.height map_data)
        (MapUtils.width map_data) = true ->
      exists grid,
        MapUtils.extract_ground_layer map_data = Some grid
        /\ forall r c,
            0 <= r < MapUtils.height map_data ->
            0 <= c < MapUtils.width map_data ->
            tile_at grid r c
            = Some (if nonzero (tile_at ground r c)
                       || nonzero (tile_at ground1 r c)
                    then 1 else 0))
  /\ (forall map_data ground_layer grid,
         List.find (fun l => String.eqb (layer_name l) "ground")
                   (Game.layers map_data) = Some ground_layer ->
         Game.create_collision_grid map_data = Some grid ->
         forall r c,
           0 <= r < Game.height map_data ->
           0 <= c < Game.width map_data ->
           tile_at grid r c
           = Some (if (r * layer_width ground_layer + c
                       <? Py.len (layer_data ground_layer))
                      && nonzero
                           (Py.index (layer_data ground_layer)
                              (r * layer_width ground_layer + c))
                   then 1 else 0))
  /\ (forall map_data ground_layer,
         List.find (fun l => String.eqb (layer_name l) "ground")
                   (Game.layers map_data) = Some ground_layer ->
         0 <= layer_width ground_layer ->
         30 <= Game.height map_data ->
         exists grid, Game.create_collision_grid map_data = Some grid).
Proof.
  split; [|split].
  - intros [width height tw th layers] m ground ground1 Hl Hg Hg1 Hc Hc1.
    simpl in *. subst layers.
    unfold MapUtils.extract_ground_layer, MapUtils.solid_layer_names.
    cbn [Py.for_in MapUtils.layers MapUtils.width MapUtils.height
         MapUtils.contains].
    rewrite Hg, Hg1.
    rewrite !bool_decide_eq_true_2 by done.
    destruct (extract_layer_pass m "ground" ground height width
                (zero_grid width height) Hg Hc (zero_grid_dims _ _))
      as (grid1 & -> & Hd1 & Ht1).
    destruct (extract_layer_pass m "ground1" ground1 height width
                grid1 Hg1 Hc1 Hd1)
      as (grid2 & -> & Hd2 & Ht2).
    exists grid2. split; [done|]. intros r c Hr Hc'.
    rewrite Ht2, Ht1 by done. rewrite zero_grid_tile_at by done.
    by destruct (nonzero (tile_at ground r c)),
                (nonzero (tile_at ground1 r c)).
  - intros map_data gl grid Hfind Hrun.
    by apply (create_collision_grid_cells map_data gl grid).
  - intros map_data gl Hfind Hw Hh.
    unfold Game.create_collision_grid. rewrite Hfind.
    destruct (create_collision_grid_paints map_data gl Hw)
      as (grid & Hloop & Hd).
    match goal with
    | |- context [Py.for_in (Py.range 0 (Game.height map_data)) ?b ?g] =>
        assert (Hloop' : Py.for_in (Py.range 0 (Game.height map_data)) b g
                         = Some grid) by exact Hloop
    end.
    rewrite Hloop'. cbn [mbind option_bind].
    destruct (dims_lookup grid _ _ 0 Hd) as (g0 & Hg0 & _); [lia|].
    rewrite index_nonneg by lia. rewrite Hg0. cbn [mbind option_bind].
    rewrite !(print_row_ok grid _ _ _ Hd) by lia.
    cbn [mbind option_bind]. by exists grid.
Qed.

Lemma solid_grid_from_ground_layers_witness :
  (exists grid,
      MapUtils.extract_ground_layer two_layer_map = Some grid
      /\ tile_at grid 0 0 = Some 1 /\ tile_at grid 0 1 = Some 0
      /\ tile_at grid 1 1 = Some 1)
  /\ (exists grid,
         Game.create_collision_grid ground1_only_map = Some grid
         /\ tile_at grid 0 0 = Some 0).
Proof.
  destruct solid_grid_from_ground_layers as (H & Hcells & Hruns). split.
  - destruct (H two_layer_map
                (<["ground"%string := [ [1; 0]; [0; 0] ]]>
                   (<["ground1"%string := [ [0; 0]; [0; 7] ]]> ∅))
                [ [1; 0]; [0; 0] ] [ [0; 0]; [0; 7] ])
      as (grid & Hg & Ht); [reflexivity..|].
    exists grid. split; [exact Hg|].
    split; [|split].
    + apply (Ht 0 0); simpl; lia.
    + apply (Ht 0 1); simpl; lia.
    + apply (Ht 1 1); simpl; lia.
  - destruct (Hruns ground1_only_map
                (mkLayer "ground" 1 30 (replicate 30 0)))
      as [grid Hgrid]; [reflexivity|simpl; lia|simpl; lia|].
    exists grid. split; [exact Hgrid|].
    apply (Hcells ground1_only_map _ grid eq_refl Hgrid 0 0); simpl; lia.
Defined.

(** ** Running [update] on a built grid *)

Lemma dims_grid_ok grid height width :
  dims grid height width -> grid <> [] -> grid_ok grid = true.
Proof.
  intros [_ Hrows] Hne. destruct grid as [|g0 grid]; [done|].
  unfold grid_ok. apply forallb_forall. intros row Hin.
  apply Nat.leb_le. rewrite Forall_forall in Hrows.
  pose proof (Hrows g0 ltac:(by left)) as H0.
  pose proof (Hrows row ltac:(by apply list_elem_of_In)) as H1.
  unfold Py.len in *. lia.
Qed.

Lemma player_update_rectangular grid height width dt keys (s : Player.t) :
  dims grid height width -> is_Some (Player.update dt keys (Some grid) s).
Proof.
  intros Hd. rewrite player_update_phases.
  destruct grid as [|g0 grid]; [done|].
  assert (Hok : grid_ok (g0 :: grid) = true)
    by (by eapply dims_grid_ok).
  cbn [Player.truthy default].
  rewrite (PlayerFacts.player_horizontal_fold _ _ Hok).
  cbn [mbind option_bind].
  rewrite (PlayerFacts.player_check_vertical_fold _ _ Hok).
  done.
Qed.

Lemma npc_passes_rectangular grid height width (s : NPC.t) :
  dims grid height width -> grid <> [] ->
  is_Some (h ← NPC.check_horizontal_collisions grid s;
           NPC.check_vertical_collisions grid h).
Proof.
  intros Hd Hne.
  assert (Hok : grid_ok grid = true) by (by eapply dims_grid_ok).
  rewrite (NPCFacts.npc_horizontal_fold _ _ Hok).
  cbn [mbind option_bind].
  rewrite (NPCFacts.npc_check_vertical_fold _ _ Hok).
  done.
Qed.

(** X11: a grid returned by [Game.create_collision_grid] or by
    [extract_ground_layer] never makes the physics of a frame raise:
    [Player.update] returns a state from every state, for every step and
    every key sample, and so does the collision stage of [NPC.update]
    (the two passes, run when the grid is not empty). *)
Theorem update_runs_on_built_grid (grid : list (list Z)) :
  (exists map_data, Game.create_collision_grid map_data = Some grid)
  \/ (exists map_data, MapUtils.extract_ground_layer map_data = Some grid) ->
  (forall dt keys (s : Player.t),
      is_Some (Player.update dt keys (Some grid) s))
  /\ (forall s : NPC.t,
         is_Some (if NPC.truthy (Some grid) then
                    h ← NPC.check_horizontal_collisions grid s;
                    NPC.check_vertical_collisions grid h
                  else Some s)).
Proof.
  intros Hbuilt.
  assert (Hd : exists height width, dims grid height width).
  { destruct Hbuilt as [[m Hm]|[m Hm]].
    - apply create_collision_grid_shape in Hm as [Hd _]. eauto.
    - rewrite extract_ground_layer_merge in Hm.
      apply merge_layers_shape in Hm as [Hd _]; [eauto|].
      split; [apply zero_grid_dims|apply zero_grid_binary]. }
  destruct Hd as (height & width & Hd). split.
  - intros dt keys s. by eapply player_update_rectangular.
  - intros s. destruct grid as [|g0 grid]; [done|].
    cbn [NPC.truthy]. by eapply npc_passes_rectangular.
Qed.

Lemma update_runs_on_built_grid_witness :
  is_Some (Player.update (1 # 60) no_keys (Some (zero_grid 1 30))
             (game_player 100 100)).
Proof.
  apply (update_runs_on_built_grid (zero_grid 1 30)).
  left. exists ground1_only_map. vm_compute. reflexivity.
Defined.


(** ** Merging named layers *)

Lemma forallb_false_elem {A} (p : A -> bool) (l : list A) :
  forallb p l = false -> exists a, a ∈ l /\ p a = false.
Proof.
  induction l as [|a l IH]; simpl; [done|].
  destruct (p a) eqn:E.
  - intros H. destruct (IH H) as (b & Hb & Hp). exists b.
    split; [by right|done].
  - intros _. exists a. split; [by left|done].
Qed.

Lemma merge_layers_cons name names layers width height grid :
  merge_layers (name :: names) layers width height grid
  = (g ← (if MapUtils.contains name layers then
            Py.for_in (Py.range 0 height) (fun y grid =>
              Py.for_in (Py.range 0 width) (fun x grid =>
                v ← MapUtils.layer_cell layers name y x;
                if negb (v =? 0) then set_cell grid y x 1
                else Some grid) grid) grid
          else Some grid);
     merge_layers names layers width height g).
Proof.
  unfold merge_layers. simpl.
  by destruct (if MapUtils.contains name layers then _ else _).
Qed.

Lemma merge_layers_union names m height width : forall grid,
  dims grid height width ->
  cells_present names m height width = true ->
  exists grid',
    merge_layers names (MapUtils.ByName m) width height grid = Some grid'
    /\ dims grid' height width
    /\ forall r c, 0 <= r < height -> 0 <= c < width ->
         tile_at grid' r c
         = if any_layer_solid names m r c then Some 1 else tile_at grid r c.
Proof.
  induction names as [|name names IH]; intros grid Hd Hp.
  - exists grid. split; [done|]. split; [exact Hd|done].
  - simpl in Hp. apply andb_true_iff in Hp as [Hname Hrest].
    rewrite merge_layers_cons. unfold MapUtils.contains.
    destruct (m !! name) as [g|] eqn:Em.
    + rewrite bool_decide_eq_true_2 by done.
      rewrite forallb_forall in Hname.
      destruct (paint_loop
                  (fun y x =>
                     MapUtils.layer_cell (MapUtils.ByName m) name y x)
                  height width grid Hd) as (grid1 & Hloop & Hd1 & Ht1).
      { intros r c Hr Hc.
        rewrite (layer_cell_by_name m name g) by (done || lia).
        specialize (Hname (r, c)). simpl in Hname.
        eapply bool_decide_eq_true_1, Hname.
        apply list_elem_of_In. by apply elem_of_cells. }
      rewrite Hloop. cbn [mbind option_bind].
      destruct (IH grid1 Hd1 Hrest) as (grid' & Hrun & Hd' & Ht').
      exists grid'. split; [done|]. split; [done|].
      intros r c Hr Hc. rewrite Ht', Ht1 by done.
      rewrite (layer_cell_by_name m name g) by (done || lia).
      unfold any_layer_solid. simpl. rewrite Em. simpl.
      by destruct (nonzero (tile_at g r c)), (existsb _ names).
    + rewrite bool_decide_eq_false_2 by (by intros [? ?]).
      cbn [mbind option_bind].
      destruct (IH grid Hd Hrest) as (grid' & Hrun & Hd' & Ht').
      exists grid'. split; [done|]. split; [done|].
      intros r c Hr Hc. rewrite Ht' by done.
      unfold any_layer_solid. simpl. by rewrite Em.
Qed.

Lemma merge_layers_raises names m height width : forall grid,
  cells_present names m height width = false ->
  merge_layers names (MapUtils.ByName m) width height grid = None.
Proof.
  induction names as [|name names IH]; intros grid Hp; [done|].
  simpl in Hp. rewrite merge_layers_cons. unfold MapUtils.contains.
  destruct (m !! name) as [g|] eqn:Em.
  - rewrite bool_decide_eq_true_2 by done.
    destruct (forallb _ (cells height width)) eqn:Ecells.
    + simpl in Hp.
      destruct (Py.for_in _ _ grid) as [grid1|]; [|done].
      cbn [mbind option_bind]. by apply IH.
    + apply forallb_false_elem in Ecells as ([r c] & Hin & Hcell).
      apply elem_of_cells in Hin as [Hr Hc]. simpl in Hcell.
      apply bool_decide_eq_false_1 in Hcell.
      rewrite (for_in_raises _ _ r); [done| |].
      * apply elem_of_range. lia.
      * intros s. apply (for_in_raises _ _ c).
        -- apply elem_of_range. lia.
        -- intros s'.
           rewrite (layer_cell_by_name m name g) by (done || lia).
           destruct (tile_at g r c) as [v|] eqn:Et; [|done].
           exfalso. apply Hcell. by exists v.
  - simpl in Hp. rewrite bool_decide_eq_false_2 by (by intros [? ?]).
    cbn [mbind option_bind]. by apply IH.
Qed.

(** X12: on a table of named layers, [extract_ground_layer] skips a name
    that is not in the table: when every layer named [ground] or [ground1]
    that is present has an entry at every cell of the map, a grid is
    returned, and its cell (row, col) is 1 if and only if one of the
    present layers has a non-zero identifier there, 0 otherwise.  With
    neither layer present the grid is all zeros. *)
Theorem extract_ground_layer_skips_missing_layers
    (map_data : MapUtils.map_data_t) (m : gmap string (list (list Z))) :
  MapUtils.layers map_data = MapUtils.ByName m ->
  cells_present MapUtils.solid_layer_names m
    (MapUtils.height map_data) (MapUtils.width map_data) = true ->
  exists grid,
    MapUtils.extract_ground_layer map_data = Some grid
    /\ forall r c,
        0 <= r < MapUtils.height map_data ->
        0 <= c < MapUtils.width map_data ->
        tile_at grid r c
        = Some (if any_layer_solid MapUtils.solid_layer_names m r c
                then 1 else 0).
Proof.
  intros Hl Hp. rewrite extract_ground_layer_merge, Hl.
  destruct (merge_layers_union MapUtils.solid_layer_names m
              (MapUtils.height map_data) (MapUtils.width map_data)
              (zero_grid (MapUtils.width map_data)
                 (MapUtils.height map_data))
              (zero_grid_dims _ _) Hp) as (grid & Hrun & _ & Ht).
  exists grid. split; [done|]. intros r c Hr Hc.
  rewrite Ht, zero_grid_tile_at by done.
  by destruct (any_layer_solid _ _ _ _).
Qed.

Lemma extract_ground_layer_skips_missing_layers_witness :
  exists grid,
    MapUtils.extract_ground_layer ground_only_map = Some grid
    /\ tile_at grid 0 1 = Some 1 /\ tile_at grid 1 0 = Some 0.
Proof.
  destruct (extract_ground_layer_skips_missing_layers ground_only_map
              (<["ground"%string := [ [0; 4]; [0; 0] ]]> ∅))
    as (grid & Hg & Ht); [reflexivity..|].
  exists grid. split; [exact Hg|]. split.
  - apply (Ht 0 1); simpl; lia.
  - apply (Ht 1 0); simpl; lia.
Defined.

(** X13: [extract_background_layer] merges the layers named [background]
    and [background1] in the same way: under the same condition on the
    present layers, cell (row, col) of the result is 1 if and only if one
    of them has a non-zero identifier there, 0 otherwise. *)
Theorem extract_background_layer_union
    (map_data : MapUtils.map_data_t) (m : gmap string (list (list Z))) :
  MapUtils.layers map_data = MapUtils.ByName m ->
  cells_present background_names m
    (MapUtils.height map_data) (MapUtils.width map_data) = true ->
  exists grid,
    extract_background_layer map_data = Some grid
    /\ forall r c,
        0 <= r < MapUtils.height map_data ->
        0 <= c < MapUtils.width map_data ->
        tile_at grid r c
        = Some (if any_layer_solid background_names m r c then 1 else 0).
Proof.
  intros Hl Hp. rewrite extract_background_layer_merge, Hl.
  destruct (merge_layers_union background_names m
              (MapUtils.height map_data) (MapUtils.width map_data)
              (zero_grid (MapUtils.width map_data)
                 (MapUtils.height map_data))
              (zero_grid_dims _ _) Hp) as (grid & Hrun & _ & Ht).
  exists grid. split; [done|]. intros r c Hr Hc.
  rewrite Ht, zero_grid_tile_at by done.
  by destruct (any_layer_solid _ _ _ _).
Qed.

Lemma extract_background_layer_union_witness :
  exists grid,
    extract_background_layer background_only_map = Some grid
    /\ tile_at grid 0 1 = Some 1 /\ tile_at grid 1 1 = Some 0.
Proof.
  destruct (extract_background_layer_union background_only_map
              (<["background"%string := [ [0; 3]; [0; 0] ]]> ∅))
    as (grid & Hg & Ht); [reflexivity..|].
  exists grid. split; [exact Hg|]. split.
  - apply (Ht 0 1); simpl; lia.
  - apply (Ht 1 1); simpl; lia.
Defined.

(** X14: the two merges raise when a present layer is too small: if a
    layer named in the list is in the table and lacks an entry at some
    cell of the map, [extract_ground_layer] (respectively
    [extract_background_layer]) returns no grid. *)
Theorem merge_raises_on_missing_cell
    (map_data : MapUtils.map_data_t) (m : gmap string (list (list Z))) :
  MapUtils.layers map_data = MapUtils.ByName m ->
  (cells_present MapUtils.solid_layer_names m
     (MapUtils.height map_data) (MapUtils.width map_data) = false ->
   MapUtils.extract_ground_layer map_data = None)
  /\ (cells_present background_names m
        (MapUtils.height map_data) (MapUtils.width map_data) = false ->
      extract_background_layer map_data = None).
Proof.
  intros Hl. split; intros Hp.
  - rewrite extract_ground_layer_merge, Hl. by apply merge_layers_raises.
  - rewrite extract_background_layer_merge, Hl.
    by apply merge_layers_raises.
Qed.

Lemma merge_raises_on_missing_cell_witness :
  MapUtils.extract_ground_layer short_layer_map = None.
Proof.
  destruct (merge_raises_on_missing_cell short_layer_map
              (<["ground"%string := [ [1; 0] ]]> ∅) eq_refl) as [H _].
  apply H. reflexivity.
Defined.


(** ** Choosing a tileset *)

Lemma unique_key {A} (l : list (Z * A)) (k : Z) (a b : A) :
  NoDup l.*1 -> (k, a) ∈ l -> (k, b) ∈ l -> a = b.
Proof.
  induction l as [|[k' c] l IH]; simpl; intros Hnd Ha Hb.
  - by apply elem_of_nil in Ha.
  - apply NoDup_cons in Hnd as [Hk Hnd].
    apply elem_of_cons in Ha as [Ha|Ha], Hb as [Hb|Hb].
    + congruence.
    + injection Ha as -> ->. exfalso. apply Hk.
      apply list_elem_of_fmap. by exists (k', b).
    + injection Hb as -> ->. exfalso. apply Hk.
      apply list_elem_of_fmap. by exists (k', a).
    + by apply IH.
Qed.

Lemma tileset_scan_invariant (gid : Z) (l : list (Z * Tileset)) :
  let best := foldl (GameLoop.tileset_step gid) (None, 0) l in
  0 <= best.2
  /\ (forall f t, (f, t) ∈ l -> f <= gid -> f <= best.2)
  /\ match best.1 with
     | None => best.2 = 0
     | Some t => (best.2, t) ∈ l /\ 0 < best.2 <= gid
     end.
Proof.
  induction l as [|[f t] l IH] using rev_ind; simpl.
  - split; [done|]. split; [|done]. intros f t H.
    by apply elem_of_nil in H.
  - rewrite foldl_app. simpl.
    destruct (foldl _ _ l) as [best bf]. simpl in IH.
    destruct IH as (Hpos & Hmax & Hbest).
    unfold GameLoop.tileset_step. simpl.
    destruct ((f <=? gid) && (bf <? f)) eqn:E.
    + apply andb_true_iff in E as [E1 E2].
      apply Z.leb_le in E1. apply Z.ltb_lt in E2. simpl.
      split; [lia|]. split.
      * intros f' t' Hin Hle. apply elem_of_app in Hin as [Hin|Hin].
        -- specialize (Hmax f' t' Hin Hle). lia.
        -- apply list_elem_of_singleton in Hin. injection Hin as -> _. lia.
      * split; [|lia]. apply elem_of_app. right. by left.
    + apply andb_false_iff in E. simpl.
      split; [done|]. split.
      * intros f' t' Hin Hle. apply elem_of_app in Hin as [Hin|Hin].
        -- by apply (Hmax f' t').
        -- apply list_elem_of_singleton in Hin. injection Hin as -> _.
           destruct E as [E|E]; [apply Z.leb_gt in E|apply Z.ltb_ge in E];
             lia.
      * destruct best as [t'|]; [|done].
        destruct Hbest as [Hin Hb]. split; [|done].
        apply elem_of_app. by left.
Qed.

(** X15: [get_tileset_for_gid] returns the tileset entered under the
    highest first identifier that is positive and at most [gid],
    whatever the order of the entries; it returns nothing exactly when
    there is no such entry (in particular for [gid = 0]). *)
Theorem get_tileset_for_gid_picks_highest_start
    (tilesets : list (Z * Tileset)) (gid : Z) (t : Tileset) :
  NoDup tilesets.*1 ->
  GameLoop.get_tileset_for_gid tilesets gid = Some t
  <-> exists firstgid,
        (firstgid, t) ∈ tilesets /\ 0 < firstgid <= gid
        /\ forall f' t', (f', t') ∈ tilesets -> f' <= gid -> f' <= firstgid.
Proof.
  intros Hnd. unfold GameLoop.get_tileset_for_gid.
  pose proof (tileset_scan_invariant gid tilesets) as Hinv.
  destruct (foldl _ _ tilesets) as [best bf]. simpl in Hinv.
  destruct Hinv as (Hpos & Hmax & Hbest). simpl.
  destruct (gid =? 0) eqn:E0.
  { apply Z.eqb_eq in E0. split; [done|]. intros (f & _ & Hf & _). lia. }
  split.
  - intros ->. destruct Hbest as [Hin Hb]. exists bf.
    split; [done|]. split; [done|exact Hmax].
  - intros (f & Hin & Hf & Hfmax).
    specialize (Hmax f t Hin ltac:(lia)).
    destruct best as [t'|]; [|lia]. destruct Hbest as [Hin' Hb].
    specialize (Hfmax bf t' Hin' ltac:(lia)).
    assert (bf = f) as -> by lia. f_equal.
    by apply (unique_key tilesets f).
Qed.


Lemma get_tileset_for_gid_picks_highest_start_witness :
  GameLoop.get_tileset_for_gid two_tilesets 300
  = Some (mkTileset 32 32 8 "4.tsx" 257).
Proof.
  apply (get_tileset_for_gid_picks_highest_start two_tilesets 300).
  - simpl. apply NoDup_cons. split; [|apply NoDup_singleton].
    intros H. apply list_elem_of_singleton in H. discriminate.
  - exists 257. split; [by left|]. split; [lia|].
    intros f' t' Hin _. unfold two_tilesets in Hin.
    repeat (apply elem_of_cons in Hin as [Hin|Hin];
            [injection Hin as -> _; lia|]).
    by apply elem_of_nil in Hin.
Defined.

(** ** The camera *)

Lemma camera_axis (x h w s mw m : Q) :
  (0 <= m)%Q ->
  (0 <= Py.max 0 (Py.min (x - h) m) <= m)%Q
  /\ ((0 <= h)%Q -> (w + h <= s)%Q -> (0 <= x)%Q -> (x + w <= mw)%Q ->
      (m == mw - s)%Q \/ ((m == 0)%Q /\ (mw <= s)%Q) ->
      (Py.max 0 (Py.min (x - h) m) <= x)%Q
      /\ (x + w <= Py.max 0 (Py.min (x - h) m) + s)%Q).
Proof.
  intros Hm. unfold Py.max, Py.min.
  destruct (Py.ltb m (x - h)) eqn:E1.
  - apply ltb_lt in E1.
    destruct (Py.ltb 0 m) eqn:E2;
      [apply ltb_lt in E2|apply ltb_ge in E2];
      (split; [lra|intros Hh Hw Hx Hxw [Hmax|[Hmax Hle]]; lra]).
  - apply ltb_ge in E1.
    destruct (Py.ltb 0 (x - h)) eqn:E2;
      [apply ltb_lt in E2|apply ltb_ge in E2];
      (split; [lra|intros Hh Hw Hx Hxw [Hmax|[Hmax Hle]]; lra]).
Qed.

Lemma inject_Z_max_sub (a b : Z) :
  (inject_Z (Z.max 0 (a - b)) == inject_Z a - inject_Z b)%Q
  \/ ((inject_Z (Z.max 0 (a - b)) == 0)%Q /\ (inject_Z a <= inject_Z b)%Q).
Proof.
  destruct (Z.le_gt_cases b a) as [H|H].
  - left. rewrite Z.max_r by lia. unfold Z.sub.
    rewrite inject_Z_plus, inject_Z_opp. lra.
  - right. rewrite Z.max_l by lia. split; [done|].
    rewrite <- Zle_Qle. lia.
Qed.

(** X16: [update_camera] keeps the camera between 0 and the largest
    offset at which the screen still lies in the map, on both axes; and
    a player who is inside the map and no larger than the half of the
    screen that follows the centre is entirely on the screen. *)
Theorem camera_keeps_player_in_view (map_data : Game.map_data_t)
    (screen_width screen_height : Z) (player : Player.t) (cam : Camera) :
  let map_width := Game.width map_data * Game.tilewidth map_data in
  let map_height := Game.height map_data * Game.tileheight map_data in
  let cam' :=
    GameLoop.update_camera map_data screen_width screen_height player cam in
  0 <= screen_width -> 0 <= screen_height ->
  ((0 <= camera_x cam'
    <= inject_Z (Z.max 0 (map_width - screen_width)))%Q
   /\ (0 <= camera_y cam'
       <= inject_Z (Z.max 0 (map_height - screen_height)))%Q)
  /\ ((0 <= Player.x player)%Q ->
      (Player.x player + inject_Z (Player.width player)
       <= inject_Z map_width)%Q ->
      Player.width player <= screen_width - screen_width / 2 ->
      (camera_x cam' <= Player.x player)%Q
      /\ (Player.x player + inject_Z (Player.width player)
          <= camera_x cam' + inject_Z screen_width)%Q)
  /\ ((0 <= Player.y player)%Q ->
      (Player.y player + inject_Z (Player.height player)
       <= inject_Z map_height)%Q ->
      Player.height player <= screen_height - screen_height / 2 ->
      (camera_y cam' <= Player.y player)%Q
      /\ (Player.y player + inject_Z (Player.height player)
          <= camera_y cam' + inject_Z screen_height)%Q).
Proof.
  intros map_width map_height cam' Hsw Hsh.
  assert (Hhalf : forall s w, 0 <= s -> w <= s - s / 2 ->
            (0 <= inject_Z (s / 2))%Q
            /\ (inject_Z w + inject_Z (s / 2) <= inject_Z s)%Q).
  { intros s w Hs Hw. split.
    - change 0%Q with (inject_Z 0). rewrite <- Zle_Qle.
      apply Z.div_pos; lia.
    - rewrite <- inject_Z_plus, <- Zle_Qle. lia. }
  assert (Hmax : forall a, (0 <= inject_Z (Z.max 0 a))%Q).
  { intros a. change 0%Q with (inject_Z 0). rewrite <- Zle_Qle. lia. }
  subst cam'. unfold GameLoop.update_camera. cbn [camera_x camera_y].
  fold map_width map_height.
  destruct (camera_axis (Player.x player) (inject_Z (screen_width / 2))
              (inject_Z (Player.width player)) (inject_Z screen_width)
              (inject_Z map_width)
              (inject_Z (Z.max 0 (map_width - screen_width))) (Hmax _))
    as [Hbx Hvx].
  destruct (camera_axis (Player.y player) (inject_Z (screen_height / 2))
              (inject_Z (Player.height player)) (inject_Z screen_height)
              (inject_Z map_height)
              (inject_Z (Z.max 0 (map_height - screen_height))) (Hmax _))
    as [Hby Hvy].
  split; [by split|]. split.
  - intros Hx Hxw Hw.
    destruct (Hhalf screen_width (Player.width player) Hsw Hw) as [H1 H2].
    apply Hvx; try done. apply inject_Z_max_sub.
  - intros Hy Hyh Hh.
    destruct (Hhalf screen_height (Player.height player) Hsh Hh)
      as [H1 H2].
    apply Hvy; try done. apply inject_Z_max_sub.
Qed.

Lemma camera_keeps_player_in_view_witness :
  let cam' :=
    GameLoop.update_camera game_map 1920 960 (game_player 100 800)
      (mkCamera 0 0 None) in
  (camera_x cam' <= 100)%Q /\ (100 + 64 <= camera_x cam' + 1920)%Q.
Proof.
  destruct (camera_keeps_player_in_view game_map 1920 960
              (game_player 100 800) (mkCamera 0 0 None))
    as (_ & Hx & _); [lia..|].
  apply Hx; vm_compute; congruence.
Defined.


(** ** The quest *)

Lemma count_collected_cons (m : Medicine.t) (items : list Medicine.t) :
  QuestGame.count_collected (m :: items)
  = (if Medicine.collected m then 1 else 0)
    + QuestGame.count_collected items.
Proof.
  unfold QuestGame.count_collected, Py.len. rewrite filter_cons.
  destruct (Medicine.collected m) eqn:E.
  - rewrite decide_True by done. simpl length. lia.
  - rewrite decide_False by done. lia.
Qed.

Lemma count_collected_bounds (items : list Medicine.t) :
  0 <= QuestGame.count_collected items <= Py.len items.
Proof.
  induction items as [|m items IH]; [done|].
  rewrite count_collected_cons. unfold Py.len in *. simpl length.
  destruct (Medicine.collected m); lia.
Qed.

(** An item answers [True] at most once: exactly when it goes from not
    collected to collected. *)
Lemma check_collision_counts (player : Player.t) (m : Medicine.t) :
  let r := Medicine.check_collision player m in
  (if r.1 then 1 else 0)
  = (if Medicine.collected r.2 then 1 else 0)
    - (if Medicine.collected m then 1 else 0).
Proof.
  unfold Medicine.check_collision.
  destruct (Medicine.collected m) eqn:E; simpl; [by rewrite E|].
  destruct (Pygame.colliderect _ _); simpl; [done|by rewrite E].
Qed.

Lemma medicine_loop_frame (player : Player.t) (items : list Medicine.t) :
  forall self : QuestGame.t,
  let r := QuestGame.medicine_loop player items self in
  exists n c b,
    r.2 = QuestGame.set_quest_active
            (QuestGame.set_npc
               (QuestGame.set_medicine_collected self n)
               (NPCQuest.set_collected_items (QuestGame.npc self) c)) b
    /\ length r.1 = length items
    /\ n - QuestGame.count_collected r.1
       = QuestGame.medicine_collected self
         - QuestGame.count_collected items
    /\ (c = n
        \/ (c = NPCQuest.collected_items (QuestGame.npc self)
            /\ n = QuestGame.medicine_collected self)).
Proof.
  induction items as [|m items IH]; intros self; simpl.
  - exists (QuestGame.medicine_collected self),
      (NPCQuest.collected_items (QuestGame.npc self)),
      (QuestGame.quest_active self).
    split; [by destruct self as [[] ? ? ? ? ? ? ?]|].
    split; [done|]. split; [lia|]. by right.
  - pose proof (check_collision_counts player m) as Hm. simpl in Hm.
    destruct (Medicine.check_collision player m) as [hit m'].
    simpl in Hm.
    match goal with
    | |- context [QuestGame.medicine_loop player items ?s] =>
        specialize (IH s);
        destruct (QuestGame.medicine_loop player items s)
          as [items' self'] eqn:E
    end.
    simpl in IH. destruct IH as (n & c & b & -> & Hlen & Hn & Hc).
    simpl. rewrite !count_collected_cons.
    destruct hit.
    + exists n, c, b. split; [by destruct self as [[] ? ? ? ? ? ? ?]|].
      split; [by rewrite Hlen|]. simpl in Hn, Hc.
      split; [lia|]. destruct Hc as [Hc|[Hc Hn']]; [by left|].
      left. lia.
    + exists n, c, b. split; [done|].
      split; [by rewrite Hlen|]. split; [lia|done].
Qed.

(** The fields that the quest invariants speak of, before and after a
    call of [check_medicine_collection]. *)
Lemma check_medicine_collection_frame (player : Player.t)
    (self : QuestGame.t) :
  let self' := QuestGame.check_medicine_collection player self in
  NPCQuest.quest_accepted (QuestGame.npc self')
  = NPCQuest.quest_accepted (QuestGame.npc self)
  /\ NPCQuest.quest_completed (QuestGame.npc self')
     = NPCQuest.quest_completed (QuestGame.npc self)
  /\ NPCQuest.dialogue_lines (QuestGame.npc self')
     = NPCQuest.dialogue_lines (QuestGame.npc self)
  /\ QuestGame.medicine_required self' = QuestGame.medicine_required self
  /\ QuestGame.dialogue_box self' = QuestGame.dialogue_box self
  /\ QuestGame.dialogue_timer self' = QuestGame.dialogue_timer self
  /\ length (QuestGame.medicine_items self')
     = length (QuestGame.medicine_items self)
  /\ QuestGame.medicine_collected self'
     - QuestGame.count_collected (QuestGame.medicine_items self')
     = QuestGame.medicine_collected self
       - QuestGame.count_collected (QuestGame.medicine_items self)
  /\ (NPCQuest.collected_items (QuestGame.npc self)
      = QuestGame.medicine_collected self ->
      NPCQuest.collected_items (QuestGame.npc self')
      = QuestGame.medicine_collected self').
Proof.
  unfold QuestGame.check_medicine_collection.
  destruct (_ =? 0); [|by destruct self].
  match goal with
  | |- context [QuestGame.medicine_loop player ?l ?s] =>
      pose proof (medicine_loop_frame player l s) as H;
      destruct (QuestGame.medicine_loop player l s) as [items' self']
  end.
  simpl in H. destruct H as (n & c & b & -> & Hlen & Hn & Hc).
  destruct self as [npc items mc mr qa counter box timer]. simpl in *.
  do 7 (split; [done|]). split; [lia|].
  intros Hnpc. destruct Hc as [Hc|[Hc Hn']]; [done|]. lia.
Qed.

Lemma update_dialogue_frame (dt : Q) (self : QuestGame.t) :
  let self' := QuestGame.update_dialogue dt self in
  QuestGame.npc self' = QuestGame.npc self
  /\ QuestGame.medicine_items self' = QuestGame.medicine_items self
  /\ QuestGame.medicine_collected self' = QuestGame.medicine_collected self
  /\ QuestGame.medicine_required self' = QuestGame.medicine_required self
  /\ QuestGame.medicine_check_counter self'
     = QuestGame.medicine_check_counter self.
Proof.
  unfold QuestGame.update_dialogue.
  destruct (DialogueBox.is_active _); [|done].
  cbn [QuestGame.dialogue_timer QuestGame.set_dialogue_box].
  destruct (Py.ltb 0 _); [|done].
  cbn [QuestGame.dialogue_timer QuestGame.set_dialogue_timer].
  by destruct (Py.leb _ 0).
Qed.

Lemma interact_with_npc_frame (self : QuestGame.t) :
  let self' := QuestGame.interact_with_npc self in
  NPCQuest.quest_accepted (QuestGame.npc self')
  = NPCQuest.quest_accepted (QuestGame.npc self)
  /\ NPCQuest.dialogue_lines (QuestGame.npc self')
     = NPCQuest.dialogue_lines (QuestGame.npc self)
  /\ QuestGame.medicine_items self' = QuestGame.medicine_items self
  /\ QuestGame.medicine_collected self' = QuestGame.medicine_collected self
  /\ QuestGame.medicine_required self' = QuestGame.medicine_required self
  /\ (NPCQuest.collected_items (QuestGame.npc self)
      = QuestGame.medicine_collected self ->
      NPCQuest.collected_items (QuestGame.npc self')
      = QuestGame.medicine_collected self')
  /\ (NPCQuest.quest_accepted (QuestGame.npc self) = false ->
      NPCQuest.quest_completed (QuestGame.npc self')
      = NPCQuest.quest_completed (QuestGame.npc self)).
Proof.
  unfold QuestGame.interact_with_npc.
  destruct self as [[qa qc ri ci dl] items mc mr act counter box timer].
  simpl. destruct qa; simpl; [|done].
  destruct qc; simpl; [done|].
  by destruct (mr <=? mc).
Qed.

(** The invariant of the medicine counters. *)
Lemma quest_counters_invariant (sx sy sf : Q) (counter : option Z)
    (events : list QuestGame.event) :
  let self := QuestGame.run (QuestGame.reset_game sx sy sf counter) events in
  QuestGame.medicine_collected self
  = QuestGame.count_collected (QuestGame.medicine_items self)
  /\ Py.len (QuestGame.medicine_items self) = 3
  /\ NPCQuest.collected_items (QuestGame.npc self)
     = QuestGame.medicine_collected self
  /\ QuestGame.medicine_required self = 3.
Proof.
  unfold QuestGame.run.
  induction events as [|ev events IH] using rev_ind; [done|].
  rewrite foldl_app. simpl.
  set (self := foldl QuestGame.step _ events) in *. simpl in IH.
  destruct IH as (Hc & Hl & Hn & Hr).
  destruct ev as [dt player| |sx' sy' sf'|]; simpl.
  - destruct (update_dialogue_frame dt self)
      as (Hnpc & Hitems & Hmc & Hmr & _).
    destruct (check_medicine_collection_frame player
                (QuestGame.update_dialogue dt self))
      as (_ & _ & _ & Hmr' & _ & _ & Hlen & Hcount & Hcoll).
    rewrite Hitems in Hlen. rewrite Hitems, Hmc in Hcount.
    rewrite Hnpc, Hmc in Hcoll.
    unfold Py.len in *. rewrite Hmr', Hmr.
    split; [lia|]. split; [lia|]. split; [by apply Hcoll|done].
  - destruct (interact_with_npc_frame self)
      as (_ & _ & Hitems & Hmc & Hmr & Hcoll & _).
    rewrite Hitems, Hmc, Hmr. split; [done|]. split; [done|].
    split; [|done]. rewrite <- Hmc. by apply Hcoll.
  - done.
  - done.
Qed.

(** X17: however the game is played, each medicine item is counted
    once: [medicine_collected] is the number of items whose [collected]
    flag is set, it never exceeds the three items that [reset_game]
    places, and the NPC's [collected_items] agrees with it. *)
Theorem medicine_counted_once (sx sy sf : Q) (counter : option Z)
    (events : list QuestGame.event) :
  let self := QuestGame.run (QuestGame.reset_game sx sy sf counter) events in
  QuestGame.medicine_collected self
  = QuestGame.count_collected (QuestGame.medicine_items self)
  /\ 0 <= QuestGame.medicine_collected self <= 3
  /\ NPCQuest.collected_items (QuestGame.npc self)
     = QuestGame.medicine_collected self.
Proof.
  destruct (quest_counters_invariant sx sy sf counter events)
    as (Hc & Hl & Hn & _).
  split; [done|]. split; [|done].
  pose proof (count_collected_bounds
                (QuestGame.medicine_items
                   (QuestGame.run
                      (QuestGame.reset_game sx sy sf counter) events))).
  lia.
Qed.


Lemma quest_lines_invariant (sx sy sf : Q) (counter : option Z)
    (events : list QuestGame.event) :
  NPCQuest.dialogue_lines
    (QuestGame.npc
       (QuestGame.run (QuestGame.reset_game sx sy sf counter) events))
  = NPCQuest.dialogue_lines NPCQuest.init.
Proof.
  unfold QuestGame.run.
  induction events as [|ev events IH] using rev_ind; [done|].
  rewrite foldl_app. simpl.
  set (self := foldl QuestGame.step _ events) in *.
  destruct ev as [dt player| |sx' sy' sf'|]; simpl.
  - destruct (update_dialogue_frame dt self) as (Hnpc & _).
    destruct (check_medicine_collection_frame player
                (QuestGame.update_dialogue dt self))
      as (_ & _ & Hl & _).
    by rewrite Hl, Hnpc.
  - destruct (interact_with_npc_frame self) as (_ & Hl & _).
    by rewrite Hl.
  - done.
  - done.
Qed.

(** X18: the game never starts the quest.  After any sequence of frames
    and presses of E and R, the quest is neither accepted nor completed,
    whatever has been collected, and pressing E opens the two-line offer
    again. *)
Theorem quest_is_never_accepted (sx sy sf : Q) (counter : option Z)
    (events : list QuestGame.event) :
  Forall (fun ev => QuestGame.game_event ev = true) events ->
  let self := QuestGame.run (QuestGame.reset_game sx sy sf counter) events in
  NPCQuest.quest_accepted (QuestGame.npc self) = false
  /\ NPCQuest.quest_completed (QuestGame.npc self) = false
  /\ QuestGame.dialogue_box (QuestGame.interact_with_npc self)
     = DialogueBox.init
         [ ("NPC", "Hello traveler! I am in need of your help.");
           ("NPC", "The villagers are sick and need medicine. Can you collect 3 medicine items for me?") ]%string.
Proof.
  intros Hev. simpl.
  pose proof (quest_lines_invariant sx sy sf counter events) as Hlines.
  assert (Hinv :
    NPCQuest.quest_accepted
      (QuestGame.npc
         (QuestGame.run (QuestGame.reset_game sx sy sf counter) events))
    = false
    /\ NPCQuest.quest_completed
         (QuestGame.npc
            (QuestGame.run (QuestGame.reset_game sx sy sf counter) events))
       = false).
  { clear Hlines. unfold QuestGame.run.
    induction events as [|ev events IH] using rev_ind; [done|].
    apply Forall_app in Hev as [Hev Hlast].
    rewrite Forall_singleton in Hlast.
    rewrite foldl_app. simpl.
    set (self := foldl QuestGame.step _ events) in *.
    destruct (IH Hev) as [Ha Hc].
    destruct ev as [dt player| |sx' sy' sf'|]; simpl;
      [| |done|simpl in Hlast; discriminate].
    - destruct (update_dialogue_frame dt self) as (Hnpc & _).
      destruct (check_medicine_collection_frame player
                  (QuestGame.update_dialogue dt self))
        as (Ha' & Hc' & _).
      by rewrite Ha', Hc', Hnpc.
    - destruct (interact_with_npc_frame self)
        as (Ha' & _ & _ & _ & _ & _ & Hc').
      rewrite Ha', (Hc' Ha). done. }
  destruct Hinv as [Ha Hc]. split; [done|]. split; [done|].
  unfold QuestGame.interact_with_npc. rewrite Ha. simpl.
  unfold NPCQuest.get_dialogue. rewrite Ha, Hlines. done.
Qed.

Lemma quest_is_never_accepted_witness :
  let self := QuestGame.run (QuestGame.reset_game 1 1 1 None) medicine_run in
  QuestGame.medicine_collected self = 1
  /\ NPCQuest.quest_accepted (QuestGame.npc self) = false
  /\ DialogueBox.lines
       (QuestGame.dialogue_box (QuestGame.interact_with_npc self))
     = [ ("NPC", "Hello traveler! I am in need of your help.");
         ("NPC", "The villagers are sick and need medicine. Can you collect 3 medicine items for me?") ]%string.
Proof.
  destruct (quest_is_never_accepted 1 1 1 None medicine_run)
    as (Ha & _ & Hbox).
  { apply Forall_forall. intros ev Hin. apply list_elem_of_In in Hin.
    unfold medicine_run in Hin. simpl in Hin.
    repeat (destruct Hin as [<-|Hin]; [done|]). done. }
  split; [vm_compute; reflexivity|]. split; [exact Ha|].
  by rewrite Hbox.
Defined.

(** X19: the progress line does not follow the count.  Should the quest
    be accepted (by [NPC.accept_quest]) and not completed, pressing E
    with fewer items than required shows "0/3" whatever the number of
    items collected: the line was formatted once, in [__init__]. *)
Theorem progress_line_is_frozen (sx sy sf : Q) (counter : option Z)
    (events : list QuestGame.event) :
  let self := QuestGame.run (QuestGame.reset_game sx sy sf counter) events in
  NPCQuest.quest_accepted (QuestGame.npc self) = true ->
  NPCQuest.quest_completed (QuestGame.npc self) = false ->
  QuestGame.medicine_collected self < 3 ->
  DialogueBox.lines
    (QuestGame.dialogue_box (QuestGame.interact_with_npc self))
  = [ ("NPC", "You have collected 0/3 medicine items.") ]%string.
Proof.
  simpl. intros Ha Hc Hm.
  pose proof (quest_lines_invariant sx sy sf counter events) as Hlines.
  destruct (quest_counters_invariant sx sy sf counter events)
    as (_ & _ & _ & Hr). simpl in Hr.
  unfold QuestGame.interact_with_npc. rewrite Ha, Hc, Hr. simpl.
  rewrite (proj2 (Z.leb_gt _ _) Hm). simpl.
  unfold NPCQuest.get_dialogue. rewrite Ha, Hc, Hlines. done.
Qed.

Lemma progress_line_is_frozen_witness :
  let self :=
    QuestGame.run (QuestGame.reset_game 1 1 1 None)
      (QuestGame.AcceptQuest :: medicine_run) in
  QuestGame.medicine_collected self = 1
  /\ DialogueBox.lines
       (QuestGame.dialogue_box (QuestGame.interact_with_npc self))
     = [ ("NPC", "You have collected 0/3 medicine items.") ]%string.
Proof.
  split; [vm_compute; reflexivity|].
  apply (progress_line_is_frozen 1 1 1 None
           (QuestGame.AcceptQuest :: medicine_run)).
  - vm_compute. reflexivity.
  - vm_compute. reflexivity.
  - vm_compute. reflexivity.
Defined.


(** ** Health and cleanliness *)

Lemma update_health_system_clears (dt : Q) (h : Health.t) :
  (Health.is_dirty h = true -> (Health.dirt_timer h <= 0)%Q) ->
  (0 <= dt)%Q ->
  Health.update_health_system dt h
  = if Health.is_dirty h then
      Health.set_is_dirty
        (Health.set_dirt_timer h (Health.dirt_timer h - dt)) false
    else h.
Proof.
  intros Hinv Hdt. unfold Health.update_health_system.
  destruct h as [hp mh dirty timer drain interval amount clean ct].
  simpl in *. destruct dirty; [|done]. simpl.
  specialize (Hinv eq_refl).
  assert (Hle : Py.leb (timer - dt) 0 = true) by (apply leb_le; lra).
  by rewrite Hle.
Qed.

Lemma use_item_health (item_name : string) (player : Health.t)
    (inv : Inventory.t) :
  let r := Inventory.use_item item_name player inv in
  Health.health r.2 = Health.health player
  /\ Health.is_dirty r.2 = Health.is_dirty player
  /\ Health.dirt_timer r.2 = Health.dirt_timer player
  /\ Health.health_drain_timer r.2 = Health.health_drain_timer player
  /\ (Health.max_health r.2 = Health.max_health player
      \/ Health.max_health r.2
         = Z.min 100 (Health.max_health player + 30)).
Proof.
  unfold Inventory.use_item.
  repeat match goal with
         | |- context [if ?b then _ else _] => destruct b
         end; simpl; auto 10.
Qed.

Lemma handle_input_health (keys : NumKeys) (player : Health.t)
    (inv : Inventory.t) :
  let r := Inventory.handle_input keys player inv in
  Health.health r.2 = Health.health player
  /\ Health.is_dirty r.2 = Health.is_dirty player
  /\ Health.dirt_timer r.2 = Health.dirt_timer player
  /\ Health.health_drain_timer r.2 = Health.health_drain_timer player
  /\ (Health.max_health r.2 = Health.max_health player
      \/ Health.max_health r.2
         = Z.min 100 (Health.max_health player + 30)).
Proof.
  unfold Inventory.handle_input.
  destruct (negb (Inventory.is_open inv)); [simpl; auto 10|].
  destruct (K_1 keys).
  { pose proof (use_item_health "soap" player inv) as H.
    by destruct (Inventory.use_item "soap" player inv) as [[? ?] ?]. }
  destruct (K_2 keys).
  { pose proof (use_item_health "water" player inv) as H.
    by destruct (Inventory.use_item "water" player inv) as [[? ?] ?]. }
  destruct (K_3 keys).
  { pose proof (use_item_health "first_aid" player inv) as H.
    by destruct (Inventory.use_item "first_aid" player inv) as [[? ?] ?]. }
  destruct (K_4 keys); [|simpl; auto 10].
  pose proof (use_item_health "trash" player inv) as H.
  by destruct (Inventory.use_item "trash" player inv) as [[? ?] ?].
Qed.

Lemma health_invariant_run (events : list HealthGame.event) :
  Forall (fun ev => HealthGame.well_timed ev = true) events ->
  health_invariant (HealthGame.run events).1.
Proof.
  unfold HealthGame.run, health_invariant.
  induction events as [|ev events IH] using rev_ind; intros Hev.
  - simpl. split; [lia|]. split; [lia|done].
  - apply Forall_app in Hev as [Hev Hlast].
    rewrite Forall_singleton in Hlast.
    rewrite foldl_app. simpl.
    destruct (foldl HealthGame.step _ events) as [h inv].
    specialize (IH Hev). simpl in IH.
    destruct IH as (Hh & Hm & Hd).
    destruct ev as [dt| | |keys| |name q|]; simpl; simpl in Hlast.
    + apply leb_le in Hlast.
      rewrite (update_health_system_clears dt h Hd Hlast).
      destruct (Health.is_dirty h) eqn:E; simpl; [|by rewrite E].
      split; [done|]. split; done.
    + unfold Health.near_trash.
      destruct h as [hp mh dirty timer drain interval amount clean ct].
      simpl in *. destruct dirty; [|done]. simpl.
      destruct (Py.leb 20 _); simpl; (split; [lia|]; split; [lia|done]).
    + unfold Health.step_on_trash, Health.make_dirty.
      destruct h as [hp mh dirty timer drain interval amount clean ct].
      simpl in *.
      destruct dirty; simpl; (split; [lia|]; split; [lia|]); [done|].
      intros _. lra.
    + pose proof (handle_input_health keys h inv) as H.
      destruct (Inventory.handle_input keys h inv) as [inv' h'].
      simpl in *. destruct H as (-> & -> & -> & _ & Hmh).
      split; [done|]. split; [|done]. destruct Hmh as [->| ->]; lia.
    + done.
    + done.
    + unfold Health.clean_up.
      destruct h as [hp mh dirty timer drain interval amount clean ct].
      simpl in *. split; [lia|]. split; [lia|done].
Qed.

(** X20: in the game, dirt never outlasts a frame and never drains
    health through [update_health_system].  After any run of the events
    that write the health fields (frames with a non-negative step), the
    next [update_health_system] leaves the player not dirty and leaves
    [health], [max_health] and the drain timer as they are; [health] and
    [max_health] stay between 0 and 100. *)
Theorem dirtiness_never_drains_health (events : list HealthGame.event)
    (dt : Q) :
  Forall (fun ev => HealthGame.well_timed ev = true) events ->
  (0 <= dt)%Q ->
  let h := (HealthGame.run events).1 in
  let h' := Health.update_health_system dt h in
  Health.is_dirty h' = false
  /\ Health.max_health h' = Health.max_health h
  /\ Health.health h' = Health.health h
  /\ Health.health_drain_timer h' = Health.health_drain_timer h
  /\ 0 <= Health.health h <= 100
  /\ 0 <= Health.max_health h <= 100.
Proof.
  intros Hev Hdt. simpl.
  destruct (health_invariant_run events Hev) as (Hh & Hm & Hd).
  rewrite (update_health_system_clears dt _ Hd Hdt).
  destruct (Health.is_dirty (HealthGame.run events).1) eqn:E;
    simpl; by rewrite ?E.
Qed.

Lemma dirtiness_never_drains_health_witness :
  let h := (HealthGame.run dirty_run).1 in
  Health.is_dirty h = true
  /\ Health.max_health h = 97
  /\ Health.is_dirty (Health.update_health_system (1 # 60) h) = false
  /\ Health.max_health (Health.update_health_system (1 # 60) h) = 97.
Proof.
  destruct (dirtiness_never_drains_health dirty_run (1 # 60))
    as (Hd & Hm & _).
  - apply Forall_forall. intros ev Hin. apply list_elem_of_In in Hin.
    unfold dirty_run in Hin. simpl in Hin.
    repeat (destruct Hin as [<-|Hin]; [done|]). done.
  - vm_compute. congruence.
  - split; [vm_compute; reflexivity|].
    split; [vm_compute; reflexivity|].
    split; [exact Hd|]. rewrite Hm. vm_compute. reflexivity.
Defined.

Lemma quantity_eqb (a b : string) : a <> b -> String.eqb a b = false.
Proof. intros H. by apply String.eqb_neq. Qed.

(** X21: [Inventory.use_item] answers [True] exactly for soap, water or
    first aid held in positive quantity, and then spends one of it; in
    every other case nothing changes.  Whatever is used, the player stays
    as dirty as before: soap and water set [is_clean], which nothing
    reads. *)
Theorem use_item_spends_one (item_name : string) (player : Health.t)
    (inv : Inventory.t) :
  let r := Inventory.use_item item_name player inv in
  (r.1.1 = true
   <-> item_name <> "trash"%string
       /\ exists q, Inventory.quantity inv item_name = Some q /\ 0 < q)
  /\ Inventory.quantity r.1.2 item_name
     = (fun q => if r.1.1 then q - 1 else q)
         <$> Inventory.quantity inv item_name
  /\ (forall other, other <> item_name ->
        Inventory.quantity r.1.2 other = Inventory.quantity inv other)
  /\ (r.1.1 = false -> r = (false, inv, player))
  /\ Health.is_dirty r.2 = Health.is_dirty player
  /\ Health.dirt_timer r.2 = Health.dirt_timer player.
Proof.
  simpl. unfold Inventory.use_item, Inventory.quantity.
  destruct (String.eqb_spec item_name "soap") as [->|Hsoap].
  { simpl. destruct (0 <? Inventory.soap inv) eqn:E; simpl.
    - apply Z.ltb_lt in E.
      split; [split; [intros _; split; [done|eauto]|done]|].
      split; [done|]. split; [|done].
      intros other H. by rewrite (quantity_eqb other "soap").
    - apply Z.ltb_ge in E.
      split; [split; [done|intros (_ & q & [= <-] & Hq); lia]|].
      done. }
  destruct (String.eqb_spec item_name "water") as [->|Hwater].
  { simpl. destruct (0 <? Inventory.water inv) eqn:E; simpl.
    - apply Z.ltb_lt in E.
      split; [split; [intros _; split; [done|eauto]|done]|].
      split; [done|]. split; [|done].
      intros other H. by rewrite (quantity_eqb other "water").
    - apply Z.ltb_ge in E.
      split; [split; [done|intros (_ & q & [= <-] & Hq); lia]|].
      done. }
  destruct (String.eqb_spec item_name "first_aid") as [->|Haid].
  { simpl. destruct (0 <? Inventory.first_aid inv) eqn:E; simpl.
    - apply Z.ltb_lt in E.
      split; [split; [intros _; split; [done|eauto]|done]|].
      split; [done|]. split; [|done].
      intros other H. by rewrite (quantity_eqb other "first_aid").
    - apply Z.ltb_ge in E.
      split; [split; [done|intros (_ & q & [= <-] & Hq); lia]|].
      done. }
  simpl. split.
  - split; [done|]. intros (Htrash & q & Hq & _).
    by rewrite (quantity_eqb item_name "trash") in Hq.
  - split; [by destruct (String.eqb item_name "trash")|]. done.
Qed.


(** ** Animation *)






Lemma frames_of_nonempty sprite_frames state frames :
  PlayerAnim.frames_of sprite_frames state = Some frames ->
  0 < Py.len frames.
Proof.
  unfold PlayerAnim.frames_of.
  destruct (sprite_frames !! state) as [[|f l]|]; [done| |done].
  intros [= <-]. unfold Py.len. simpl length. lia.
Qed.

Lemma index_in_range {A} (l : list A) (i : Z) :
  0 <= i < Py.len l -> is_Some (Py.index l i).
Proof.
  intros Hi. rewrite index_nonneg by lia. apply lookup_lt_is_Some_2.
  unfold Py.len in Hi. lia.
Qed.

(** X23: [Player.update_animation] never raises, whatever frames were
    loaded: from a non-negative index it returns with a non-negative
    index, and when the new state has frames the index is within them
    and the current sprite is the frame at that index. *)
Theorem player_animation_stays_in_range (dt : Q) (player : Player.t)
    (self : PlayerAnim.t) :
  0 <= PlayerAnim.animation_index self ->
  exists self',
    PlayerAnim.update_animation dt player self = Some self'
    /\ 0 <= PlayerAnim.animation_index self'
    /\ PlayerAnim.sprite_frames self' = PlayerAnim.sprite_frames self
    /\ forall frames,
         PlayerAnim.frames_of (PlayerAnim.sprite_frames self)
           (animation_state (Player.on_ground player)
              (Player.vel_x player)) = Some frames ->
         PlayerAnim.animation_index self' < Py.len frames
         /\ Py.index frames (PlayerAnim.animation_index self')
            = Some (PlayerAnim.current_sprite self').
Proof.
  intros Hidx. unfold PlayerAnim.update_animation.
  set (state := animation_state _ _).
  set (step := if negb (String.eqb state "idle") then _ else _).
  assert (Hstep : 0 <= step.2
                  /\ (String.eqb state "idle" = true -> step.2 = 0)).
  { subst step. destruct (String.eqb state "idle"); simpl; [done|].
    split; [|done].
    destruct (Py.leb _ _); simpl; [|done].
    destruct (PlayerAnim.frames_of _ state) as [frames|] eqn:E;
      simpl; [|done].
    apply frames_of_nonempty in E.
    pose proof (Z.mod_pos_bound (PlayerAnim.animation_index self + 1)
                  (Py.len frames) E). lia. }
  destruct step as [timer idx]. simpl in Hstep.
  destruct Hstep as [Hpos Hidle].
  destruct (PlayerAnim.frames_of _ state) as [frames|] eqn:E.
  - pose proof (frames_of_nonempty _ _ _ E) as Hlen.
    destruct (String.eqb state "idle") eqn:Es.
    + destruct (index_in_range frames 0) as [sprite Hs]; [lia|].
      rewrite Hs. simpl. eexists. split; [done|]. simpl.
      rewrite (Hidle eq_refl). split; [done|]. split; [done|].
      intros ? [= <-]. by split.
    + destruct (Py.len frames <=? idx) eqn:Ei.
      * destruct (index_in_range frames 0) as [sprite Hs]; [lia|].
        rewrite Hs. simpl. eexists. split; [done|]. simpl.
        split; [done|]. split; [done|]. intros ? [= <-]. by split.
      * apply Z.leb_gt in Ei.
        destruct (index_in_range frames idx) as [sprite Hs]; [lia|].
        rewrite Hs. simpl. eexists. split; [done|]. simpl.
        split; [done|]. split; [done|]. intros ? [= <-]. by split.
  - destruct (PlayerAnim.frames_of _ "idle") as [frames|] eqn:E0.
    + pose proof (frames_of_nonempty _ _ _ E0) as Hlen.
      destruct (index_in_range frames 0) as [sprite Hs]; [lia|].
      rewrite Hs. simpl. eexists. split; [done|]. simpl.
      split; [done|]. split; done.
    + eexists. split; [done|]. simpl. split; [done|]. split; done.
Qed.

Lemma player_animation_stays_in_range_witness :
  exists self',
    PlayerAnim.update_animation (1 # 60) (game_player 100 100)
      (PlayerAnim.mk 7 0 (PlayerAnim.load_sprites (fun _ => true))
         Fallback) = Some self'
    /\ 0 <= PlayerAnim.animation_index self'.
Proof.
  destruct (player_animation_stays_in_range (1 # 60) (game_player 100 100)
              (PlayerAnim.mk 7 0 (PlayerAnim.load_sprites (fun _ => true))
                 Fallback))
    as (self' & Hrun & Hidx & _).
  - simpl. lia.
  - exists self'. by split.
Defined.


(** ** The dialogue timers *)

Lemma dialogue_box_update_inactive (dt : Q) (box : DialogueBox.t) :
  DialogueBox.active box = false -> DialogueBox.update dt box = box.
Proof. intros H. unfold DialogueBox.update. by rewrite H. Qed.

(** A frame that starts with [dialogue_timer] at 0 leaves it at 0 and
    does to the box what [DialogueBox.update] does. *)
Lemma frame_keeps_timer_inert (dt : Q) (player : Player.t)
    (self : QuestGame.t) :
  QuestGame.dialogue_timer self = 0%Q ->
  let self' := QuestGame.step self (QuestGame.Frame dt player) in
  QuestGame.dialogue_timer self' = 0%Q
  /\ QuestGame.dialogue_box self'
     = DialogueBox.update dt (QuestGame.dialogue_box self).
Proof.
  intros Htimer. simpl.
  destruct (check_medicine_collection_frame player
              (QuestGame.update_dialogue dt self))
    as (_ & _ & _ & _ & -> & -> & _).
  unfold QuestGame.update_dialogue, DialogueBox.is_active.
  destruct (DialogueBox.active (QuestGame.dialogue_box self)) eqn:E.
  - cbn [QuestGame.dialogue_timer QuestGame.set_dialogue_box].
    rewrite Htimer, ltb_irrefl.
    cbn [QuestGame.dialogue_timer QuestGame.dialogue_box
         QuestGame.set_dialogue_box].
    by split.
  - split; [done|]. by rewrite dialogue_box_update_inactive.
Qed.

(** X24: the auto-dismiss timer of [update_game] plays no part in a
    dialogue opened with E.  While the quest is not completed, pressing E
    opens an active box and sets [dialogue_timer] to 0; over any frames
    that follow without a key, [dialogue_timer] stays 0 and the box is
    what [DialogueBox.update] alone makes of it, frame by frame: only the
    box's own display time closes it. *)
Theorem dialogue_timer_is_inert_after_interaction (self : QuestGame.t)
    (frames : list (Q * Player.t)) :
  NPCQuest.quest_completed (QuestGame.npc self) = false ->
  let opened := QuestGame.interact_with_npc self in
  let self' := QuestGame.run opened (frame_events frames) in
  DialogueBox.active (QuestGame.dialogue_box opened) = true
  /\ DialogueBox.index (QuestGame.dialogue_box opened) = 0
  /\ QuestGame.dialogue_timer opened = 0%Q
  /\ QuestGame.dialogue_timer self' = 0%Q
  /\ QuestGame.dialogue_box self'
     = foldl (fun box f => DialogueBox.update f.1 box)
         (QuestGame.dialogue_box opened) frames.
Proof.
  intros Hq. cbn zeta.
  assert (Hopen :
    DialogueBox.active
      (QuestGame.dialogue_box (QuestGame.interact_with_npc self)) = true
    /\ DialogueBox.index
         (QuestGame.dialogue_box (QuestGame.interact_with_npc self)) = 0
    /\ QuestGame.dialogue_timer (QuestGame.interact_with_npc self) = 0%Q).
  { unfold QuestGame.interact_with_npc.
    destruct self as [[qa qc ri ci dl] items mc mr act counter box timer].
    simpl in Hq. subst qc. simpl. destruct qa; simpl; [|done].
    by destruct (mr <=? mc). }
  destruct Hopen as (Hactive & Hindex & Htimer).
  split; [done|]. split; [done|]. split; [done|].
  unfold QuestGame.run, frame_events.
  induction frames as [|[dt player] frames IH] using rev_ind; [done|].
  rewrite map_app, !foldl_app. simpl.
  destruct IH as [IHt IHb].
  destruct (frame_keeps_timer_inert dt player _ IHt) as [Ht Hb].
  simpl in Ht, Hb. split; [exact Ht|]. by rewrite Hb, IHb.
Qed.

Lemma dialogue_timer_is_inert_after_interaction_witness :
  let self' :=
    QuestGame.run
      (QuestGame.interact_with_npc (QuestGame.reset_game 1 1 1 None))
      (frame_events three_seconds) in
  QuestGame.dialogue_timer self' = 0%Q
  /\ DialogueBox.index (QuestGame.dialogue_box self') = 1.
Proof.
  destruct (dialogue_timer_is_inert_after_interaction
              (QuestGame.reset_game 1 1 1 None) three_seconds)
    as (_ & _ & _ & Ht & Hb); [reflexivity|].
  split; [exact Ht|]. rewrite Hb. vm_compute. reflexivity.
Defined.

(** ** Falling, frame after frame *)




(** An NPC that walks off an edge with its animation at the fourth run
    frame: the first frame of the fall, too short for the animation
    timer to fire, raises in [update_animation]. *)
Lemma falling_npc_animation_raises :
  NPC.on_ground (NPC.init 0 0 1) = false
  /\ NPC.update (1 # 60) no_keys None (NPC.init 0 0 1) run_anim = None.
Proof. split; [reflexivity|]. vm_compute. reflexivity. Qed.



